(** * elasdx: index template updating, reindexing and cleanup

    A shallow embedding of [elasticsearch/elasdx.go] and of the command
    actions of the [cli] package.  The Go functions talk to an
    ElasticSearch cluster through the [olivere/elastic] client; here every
    such call (and every other effect: the clock, the file system, the
    terminal) is a node of a program tree whose children are indexed by
    the possible answers.  One path through the tree is one run of the Go
    function.  Properties that hold whatever the cluster answers are
    stated over all paths ([exec]); properties about what the cluster
    holds afterwards are stated over a small reference cluster ([run]). *)

From Stdlib Require Import ZArith Lia String Ascii List.
From Stdlib Require Import Eqdep_dec.
From stdpp Require Import base gmap strings list sorting.

Open Scope string_scope.
Open Scope list_scope.

(** ** Go strings *)

Module GoStrings.

(** [strings.HasPrefix(s, prefix)] *)
Definition HasPrefix (s prefix : string) : bool := String.prefix prefix s.

(** [strings.HasSuffix(s, suffix)]:
    [len(s) >= len(suffix) && s[len(s)-len(suffix):] == suffix] *)
Definition HasSuffix (s suffix : string) : bool :=
  (String.length suffix <=? String.length s)%nat &&
  String.eqb
    (substring (String.length s - String.length suffix)
               (String.length suffix) s)
    suffix.

(** [strings.TrimSuffix(s, suffix)] *)
Definition TrimSuffix (s suffix : string) : string :=
  if HasSuffix s suffix
  then substring 0 (String.length s - String.length suffix) s
  else s.

Definition PathSeparator : ascii := "/"%char.

(** [filepath.Split(path)]: the path is cut after its last separator;
    the directory part keeps the separator, the file part has none. *)
Fixpoint Split (path : string) : string * string :=
  match path with
  | EmptyString => ("", "")
  | String c rest =>
      let '(dir, file) := Split rest in
      if String.eqb dir "" then
        if Ascii.eqb c PathSeparator then (String c "", file)
        else ("", String c file)
      else (String c dir, file)
  end.

(** The elements of a path: what stands between its separators. *)
Fixpoint pathElements (path : string) : list string :=
  match path with
  | EmptyString => [""]
  | String c rest =>
      if Ascii.eqb c PathSeparator then "" :: pathElements rest
      else match pathElements rest with
           | e :: es => String c e :: es
           | [] => [String c ""]
           end
  end.

(** One turn of the loop of [filepath.Clean], on the path element
    [elem]; [out] holds the elements written so far, the last one
    first.  A [..] takes the last element back, unless there is none
    or it is a [..] itself: then it is written when the path is not
    rooted, and dropped when it is. *)
Definition cleanElement (rooted : bool) (out : list string) (elem : string)
  : list string :=
  if String.eqb elem "" || String.eqb elem "." then out
  else if String.eqb elem ".." then
    match out with
    | top :: out' => if String.eqb top ".." then elem :: out else out'
    | [] => if rooted then [] else [elem]
    end
  else elem :: out.

Fixpoint joinElements (elems : list string) : string :=
  match elems with
  | [] => ""
  | [e] => e
  | e :: rest => e +:+ String PathSeparator "" +:+ joinElements rest
  end.

(** [filepath.Clean(path)] on Unix: the shortest path that names the
    same file by its letters alone; [.] for the empty one. *)
Definition Clean (path : string) : string :=
  match path with
  | EmptyString => "."
  | String c _ =>
      let rooted := Ascii.eqb c PathSeparator in
      let out := fold_left (cleanElement rooted) (pathElements path) [] in
      if rooted then String PathSeparator "" +:+ joinElements (rev out)
      else match out with
           | [] => "."
           | _ => joinElements (rev out)
           end
  end.

(** [filepath.Join(dir, name)]: the elements that follow the empty
    ones, joined by separators, and cleaned. *)
Definition Join (dir name : string) : string :=
  if negb (String.eqb dir "")
  then Clean (dir +:+ String PathSeparator "" +:+ name)
  else if negb (String.eqb name "") then Clean name
  else "".

(** [strings.ReplaceAll(s, old, new)] for a pattern [old] of one byte. *)
Fixpoint ReplaceAll (s : string) (old : ascii) (new : string) : string :=
  match s with
  | EmptyString => ""
  | String c rest =>
      if Ascii.eqb c old then new +:+ ReplaceAll rest old new
      else String c (ReplaceAll rest old new)
  end.

(** [strings.Split(s, sep)[0]]: what comes before the first [sep], the
    whole string when [sep] does not occur. *)
Definition SplitFirst (s sep : string) : string :=
  match String.index 0 sep s with
  | Some n => substring 0 n s
  | None => s
  end.

(** Decimal digits, as [strconv] and [fmt]'s [%d] print them. *)
Definition digit (n : nat) : ascii := ascii_of_nat (48 + n mod 10).

Fixpoint itoa_go (fuel n : nat) (acc : string) : string :=
  match fuel with
  | O => acc
  | S fuel' =>
      let acc' := String (digit n) acc in
      if (n <? 10)%nat then acc' else itoa_go fuel' (n / 10) acc'
  end.

Definition Itoa (n : nat) : string := itoa_go (S n) n "".

Definition FormatInt (z : Z) : string :=
  if (z <? 0)%Z then "-" +:+ Itoa (Z.to_nat (- z)) else Itoa (Z.to_nat z).

Fixpoint zeros (n : nat) : string :=
  match n with O => "" | S n' => String "0"%char (zeros n') end.

(** [appendInt(b, x, width)] of package [time] for [x >= 0]: the decimal
    digits of [x], padded with zeros on the left up to [width]. *)
Definition appendInt (x width : nat) : string :=
  zeros (width - String.length (Itoa x)) +:+ Itoa x.

Definition nl : string := String (ascii_of_nat 10) "".
Definition tab : string := String (ascii_of_nat 9) "".
Definition dq : string := String (ascii_of_nat 34) "".

(** [sort.Strings]: ascending order of Go's string comparison, which
    is bytewise.  Whatever algorithm the library runs, its result is
    the one sorted permutation of its input (see [sort_Strings_unique]). *)
Definition string_le (a b : string) : Prop := String.leb a b = true.

#[global] Instance string_le_dec : RelDecision string_le.
Proof. intros a b. unfold string_le. apply _. Defined.

Definition sort_Strings (l : list string) : list string :=
  merge_sort string_le l.

End GoStrings.
Import GoStrings.

(** ** Go errors *)

(** The error values the package handles: an [*elastic.Error] carrying
    the HTTP status of the cluster's answer, any other error (transport,
    file system), and the wrappers of [github.com/pkg/errors]. *)
Inductive error : Type :=
| ElasticError (status : Z) (details : string)
| OtherError (msg : string)
| withMessage (cause : error) (msg : string).

(** A Go value of type [error]: [None] is [nil]. *)
Abbreviation goerror := (option error).

(** [errors.Wrapf(err, format, args...)] and [errors.Wrap(err, msg)]:
      "Wrapf returns an error annotating err with a stack trace [...] and
       the format specifier. If err is nil, Wrapf returns nil." *)
Definition Wrapf (err : goerror) (msg : string) : goerror :=
  match err with
  | None => None
  | Some e => Some (withMessage e msg)
  end.

Definition Wrap := Wrapf.

(** [elastic.IsNotFound(err)]: the error is an [elastic.Error] of status
    404.  The test looks at the value itself, not through wrappers. *)
Definition IsNotFound (err : error) : bool :=
  match err with
  | ElasticError status _ => (status =? 404)%Z
  | _ => false
  end.

(** What a client call hands back: a value or an error. *)
Inductive result (T : Type) : Type :=
| Ok (v : T)
| Err (e : error).
Arguments Ok {T} v.
Arguments Err {T} e.

(** ** Data of the client API *)

(** A decoded JSON value ([interface{}] after [json.Unmarshal]). *)
#[warnings="-register-all"]
Inductive JSON : Type :=
| JNull
| JBool (b : bool)
| JNumber (n : Z)
| JString (s : string)
| JArray (l : list JSON)
| JObject (m : gmap string JSON).

(** [elastic.IndicesGetTemplateResponse]; [Settings] is a
    [map[string]interface{}]. *)
Record IndicesGetTemplateResponse : Type := {
  IndexPatterns : list string;
  Settings : gmap string JSON;
}.

(** [elastic.AliasesResult]: for each index of the answer, the names of
    its aliases.  The list order stands for Go's iteration order over
    the [Indices] map. *)
Definition AliasesResult : Type := list (string * list string).

(** The method [IndicesByAlias(aliasName)] of an [AliasesResult]. *)
Definition IndicesByAlias (r : AliasesResult) (aliasName : string) : list string :=
  flat_map
    (fun '(indexName, aliasNames) =>
       flat_map (fun a => if String.eqb a aliasName then [indexName] else [])
                aliasNames)
    r.

(** [os.FileInfo], as far as the package looks at it. *)
Record FileInfo : Type := { Name : string; IsDir : bool }.

(** A wall-clock reading, [time.Now()], by calendar fields. *)
Record Time : Type := {
  Year : nat; Month : nat; Day : nat;
  Hour : nat; Minute : nat; Second : nat;
}.

(** [t.Format("2006-01-02-15:04:05")] *)
Definition Format (t : Time) : string :=
  appendInt (Year t) 4 +:+ "-" +:+ appendInt (Month t) 2 +:+ "-" +:+
  appendInt (Day t) 2 +:+ "-" +:+ appendInt (Hour t) 2 +:+ ":" +:+
  appendInt (Minute t) 2 +:+ ":" +:+ appendInt (Second t) 2.

(** [elastic.ReindexSource] and [elastic.ReindexDestination]. *)
Record ReindexSource : Type := {
  src_index : string;
  src_remote : option (string * string);   (* host, socket timeout *)
}.

Record ReindexDestination : Type := {
  dst_index : string;
  dst_version_type : string;
}.

(** The options given to [elastic.NewClient]. *)
Record ClientOptions : Type := {
  opt_scheme : string;
  opt_url : string;
  opt_skip_verify : bool;
  opt_basic_auth : option (string * string);
  opt_sniff : bool;
}.

(** ** Effects *)

(** Every effect of the package: the client calls, named after the
    client's methods, and the few calls on the operating system. *)
Inductive Call : Type :=
| ReadFile (filePath : string)
| ReadDir (dirname : string)
| TimeNow
| Print (s : string)
| ShowCommandHelp (command : string)
| NewClient (opts : ClientOptions)
| IndexPutTemplate (name : string) (includeTypeName : bool) (body : string)
| IndexExists (name : string)
| CreateIndex (name : string)
| IndexPutSettings (name body : string)
| Aliases (alias : string)
| ReindexDocs (src : ReindexSource) (dst : ReindexDestination)
              (refresh conflicts : string)
| IndexGetTemplate (name : string)
| AliasRemove (index alias : string)
| AliasAdd (index alias : string)
| IndexNames
| DeleteIndex (name : string).

(** The type of the answer to each call.  Calls answered by an
    acknowledgement carry its [Acknowledged] field; [ReindexDocs] carries
    the [Total] of the response. *)
Definition Resp (c : Call) : Type :=
  match c with
  | ReadFile _ => result string
  | ReadDir _ => result (list FileInfo)
  | TimeNow => Time
  | Print _ => unit
  | ShowCommandHelp _ => unit
  | NewClient _ => result unit
  | IndexPutTemplate _ _ _ => result bool
  | IndexExists _ => result bool
  | CreateIndex _ => result bool
  | IndexPutSettings _ _ => result bool
  | Aliases _ => result AliasesResult
  | ReindexDocs _ _ _ _ => result Z
  | IndexGetTemplate _ => result (gmap string IndicesGetTemplateResponse)
  | AliasRemove _ _ => result bool
  | AliasAdd _ _ => result bool
  | IndexNames => result (list string)
  | DeleteIndex _ => result bool
  end.

(** A Go function body: it returns, panics, ends the process
    ([os.Exit]), or makes a call and goes on with the answer. *)
Inductive Prog (A : Type) : Type :=
| Ret (a : A)
| Panic (reason : string)
| Exit (code : Z)
| Do (c : Call) (k : Resp c -> Prog A).
Arguments Ret {A} a.
Arguments Panic {A} reason.
Arguments Exit {A} code.
Arguments Do {A} c k.

Fixpoint bind {A B : Type} (p : Prog A) (f : A -> Prog B) : Prog B :=
  match p with
  | Ret a => f a
  | Panic reason => Panic reason
  | Exit code => Exit code
  | Do c k => Do c (fun r => bind (k r) f)
  end.

#[global] Instance Prog_ret : MRet Prog := @Ret.
#[global] Instance Prog_bind : MBind Prog := fun A B f p => bind p f.

Definition call (c : Call) : Prog (Resp c) := Do c Ret.
Definition print (s : string) : Prog unit := call (Print s).
Definition when (b : bool) (p : Prog unit) : Prog unit :=
  if b then p else Ret tt.

(** How a run ends. *)
Inductive Outcome (A : Type) : Type :=
| Returned (a : A)
| Panicked (reason : string)
| Exited (code : Z).
Arguments Returned {A} a.
Arguments Panicked {A} reason.
Arguments Exited {A} code.

(** A body that stops without returning stops the bodies built on it. *)
Definition stopped {A B : Type} (o : Outcome A) : option (Outcome B) :=
  match o with
  | Returned _ => None
  | Panicked reason => Some (Panicked reason)
  | Exited code => Some (Exited code)
  end.

(** One call together with the answer it got. *)
Inductive Event : Type := Ev (c : Call) (r : Resp c).

Definition call_of (e : Event) : Call := let 'Ev c _ := e in c.
Definition calls (t : list Event) : list Call := map call_of t.

(** [exec p t o]: the body [p] can make the calls of [t], getting the
    answers of [t], and then end as [o]. *)
Fixpoint exec {A : Type} (p : Prog A) (t : list Event) (o : Outcome A) : Prop :=
  match p with
  | Ret a => t = [] /\ o = Returned a
  | Panic reason => t = [] /\ o = Panicked reason
  | Exit code => t = [] /\ o = Exited code
  | Do c k => exists (r : Resp c) (t' : list Event),
      t = Ev c r :: t' /\ exec (k r) t' o
  end.

(** Running a body against an environment that answers each call from
    its state. *)
Definition Handler (W : Type) : Type := forall c : Call, W -> Resp c * W.

Fixpoint run {W A : Type} (h : Handler W) (p : Prog A) (w : W)
  : Outcome A * W * list Event :=
  match p with
  | Ret a => (Returned a, w, [])
  | Panic reason => (Panicked reason, w, [])
  | Exit code => (Exited code, w, [])
  | Do c k =>
      let '(r, w1) := h c w in
      let '(o, w2, t) := run h (k r) w1 in
      (o, w2, Ev c r :: t)
  end.

(** Two steps that return an [error], one after the other
    ([if err := step(); err != nil { return err }]): a non-nil error of
    the first is returned at once. *)
Definition andThen (p k : Prog goerror) : Prog goerror :=
  e ← p;
  match e with
  | Some _ => Ret e
  | None => k
  end.

(** A loop over a slice whose body may return from the enclosing
    function: [Some e] is [return e], [None] goes on. *)
Fixpoint forEach {X : Type} (l : list X) (body : X -> Prog goerror) : Prog goerror :=
  match l with
  | [] => Ret None
  | x :: l' => andThen (body x) (forEach l' body)
  end.

(** Go's two results [(value, err)] of a client call. *)
Definition go_pair {T : Type} (zero : T) (r : result T) : T * goerror :=
  match r with
  | Ok v => (v, None)
  | Err e => (zero, Some e)
  end.

(** Go's [int] on the amd64 build: 64 bits, two's complement. *)
Definition wrap_int (z : Z) : Z := ((z + 2 ^ 63) mod 2 ^ 64 - 2 ^ 63)%Z.
Definition MaxInt : Z := (2 ^ 63 - 1)%Z.
Definition MinInt : Z := (- 2 ^ 63)%Z.

(** ** Package [elasticsearch] *)

Module elasticsearch.

(** The labels of the progress lines.  [color.GreenString] and its
    siblings are taken without the terminal's colour escapes. *)
Definition IndexTemplatePrefix := "INDEX TEMPLATE  ".
Definition IndexPrefix := "INDEX           ".
Definition DocumentsPrefix := "DOCUMENTS       ".
Definition AliasPrefix := "ALIAS           ".
Definition SettingsPrefix := "SETTINGS        ".
Definition Added := "Added      ".
Definition Created := "Created    ".
Definition Removed := "Removed    ".
Definition Deleted := "Deleted    ".
Definition Updated := "Updated    ".
Definition Reindexed := "Reindexed  ".
Definition Info := "Info       ".

Definition quoted (s : string) : string := dq +:+ s +:+ dq.
Fixpoint tabs (n : nat) : string :=
  match n with O => "" | S n' => tab +:+ tabs n' end.

(** [fmt.Printf("%s %s %s\n", a, b, c)] *)
Definition line3 (a b c : string) : string :=
  a +:+ " " +:+ b +:+ " " +:+ c +:+ nl.

(** The destination index name, lines 53 to 59 of
    [UpdateTemplateAndCreateNewIndex]. *)
Definition dateSuffix (now : Time) : string :=
  ReplaceAll (Format now) ":"%char "-".

Definition destinationIndex (index : string) (now : Time)
           (newIndexName extraSuffix : string) : string :=
  let dateSuffix := dateSuffix now in
  if String.eqb newIndexName "" then
    let dateSuffix :=
      if negb (String.eqb extraSuffix "")
      then dateSuffix +:+ "-" +:+ extraSuffix
      else dateSuffix in
    index +:+ "-" +:+ dateSuffix
  else newIndexName.

Definition indexingSettings : string :=
  "{" +:+ nl +:+
  tabs 3 +:+ quoted "index" +:+ " : {" +:+ nl +:+
  tabs 4 +:+ quoted "refresh_interval" +:+ " : " +:+ quoted "-1" +:+ "," +:+ nl +:+
  tabs 4 +:+ quoted "number_of_replicas" +:+ ": " +:+ quoted "0" +:+ nl +:+
  tabs 3 +:+ "}" +:+ nl +:+
  tabs 2 +:+ "}" +:+ nl +:+
  tabs 2.

Definition bulkSettingsFailure (newIndexName : string) : string :=
  "failed setting index refresh_interval/replica settings for index "
    +:+ newIndexName.

Definition UpdateTemplateAndCreateNewIndex
           (filePath newIndexName : string)
           (bulkIndexing includeTypeName : bool)
           (extraSuffix : string) : Prog (string * goerror) :=
  rd ← call (ReadFile filePath);
  match rd with
  | Err err => Ret ("", Wrapf (Some err) ("failed reading file " +:+ filePath))
  | Ok bytes =>
      (* Our index name, index template *)
      let '(_, fileName) := Split filePath in
      let index := TrimSuffix fileName ".json" in
      let mapping := bytes in
      (* Update the template *)
      put ← call (IndexPutTemplate index includeTypeName mapping);
      match put with
      | Err err =>
          Ret ("", Wrapf (Some err) ("failed updating index template " +:+ index))
      | Ok acknowledged =>
          when (negb acknowledged)
               (print ("PUT index/" +:+ index +:+ " not acknowledged" +:+ nl));;
          print (line3 IndexTemplatePrefix Updated index);;
          (* Create a unique time-stamped index *)
          now ← call TimeNow;
          let newIndexName := destinationIndex index now newIndexName extraSuffix in
          ex ← call (IndexExists newIndexName);
          match ex with
          | Err err =>
              Ret ("", Wrapf (Some err) ("failed checking for index " +:+ newIndexName))
          | Ok exists_ =>
              created ←
                (if negb exists_ then
                   cr ← call (CreateIndex newIndexName);
                   match cr with
                   | Err err =>
                       Ret (Wrapf (Some err) ("failed creating index " +:+ newIndexName))
                   | Ok acknowledged =>
                       when (negb acknowledged)
                            (print ("index creation not acknowledged" +:+ nl));;
                       print (line3 IndexPrefix Created newIndexName);;
                       Ret None
                   end
                 else
                   print (line3 IndexPrefix Updated newIndexName);;
                   Ret None);
              match created with
              | Some e => Ret ("", Some e)
              | None =>
                  if bulkIndexing then
                    st ← call (IndexPutSettings newIndexName indexingSettings);
                    match st with
                    | Err err =>
                        Ret ("", Wrapf (Some err) (bulkSettingsFailure newIndexName))
                    | Ok acknowledged =>
                        when (negb acknowledged)
                             (print ("index settings not acknowledged" +:+ nl));;
                        print (SettingsPrefix +:+ " " +:+ Updated +:+
                               " refresh_interval(0)/replica(-1) for " +:+
                               newIndexName +:+ " " +:+ nl);;
                        Ret (newIndexName, None)
                    end
                  else Ret (newIndexName, None)
              end
          end
      end
  end.

(** The loop of [UpdateTemplatesAndCreateNewIndices] over the
    directory entries; the map is the loop's accumulator. *)
Fixpoint provisionFiles (templatesDir : string) (files : list FileInfo)
         (bulkIndexing includeTypeName : bool) (extraSuffix : string)
         (aliasToNewIndex : gmap string string)
  : Prog (option (gmap string string) * goerror) :=
  match files with
  | [] => Ret (Some aliasToNewIndex, None)
  | file :: files' =>
      (* ignore the ..data symlink folder of a mounted ConfigMap *)
      if HasPrefix (Name file) "." || IsDir file then
        provisionFiles templatesDir files' bulkIndexing includeTypeName
                       extraSuffix aliasToNewIndex
      else
        let filePath := Join templatesDir (Name file) in
        '(newIndex, err) ←
          UpdateTemplateAndCreateNewIndex filePath "" bulkIndexing
                                          includeTypeName extraSuffix;
        match err with
        | Some _ =>
            Ret (None, Wrapf err ("failed create new index from updated template "
                                    +:+ filePath))
        | None =>
            let alias := TrimSuffix (Name file) ".json" in
            provisionFiles templatesDir files' bulkIndexing includeTypeName
                           extraSuffix (<[alias := newIndex]> aliasToNewIndex)
        end
  end.

Definition UpdateTemplatesAndCreateNewIndices
           (templatesDir : string) (bulkIndexing includeTypeName : bool)
           (extraSuffix : string)
  : Prog (option (gmap string string) * goerror) :=
  rd ← call (ReadDir templatesDir);
  match rd with
  | Err err =>
      Ret (None, Wrapf (Some err)
                   ("failed reading files in directory " +:+ templatesDir))
  | Ok files =>
      provisionFiles templatesDir files bulkIndexing includeTypeName
                     extraSuffix ∅
  end.

(** The body of the removal loop of [UpdateAlias], lines 229 to 238. *)
Definition removeFromAlias (alias index : string) : Prog goerror :=
  rm ← call (AliasRemove index alias);
  match rm with
  | Err err =>
      Ret (Wrapf (Some err)
             ("failed removing index " +:+ index +:+ " from alias " +:+ alias))
  | Ok acknowledged =>
      when (negb acknowledged)
           (print ("alias removal not acknowledged" +:+ nl));;
      print (AliasPrefix +:+ " " +:+ Removed +:+ " " +:+ index +:+
             " from " +:+ alias +:+ nl);;
      Ret None
  end.

(** The end of [UpdateAlias], lines 247 to 259. *)
Definition addToAlias (alias newIndex : string) : Prog goerror :=
  (* Add our new index which has been reindex with the existing data
     to the alias *)
  add ← call (AliasAdd newIndex alias);
  match add with
  | Err err =>
      Ret (Wrapf (Some err)
             ("failed adding index " +:+ newIndex +:+ " to alias " +:+ alias))
  | Ok acknowledged =>
      when (negb acknowledged)
           (print ("alias addition not acknowledged" +:+ nl));;
      print (AliasPrefix +:+ " " +:+ Added +:+ " " +:+ newIndex +:+
             " to " +:+ alias +:+ nl);;
      Ret None
  end.

(** The removal step of [UpdateAlias], lines 225 to 245, on the
    answer to the alias lookup. *)
Definition removeFromAll (alias : string) (lookup : result AliasesResult)
  : Prog goerror :=
  match lookup with
  | Ok aliasResult =>
      (* Remove the existing index from the alias *)
      let indicesFromAlias := IndicesByAlias aliasResult alias in
      forEach indicesFromAlias (removeFromAlias alias)
  | Err err =>
      if negb (IsNotFound err) then
        Ret (Wrapf (Some err) ("failed trying to lookup alias " +:+ alias))
      else
        print (AliasPrefix +:+ " " +:+ Info +:+ " " +:+ alias +:+
               " not found, must be a new index" +:+ nl);;
        Ret None
  end.

Definition UpdateAlias (alias newIndex : string) : Prog goerror :=
  ex ← call (IndexExists newIndex);
  let '(exists_, err) := go_pair false ex in
  if bool_decide (err <> None) || negb exists_ then
    print ("failed checking for index " +:+ newIndex);;
    Ret (Wrapf err ("failed checking for index " +:+ newIndex))
  else
    lookup ← call (Aliases alias);
    andThen (removeFromAll alias lookup) (addToAlias alias newIndex).

(** The body of the reindex loop of [ReindexOne], lines 154 to 171. *)
Definition reindexFrom (index newIndex remoteSrc : string)
           (versionExternal : bool) : Prog goerror :=
  let targetVersionType := if versionExternal then "external" else "internal" in
  let src :=
    if negb (String.eqb remoteSrc "")
    then {| src_index := index; src_remote := Some (remoteSrc, "5m") |}
    else {| src_index := index; src_remote := None |} in
  let dst := {| dst_index := newIndex; dst_version_type := targetVersionType |} in
  refresh ← call (ReindexDocs src dst "true" "proceed");
  match refresh with
  | Err err =>
      Ret (Wrapf (Some err)
             ("failed reindexing from " +:+ index +:+ " to " +:+ newIndex))
  | Ok total =>
      print (DocumentsPrefix +:+ " " +:+ Reindexed +:+ " " +:+ FormatInt total
             +:+ " from " +:+ index +:+ " to " +:+ newIndex +:+ nl);;
      Ret None
  end.

(** The document-copy step of [ReindexOne], lines 146 to 173.
    [aliasResult] is the pointer the lookup returned, [None] for nil. *)
Definition copyDocuments (alias newIndex remoteSrc : string)
           (versionExternal reindexingRequired : bool)
           (aliasResult : option AliasesResult) : Prog goerror :=
  if reindexingRequired || negb (String.eqb remoteSrc "") then
    (* Default to alias name (used for remote clusters only) *)
    indicesFromAlias ←
      (if String.eqb remoteSrc "" then
         match aliasResult with
         | Some r => Ret (IndicesByAlias r alias)
         | None => Panic "invalid memory address or nil pointer dereference"
         end
       else Ret [alias]);
    forEach indicesFromAlias (fun index =>
      reindexFrom index newIndex remoteSrc versionExternal)
  else Ret None.

(** [templates[alias].Settings["index"].(map[string]interface{})[key]]
    in its two-result form: the value and whether the key is there.
    A missing template is a nil pointer, and a [Settings] without an
    ["index"] object fails the type assertion: both panic. *)
Definition indexSetting (templates : gmap string IndicesGetTemplateResponse)
           (alias key : string) : Prog (option JSON) :=
  match templates !! alias with
  | None => Panic "invalid memory address or nil pointer dereference"
  | Some template =>
      match Settings template !! "index" with
      | Some (JObject index) => Ret (index !! key)
      | _ => Panic "interface conversion: interface {} is not map[string]interface {}"
      end
  end.

(** [v.(string)] *)
Definition assertString (v : JSON) : Prog string :=
  match v with
  | JString s => Ret s
  | _ => Panic "interface conversion: interface {} is not string"
  end.

Definition resetRefreshInterval (seconds replicas : string) : string :=
  "{" +:+ nl +:+
  tabs 2 +:+ quoted "index" +:+ " : {" +:+ nl +:+
  tabs 3 +:+ quoted "refresh_interval" +:+ " : " +:+ seconds +:+ "," +:+ nl +:+
  tabs 3 +:+ quoted "number_of_replicas" +:+ " : " +:+ replicas +:+ nl +:+
  tabs 2 +:+ "}" +:+ nl +:+
  tabs 1 +:+ "}" +:+ nl +:+
  tabs 1.

(** The settings-restore step of [ReindexOne], lines 177 to 209. *)
Definition restoreSettings (alias newIndex : string) : Prog goerror :=
  got ← call (IndexGetTemplate alias);
  match got with
  | Err err =>
      Ret (Wrapf (Some err) ("failed to retrieve index template " +:+ alias))
  | Ok templates =>
      refreshInterval ← indexSetting templates alias "refresh_interval";
      seconds ←
        match refreshInterval with
        | Some v => s ← assertString v; Ret (quoted s)
        | None => Ret "null"
        end;
      replicaCount ← indexSetting templates alias "number_of_replicas";
      replicas ←
        match replicaCount with
        | Some v => s ← assertString v; Ret (quoted s)
        | None => Ret "null"
        end;
      (* Reset the refresh interval to either whatever is specified in
         the index template or the default (using null) *)
      st ← call (IndexPutSettings newIndex (resetRefreshInterval seconds replicas));
      match st with
      | Err err =>
          Ret (Wrapf (Some err)
                 ("failed setting index bulkimport/replica settings for index "
                    +:+ newIndex))
      | Ok acknowledged =>
          when (negb acknowledged)
               (print ("index settings not acknowledged" +:+ nl));;
          print (SettingsPrefix +:+ " " +:+ Updated +:+
                 " refresh_interval/replica for " +:+ newIndex +:+
                 " reset to template values" +:+ nl);;
          Ret None
      end
  end.

(** The end of [ReindexOne], lines 175 to 215: the settings are
    restored and the alias is swapped, each unless suppressed. *)
Definition restoreAndSwap (alias newIndex : string)
           (noUpdateAlias bulkIndexing : bool) : Prog goerror :=
  andThen
    (* We don't reset the refresh/replca values unless we're either
       updating the index Alias or bulkIndexing isn't set *)
    (if negb noUpdateAlias || negb bulkIndexing
     then restoreSettings alias newIndex
     else Ret None)
    (if negb noUpdateAlias
     then UpdateAlias alias newIndex
     else Ret None).

(** [ReindexOne] after its alias lookup, line 144 onwards. *)
Definition reindexSteps (alias newIndex remoteSrc : string)
           (versionExternal noUpdateAlias bulkIndexing : bool)
           (reindexingRequired : bool) (aliasResult : option AliasesResult)
  : Prog goerror :=
  andThen
    (copyDocuments alias newIndex remoteSrc versionExternal
                   reindexingRequired aliasResult)
    (restoreAndSwap alias newIndex noUpdateAlias bulkIndexing).

Definition ReindexOne (alias newIndex remoteSrc : string)
           (versionExternal noUpdateAlias bulkIndexing : bool) : Prog goerror :=
  (* Try to find the alias *)
  lookup ← call (Aliases alias);
  match lookup with
  | Err err =>
      (* It's okay if we can't find the alias; it means we are
         provisioning from scratch *)
      if negb (IsNotFound err) then
        Ret (Wrapf (Some err) ("failed trying to lookup alias " +:+ alias))
      else
        reindexSteps alias newIndex remoteSrc versionExternal noUpdateAlias
                     bulkIndexing false None
  | Ok aliasResult =>
      reindexSteps alias newIndex remoteSrc versionExternal noUpdateAlias
                   bulkIndexing true (Some aliasResult)
  end.

Definition resetAllocation (allocation : string) : string :=
  "{" +:+ nl +:+
  tabs 2 +:+ quoted "index" +:+ " : {" +:+ nl +:+
  tabs 3 +:+ quoted "routing.allocation.require._name" +:+ " : " +:+
    quoted allocation +:+ nl +:+
  tabs 2 +:+ "}" +:+ nl +:+
  tabs 1 +:+ "}" +:+ nl +:+
  tabs 1.

Definition UpdateHostAllocation (newIndex allocation : string) : Prog goerror :=
  st ← call (IndexPutSettings newIndex (resetAllocation allocation));
  match st with
  | Err err =>
      Ret (Wrapf (Some err)
             ("failed setting routing allocation to " +:+ allocation +:+
              " for index " +:+ newIndex))
  | Ok _ =>
      print (SettingsPrefix +:+ " " +:+ Updated +:+ " Allocation set to " +:+
             allocation +:+ nl);;
      Ret None
  end.

(** The body of the loop of [ReindexAll], lines 282 to 284. *)
Definition reindexEntry (remoteSrc : string) (entry : string * string)
  : Prog goerror :=
  let '(alias, newIndex) := entry in
  err ← ReindexOne alias newIndex remoteSrc false false false;
  match err with
  | Some _ =>
      Ret (Wrapf err ("failed reindexing to " +:+ newIndex +:+
                      " and adding to alias " +:+ alias))
  | None => Ret None
  end.

(** [ReindexAll] with the entries of the map in the order the [range]
    statement yields them, which Go leaves open. *)
Definition ReindexAllIn (entries : list (string * string))
           (remoteSrc : string) : Prog goerror :=
  forEach entries (reindexEntry remoteSrc).

Definition ReindexAll (aliasToNewIndex : gmap string string)
           (remoteSrc : string) : Prog goerror :=
  ReindexAllIn (map_to_list aliasToNewIndex) remoteSrc.

(** The body of the deletion loop of [CleanupOne], lines 307 to 316. *)
Definition deleteIndex (name : string) : Prog goerror :=
  response ← call (DeleteIndex name);
  match response with
  | Err err =>
      Ret (Wrapf (Some err)
             ("error deleting index " +:+ name +:+ ", not continuing"))
  | Ok acknowledged =>
      when (negb acknowledged)
           (print "index deletion not acknowledged");;
      print (line3 IndexPrefix Deleted name);;
      Ret None
  end.

(** The deletion loop of [CleanupOne],
    [for i := 0; i < len(matches)-maxHistory; i++], entered at index
    [i] with [remaining] passes to go.  [matches[i]] panics when [i]
    is not an index of the slice. *)
Fixpoint deleteLoop (matches : list string) (i remaining : nat) : Prog goerror :=
  match remaining with
  | O => Ret None
  | S remaining' =>
      match matches !! i with
      | None => Panic "index out of range"
      | Some name =>
          andThen (deleteIndex name) (deleteLoop matches (S i) remaining')
      end
  end.

Definition CleanupOne (indexTemplateName : string) (maxHistory : Z)
  : Prog goerror :=
  names ← call IndexNames;
  match names with
  | Err err => Ret (Wrap (Some err) "could not get index names")
  | Ok indices =>
      let matches :=
        List.filter (fun index => HasPrefix index indexTemplateName) indices in
      let matches := sort_Strings matches in
      let bound := wrap_int (Z.of_nat (length matches) - maxHistory) in
      deleteLoop matches 0 (Z.to_nat bound)
  end.

Definition CleanupAll (templatesDir : string) (maxHistory : Z) : Prog goerror :=
  rd ← call (ReadDir templatesDir);
  match rd with
  | Err err =>
      Ret (Wrapf (Some err)
             ("failed reading files in directory " +:+ templatesDir))
  | Ok files =>
      forEach files (fun file =>
        let indexTemplateName := TrimSuffix (Name file) ".json" in
        CleanupOne indexTemplateName maxHistory)
  end.

End elasticsearch.

(** ** Package [cli] *)

Module cli.

(** A parsed command line ([*cli.Context]): the positional arguments,
    the values of the command's flags and of the global flags, and
    the names of the flags that were given. *)
Record Context : Type := {
  Args : list string;
  stringFlags : gmap string string;
  boolFlags : gmap string bool;
  intFlags : gmap string Z;
  setFlags : gset string;
  globalStringFlags : gmap string string;
  globalBoolFlags : gmap string bool;
}.

Definition NArg (c : Context) : nat := length (Args c).
Definition First (c : Context) : string := hd "" (Args c).
Definition ctxString (c : Context) (name : string) : string :=
  default "" (stringFlags c !! name).
Definition ctxBool (c : Context) (name : string) : bool :=
  default false (boolFlags c !! name).
Definition ctxInt (c : Context) (name : string) : Z :=
  default 0%Z (intFlags c !! name).
Definition IsSet (c : Context) (name : string) : bool :=
  bool_decide (name ∈ setFlags c).
Definition GlobalString (c : Context) (name : string) : string :=
  default "" (globalStringFlags c !! name).
Definition GlobalBool (c : Context) (name : string) : bool :=
  default false (globalBoolFlags c !! name).

(** The command line [c] with other values for its boolean flags. *)
Definition withBoolFlags (flags : gmap string bool) (c : Context) : Context :=
  {| Args := Args c; stringFlags := stringFlags c;
     boolFlags := flags; intFlags := intFlags c;
     setFlags := setFlags c;
     globalStringFlags := globalStringFlags c;
     globalBoolFlags := globalBoolFlags c |}.

(** [cli.ShowCommandHelpAndExit(c, command, code)] *)
Definition ShowCommandHelpAndExit {A : Type} (command : string) (code : Z)
  : Prog A :=
  call (ShowCommandHelp command);; Exit code.

Definition connectFailure : string := "error connecting to ElasticSearch".

Definition usage : string :=
  "This command requires a json index template file path or a directory of json index templates"
    +:+ nl +:+ nl.

Definition getClient (c : Context) : Prog (result unit) :=
  let url := GlobalString c "url" in
  let scheme := SplitFirst url "://" in
  let username := ctxString c "username" in
  let password := ctxString c "password" in
  let skipVerify := GlobalBool c "skip-verify" in
  let hasBasicAuth := (0 <? String.length username)%nat in
  if hasBasicAuth then
    call (NewClient {| opt_scheme := scheme; opt_url := url;
                       opt_skip_verify := skipVerify;
                       opt_basic_auth := Some (username, password);
                       opt_sniff := false |})
  else
    call (NewClient {| opt_scheme := scheme; opt_url := url;
                       opt_skip_verify := skipVerify;
                       opt_basic_auth := None;
                       opt_sniff := false |}).

(** The action of the [cleanup] command. *)
Definition Cleanup (c : Context) : Prog goerror :=
  (if (NArg c =? 0)%nat || (1 <? NArg c)%nat
   then print usage;; ShowCommandHelpAndExit "cleanup" 1
   else Ret tt);;
  client ← getClient c;
  match client with
  | Err err => Ret (Wrap (Some err) connectFailure)
  | Ok _ =>
      if HasSuffix (First c) ".json" then
        let filePath := First c in
        let '(_, fileName) := Split filePath in
        let alias := TrimSuffix fileName ".json" in
        elasticsearch.CleanupOne alias (ctxInt c "max-history")
      else
        let directory := First c in
        elasticsearch.CleanupAll directory (ctxInt c "max-history")
  end.

(** The action of the [update-alias] command. *)
Definition UpdateAlias (c : Context) : Prog goerror :=
  (if negb (IsSet c "alias") || negb (IsSet c "dest-index")
   then print usage;; ShowCommandHelpAndExit "reindex" 1
   else Ret tt);;
  client ← getClient c;
  match client with
  | Err err => Ret (Wrap (Some err) connectFailure)
  | Ok _ =>
      elasticsearch.UpdateAlias (ctxString c "alias") (ctxString c "dest-index")
  end.

Section Reindex.

(** The command file calls [ReindexOne] and [ReindexAll] without
    their remote-source argument; what is passed for it is left
    open here. *)
Variable remoteSrc : string.

Definition destIndexUnsupported : string :=
  "--dest-index not supported with multiple indexes, please only specify one index template .json.".

(** An optional routing-allocation update, made when [flag] was given. *)
Definition allocateIfSet (c : Context) (flag newIndex : string) : Prog goerror :=
  if IsSet c flag
  then elasticsearch.UpdateHostAllocation newIndex (ctxString c flag)
  else Ret None.

(** The action of the [reindex] command. *)
Definition Reindex (c : Context) : Prog goerror :=
  (if (NArg c =? 0)%nat || (1 <? NArg c)%nat
   then print usage;; ShowCommandHelpAndExit "reindex" 1
   else Ret tt);;
  client ← getClient c;
  match client with
  | Err err => Ret (Wrap (Some err) connectFailure)
  | Ok _ =>
      if HasSuffix (First c) ".json" then
        (* Single index *)
        let filePath := First c in
        '(newIndex, err) ←
          elasticsearch.UpdateTemplateAndCreateNewIndex
            filePath (ctxString c "dest-index") (ctxBool c "bulk-indexing")
            (ctxBool c "include-type-name") (ctxString c "extra-suffix");
        match err with
        | Some _ => Ret err
        | None =>
            andThen
              (allocateIfSet c "reindex-host-allocation" newIndex)
              (let '(_, fileName) := Split filePath in
               let alias := TrimSuffix fileName ".json" in
               andThen
                 (elasticsearch.ReindexOne
                    alias newIndex remoteSrc (ctxBool c "version-external")
                    (ctxBool c "no-update-alias") (ctxBool c "bulk-indexing"))
                 (allocateIfSet c "dest-host-allocation" newIndex))
        end
      else
        (* Multiple indexes *)
        (if IsSet c "dest-index"
         then print destIndexUnsupported;; ShowCommandHelpAndExit "reindex" 1
         else Ret tt);;
        let directory := First c in
        '(aliasToNewIndex, err) ←
          elasticsearch.UpdateTemplatesAndCreateNewIndices
            directory (ctxBool c "bulk-indexing")
            (ctxBool c "include-type-name") (ctxString c "extra-suffix");
        match err with
        | Some _ => Ret err
        | None =>
            elasticsearch.ReindexAll (default ∅ aliasToNewIndex) remoteSrc
        end
  end.

End Reindex.

End cli.

(** Equality of calls is decidable. *)
#[global] Instance ReindexSource_eq_dec : EqDecision ReindexSource.
Proof. solve_decision. Defined.
#[global] Instance ReindexDestination_eq_dec : EqDecision ReindexDestination.
Proof. solve_decision. Defined.
#[global] Instance ClientOptions_eq_dec : EqDecision ClientOptions.
Proof. solve_decision. Defined.
#[global] Instance Call_eq_dec : EqDecision Call.
Proof. solve_decision. Defined.

(** ** A reference cluster

    A small model of what the client talks to: a cluster that answers
    every call from its state and never fails in transport.  Its errors
    are the ones ElasticSearch itself reports (404 for an index, alias
    or template that is not there, 400 for an index that already is).
    It stands for the environment, not for code of the package. *)

Module Cluster.

Record State : Type := {
  indices : list string;                 (* in the order [IndexNames] lists them *)
  carries : gset (string * string);      (* (index, alias): the index carries the alias *)
  templates : gmap string string;        (* template name to the body last put *)
  settings : gmap string (list string);  (* index to the settings bodies put, latest first *)
  documents : gmap string (gset string); (* index to the ids of its documents *)
  files : gmap string string;
  dirs : gmap string (list FileInfo);
  clock : Time;
  output : list string;                  (* lines printed, latest first *)
}.

Definition set_indices (l : list string) (w : State) : State :=
  {| indices := l; carries := carries w; templates := templates w;
     settings := settings w; documents := documents w; files := files w;
     dirs := dirs w; clock := clock w; output := output w |}.
Definition set_carries (s : gset (string * string)) (w : State) : State :=
  {| indices := indices w; carries := s; templates := templates w;
     settings := settings w; documents := documents w; files := files w;
     dirs := dirs w; clock := clock w; output := output w |}.
Definition set_templates (m : gmap string string) (w : State) : State :=
  {| indices := indices w; carries := carries w; templates := m;
     settings := settings w; documents := documents w; files := files w;
     dirs := dirs w; clock := clock w; output := output w |}.
Definition set_settings (m : gmap string (list string)) (w : State) : State :=
  {| indices := indices w; carries := carries w; templates := templates w;
     settings := m; documents := documents w; files := files w;
     dirs := dirs w; clock := clock w; output := output w |}.
Definition set_documents (m : gmap string (gset string)) (w : State) : State :=
  {| indices := indices w; carries := carries w; templates := templates w;
     settings := settings w; documents := m; files := files w;
     dirs := dirs w; clock := clock w; output := output w |}.
Definition set_output (l : list string) (w : State) : State :=
  {| indices := indices w; carries := carries w; templates := templates w;
     settings := settings w; documents := documents w; files := files w;
     dirs := dirs w; clock := clock w; output := l |}.

Definition notFound (what : string) : error := ElasticError 404 what.

Definition has_index (w : State) (name : string) : bool :=
  bool_decide (name ∈ indices w).

(** The indices that carry [alias]. *)
Definition indicesOf (w : State) (alias : string) : list string :=
  (elements (filter (fun p : string * string => p.2 = alias) (carries w))).*1.

Section Answer.

(** How the cluster reads a template body; [None] for a body it
    rejects. *)
Variable decode : string -> option IndicesGetTemplateResponse.

Definition answer : Handler State := fun c =>
  match c as c' return State -> Resp c' * State with
  | ReadFile filePath => fun w =>
      (match files w !! filePath with
       | Some bytes => Ok bytes
       | None => Err (OtherError "no such file or directory")
       end, w)
  | ReadDir dirname => fun w =>
      (match dirs w !! dirname with
       | Some entries => Ok entries
       | None => Err (OtherError "no such file or directory")
       end, w)
  | TimeNow => fun w => (clock w, w)
  | Print s => fun w => (tt, set_output (s :: output w) w)
  | ShowCommandHelp command => fun w =>
      (tt, set_output (("help: " +:+ command) :: output w) w)
  | NewClient _ => fun w => (Ok tt, w)
  | IndexPutTemplate name _ body => fun w =>
      match decode body with
      | Some _ => (Ok true, set_templates (<[name := body]> (templates w)) w)
      | None => (Err (ElasticError 400 "parse_exception"), w)
      end
  | IndexExists name => fun w => (Ok (has_index w name), w)
  | CreateIndex name => fun w =>
      if has_index w name
      then (Err (ElasticError 400 "resource_already_exists_exception"), w)
      else (Ok true, set_indices (indices w ++ [name]) w)
  | IndexPutSettings name body => fun w =>
      if has_index w name
      then (Ok true,
            set_settings (<[name := body :: default [] (settings w !! name)]>
                            (settings w)) w)
      else (Err (notFound "index_not_found_exception"), w)
  | Aliases alias => fun w =>
      match indicesOf w alias with
      | [] => (Err (notFound "alias missing"), w)
      | l => (Ok ((fun i => (i, [alias])) <$> l), w)
      end
  | ReindexDocs src dst _ _ => fun w =>
      match src_remote src with
      | Some _ => (Err (OtherError "remote host not reachable"), w)
      | None =>
          if has_index w (src_index src) && has_index w (dst_index dst) then
            let from := default ∅ (documents w !! src_index src) in
            let to := default ∅ (documents w !! dst_index dst) in
            (Ok (Z.of_nat (size from)),
             set_documents (<[dst_index dst := to ∪ from]> (documents w)) w)
          else (Err (notFound "index_not_found_exception"), w)
      end
  | IndexGetTemplate name => fun w =>
      match templates w !! name ≫= decode with
      | Some template => (Ok {[ name := template ]}, w)
      | None => (Err (notFound "template missing"), w)
      end
  | AliasRemove index alias => fun w =>
      if bool_decide ((index, alias) ∈ carries w)
      then (Ok true, set_carries (carries w ∖ {[ (index, alias) ]}) w)
      else (Err (notFound "aliases_not_found_exception"), w)
  | AliasAdd index alias => fun w =>
      if has_index w index
      then (Ok true, set_carries (carries w ∪ {[ (index, alias) ]}) w)
      else (Err (notFound "index_not_found_exception"), w)
  | IndexNames => fun w => (Ok (indices w), w)
  | DeleteIndex name => fun w =>
      if has_index w name
      then (Ok true,
            set_indices (List.filter (fun i => negb (String.eqb i name)) (indices w))
              (set_carries
                 (filter (fun p : string * string => p.1 <> name) (carries w))
                 w))
      else (Err (notFound "index_not_found_exception"), w)
  end.

End Answer.

End Cluster.

(** ** Observations on traces and example data *)

(** The calls that change which index carries which alias. *)
Definition is_alias_mutation (c : Call) : bool :=
  match c with
  | AliasRemove _ _ | AliasAdd _ _ => true
  | _ => false
  end.

(** [never P p]: no run of [p] makes a call that satisfies [P]. *)
Fixpoint never {A : Type} (P : Call -> bool) (p : Prog A) : Prop :=
  match p with
  | Do c k => P c = false /\ forall r, never P (k r)
  | _ => True
  end.

Definition is_reindex (c : Call) : bool :=
  match c with
  | ReindexDocs _ _ _ _ => true
  | _ => false
  end.


(** The calls that reach the cluster's templates, indices, aliases or
    documents. *)
Definition is_admin_call (c : Call) : bool :=
  match c with
  | IndexPutTemplate _ _ _ | IndexExists _ | CreateIndex _
  | IndexPutSettings _ _ | Aliases _ | ReindexDocs _ _ _ _
  | IndexGetTemplate _ | AliasRemove _ _ | AliasAdd _ _
  | IndexNames | DeleteIndex _ => true
  | _ => false
  end.

(** The statement that the [reindex] command, on the command line [c],
    reports the unsupported combination and leaves with a non-zero
    status in every run, without a call on templates, indices, aliases
    or documents. *)
Definition rejected_before_any_call (remoteSrc : string) (c : cli.Context) : Prop :=
  forall t o,
    exec (cli.Reindex remoteSrc c) t o ->
    (exists code, o = Exited code /\ code <> 0%Z) /\
    Print cli.destIndexUnsupported ∈ calls t /\
    Forall (fun c => is_admin_call c = false) (calls t).

(** The answers a run got to its existence checks, to its readings of
    the clock and of files. *)
Definition exists_answer (e : Event) : option (string * result bool) :=
  let 'Ev c r := e in
  match c return Resp c -> option (string * result bool) with
  | IndexExists name => fun r => Some (name, r)
  | _ => fun _ => None
  end r.

Definition clock_answer (e : Event) : option Time :=
  let 'Ev c r := e in
  match c return Resp c -> option Time with
  | TimeNow => fun r => Some r
  | _ => fun _ => None
  end r.

Definition file_answer (e : Event) : option (string * result string) :=
  let 'Ev c r := e in
  match c return Resp c -> option (string * result string) with
  | ReadFile filePath => fun r => Some (filePath, r)
  | _ => fun _ => None
  end r.

(** The templates a run put and the indices it asked to create. *)
Definition put_template (c : Call) : option (string * bool * string) :=
  match c with
  | IndexPutTemplate name includeTypeName body => Some (name, includeTypeName, body)
  | _ => None
  end.

Definition created_name (c : Call) : option string :=
  match c with
  | CreateIndex name => Some name
  | _ => None
  end.

(** What the restore step writes for a setting of the template's index
    settings: its value in quotes, [null] when it is not declared. *)
Definition declared (index : gmap string JSON) (key : string) : string :=
  match index !! key with
  | Some (JString s) => elasticsearch.quoted s
  | _ => "null"
  end.

(** The setting, when declared, is a JSON string (as ElasticSearch
    reports settings). *)
Definition string_or_absent (index : gmap string JSON) (key : string) : Prop :=
  forall v, index !! key = Some v -> exists s, v = JString s.

(** [occurs c s]: the byte [c] occurs in [s]. *)
Fixpoint occurs (c : ascii) (s : string) : bool :=
  match s with
  | EmptyString => false
  | String c' s' => Ascii.eqb c' c || occurs c s'
  end.

(** The number a string of decimal digits denotes, read after [v]. *)
Fixpoint decimal (s : string) (v : nat) : nat :=
  match s with
  | EmptyString => v
  | String c s' => decimal s' (10 * v + (nat_of_ascii c - 48))
  end.

Definition is_digit (c : ascii) : bool :=
  (48 <=? nat_of_ascii c)%nat && (nat_of_ascii c <=? 57)%nat.

Fixpoint all_digits (s : string) : bool :=
  match s with
  | EmptyString => true
  | String c s' => is_digit c && all_digits s'
  end.

(** The names of the indices a run asked to delete, in order. *)
Definition deleted_name (c : Call) : option string :=
  match c with
  | DeleteIndex name => Some name
  | _ => None
  end.

Definition deletions (t : list Event) : list string :=
  omap deleted_name (calls t).

(** The indices left once the names of [gone] are deleted. *)
Definition without (gone indices : list string) : list string :=
  List.filter (fun i => bool_decide (i ∉ gone)) indices.

(** The events of a run of the deletion loop in which every deletion
    is acknowledged. *)
Definition acknowledged_deletions (names : list string) : list Event :=
  flat_map (fun name =>
              [Ev (DeleteIndex name) (Ok true);
               Ev (Print (elasticsearch.line3 elasticsearch.IndexPrefix
                                              elasticsearch.Deleted name)) tt])
           names.

Module Examples.

Definition july7 : Time :=
  {| Year := 2019; Month := 7; Day := 7; Hour := 10; Minute := 54; Second := 33 |}.

(** A cluster in which two indices carry the alias [twitter]. *)
Definition two_aliased : Cluster.State :=
  {| Cluster.indices := ["twitter-1"; "twitter-2"];
     Cluster.carries := {[ ("twitter-1", "twitter"); ("twitter-2", "twitter") ]};
     Cluster.templates := ∅; Cluster.settings := ∅; Cluster.documents := ∅;
     Cluster.files := ∅; Cluster.dirs := ∅; Cluster.clock := july7;
     Cluster.output := [] |}.

(** Five generations of [twitter] and one index of another name, in
    no particular order. *)
Definition five_generations : Cluster.State :=
  {| Cluster.indices := ["twitter-3"; "users-1"; "twitter-5"; "twitter-1";
                         "twitter-4"; "twitter-2"];
     Cluster.carries := {[ ("twitter-5", "twitter") ]};
     Cluster.templates := ∅; Cluster.settings := ∅; Cluster.documents := ∅;
     Cluster.files := ∅; Cluster.dirs := ∅; Cluster.clock := july7;
     Cluster.output := [] |}.

(** The answer to [IndexGetTemplate] for a template put without any
    settings: ElasticSearch reports an empty [settings] object. *)
Definition bare_template : gmap string IndicesGetTemplateResponse :=
  {[ "twitter" := {| IndexPatterns := ["twitter*"]; Settings := ∅ |} ]}.

(** The first two calls of [ReindexOne] on a fresh cluster that holds
    such a template, with their answers. *)
Definition first_run_bare : list Event :=
  [Ev (Aliases "twitter") (Err (ElasticError 404 "alias missing"));
   Ev (IndexGetTemplate "twitter") (Ok bare_template)].

(** [elasdx reindex --dest-index twitter-1 templates] *)
Definition dest_index_with_directory : cli.Context :=
  {| cli.Args := ["templates"];
     cli.stringFlags := {[ "dest-index" := "twitter-1" ]};
     cli.boolFlags := ∅; cli.intFlags := ∅;
     cli.setFlags := {[ "dest-index" ]};
     cli.globalStringFlags := {[ "url" := "http://127.0.0.1:9200" ]};
     cli.globalBoolFlags := ∅ |}.

(** A cluster that reads every template body as a template with an
    empty index settings object. *)
Definition plain_template : IndicesGetTemplateResponse :=
  {| IndexPatterns := ["twitter*"]; Settings := {[ "index" := JObject ∅ ]} |}.

Definition decode_plain : string -> option IndicesGetTemplateResponse :=
  fun _ => Some plain_template.

(** A cluster without indices and a working directory with one template
    file, at the clock reading [now]. *)
Definition fresh (now : Time) : Cluster.State :=
  {| Cluster.indices := []; Cluster.carries := ∅;
     Cluster.templates := ∅; Cluster.settings := ∅; Cluster.documents := ∅;
     Cluster.files := {[ "templates/twitter.json" := "{}" ]};
     Cluster.dirs := {[ "templates" := [ {| Name := "twitter.json"; IsDir := false |} ] ]};
     Cluster.clock := now; Cluster.output := [] |}.

Definition july7_later : Time :=
  {| Year := 2019; Month := 7; Day := 7; Hour := 10; Minute := 54; Second := 40 |}.

(** The same, where the index the provisioner is about to name is
    already there. *)
Definition provisioned : Cluster.State :=
  Cluster.set_indices ["twitter-2019-07-07-10-54-33"] (fresh july7).

(** A cluster holding the template [twitter] and a new index for it. *)
Definition ready_to_swap : Cluster.State :=
  Cluster.set_templates {[ "twitter" := "{}" ]}
    (Cluster.set_indices ["twitter-1"] (fresh july7)).

(** A cluster that accepts no template body. *)
Definition no_decode : string -> option IndicesGetTemplateResponse :=
  fun _ => None.

End Examples.

(** ** Further observations on traces *)

(** The answers a run got to its deletions. *)
Definition delete_answer (e : Event) : option (string * result bool) :=
  let 'Ev c r := e in
  match c return Resp c -> option (string * result bool) with
  | DeleteIndex name => fun r => Some (name, r)
  | _ => fun _ => None
  end r.

(** The deletions of a run that were answered by an error. *)
Definition failed_deletion (e : Event) : option (string * error) :=
  match delete_answer e with
  | Some (name, Err err) => Some (name, err)
  | _ => None
  end.

Definition is_index_names (c : Call) : bool :=
  match c with
  | IndexNames => true
  | _ => false
  end.

(** What [CleanupOne] returns when the deletion of [name] fails. *)
Definition deletionFailure (name : string) (err : error) : error :=
  withMessage err ("error deleting index " +:+ name +:+ ", not continuing").

(** *** Failures *)

Definition is_err {T : Type} (r : result T) : bool :=
  match r with
  | Err _ => true
  | Ok _ => false
  end.

(** An answer that the code takes as a failure: an error, but for the
    not-found answer to an alias lookup, which it takes as "no such
    alias yet". *)
Definition failure (e : Event) : bool :=
  let 'Ev c r := e in
  match c return Resp c -> bool with
  | ReadFile _ => is_err
  | ReadDir _ => is_err
  | TimeNow => fun _ => false
  | Print _ => fun _ => false
  | ShowCommandHelp _ => fun _ => false
  | NewClient _ => is_err
  | IndexPutTemplate _ _ _ => is_err
  | IndexExists _ => is_err
  | CreateIndex _ => is_err
  | IndexPutSettings _ _ => is_err
  | Aliases _ => fun r =>
      match r with
      | Err err => negb (IsNotFound err)
      | Ok _ => false
      end
  | ReindexDocs _ _ _ _ => is_err
  | IndexGetTemplate _ => is_err
  | AliasRemove _ _ => is_err
  | AliasAdd _ _ => is_err
  | IndexNames => is_err
  | DeleteIndex _ => is_err
  end r.

Definition is_print (c : Call) : bool :=
  match c with
  | Print _ => true
  | _ => false
  end.

(** [reports isErr p]: [p] does no more than print, and then returns a
    value that [isErr] takes for an error. *)
Fixpoint reports {A : Type} (isErr : A -> bool) (p : Prog A) : Prop :=
  match p with
  | Ret a => isErr a = true
  | Do c k => is_print c = true /\ forall r, reports isErr (k r)
  | _ => False
  end.

(** [failfast isErr p]: once a call of [p] is answered by a failure,
    [p] only reports it. *)
Fixpoint failfast {A : Type} (isErr : A -> bool) (p : Prog A) : Prop :=
  match p with
  | Do c k =>
      forall r, (failure (Ev c r) = true -> reports isErr (k r)) /\
                failfast isErr (k r)
  | _ => True
  end.

Definition non_nil (err : goerror) : bool :=
  match err with
  | Some _ => true
  | None => false
  end.

Definition with_error {T : Type} (r : T * goerror) : bool := non_nil r.2.

(** A cluster with two generations of [twitter], and a template
    directory as a mounted ConfigMap has it: the template file beside
    the [..data] link. *)
Definition mounted : Cluster.State :=
  {| Cluster.indices := ["twitter-2"; "twitter-1"];
     Cluster.carries := {[ ("twitter-2", "twitter") ]};
     Cluster.templates := ∅; Cluster.settings := ∅; Cluster.documents := ∅;
     Cluster.files := {[ "templates/twitter.json" := "{}" ]};
     Cluster.dirs := {[ "templates" := [ {| Name := "..data"; IsDir := true |};
                                         {| Name := "twitter.json"; IsDir := false |} ] ]};
     Cluster.clock := Examples.july7; Cluster.output := [] |}.

(** [elasdx reindex templates/twitter.json] *)
Definition reindex_one_file : cli.Context :=
  {| cli.Args := ["templates/twitter.json"];
     cli.stringFlags := ∅; cli.boolFlags := ∅; cli.intFlags := ∅;
     cli.setFlags := ∅;
     cli.globalStringFlags := {[ "url" := "http://127.0.0.1:9200" ]};
     cli.globalBoolFlags := ∅ |}.

(** [faithful isErr p]: as long as no call is answered by a failure,
    [p] returns nothing that [isErr] takes for an error. *)
Fixpoint faithful {A : Type} (isErr : A -> bool) (p : Prog A) : Prop :=
  match p with
  | Ret a => isErr a = false
  | Do c k => forall r, failure (Ev c r) = false -> faithful isErr (k r)
  | _ => True
  end.

(** *** Alias mutations *)

Definition removal (c : Call) : option (string * string) :=
  match c with
  | AliasRemove index alias => Some (index, alias)
  | _ => None
  end.

Definition addition (c : Call) : option (string * string) :=
  match c with
  | AliasAdd index alias => Some (index, alias)
  | _ => None
  end.

(** The (index, alias) pairs a run asked to take apart, and to join. *)
Definition removals (t : list Event) : list (string * string) :=
  omap removal (calls t).
Definition additions (t : list Event) : list (string * string) :=
  omap addition (calls t).

(** The indices an answer to the alias lookup names for [alias]. *)
Definition lookedUp (lookup : result AliasesResult) (alias : string)
  : list string :=
  match lookup with
  | Ok aliasResult => IndicesByAlias aliasResult alias
  | Err _ => []
  end.

(** *** Document copies *)

(** The reindex requests of a run: source, destination, and the
    refresh and conflicts parameters. *)
Definition copy (c : Call)
  : option (ReindexSource * ReindexDestination * string * string) :=
  match c with
  | ReindexDocs src dst refresh conflicts => Some (src, dst, refresh, conflicts)
  | _ => None
  end.

Definition copies (t : list Event)
  : list (ReindexSource * ReindexDestination * string * string) :=
  omap copy (calls t).

(** The sources [ReindexOne] is to copy from: the alias itself on the
    remote host when one is given, else the indices the lookup named. *)
Definition sourcesOf (alias remoteSrc : string) (lookup : result AliasesResult)
  : list ReindexSource :=
  if String.eqb remoteSrc ""
  then (fun index => {| src_index := index; src_remote := None |})
         <$> lookedUp lookup alias
  else [ {| src_index := alias; src_remote := Some (remoteSrc, "5m") |} ].

Definition destinationOf (newIndex : string) (versionExternal : bool)
  : ReindexDestination :=
  {| dst_index := newIndex;
     dst_version_type := if versionExternal then "external" else "internal" |}.

Definition is_template_lookup (c : Call) : bool :=
  match c with
  | IndexGetTemplate _ => true
  | _ => false
  end.

(** [elasdx reindex --bulk-indexing --no-update-alias templates/twitter.json] *)
Definition reindex_bulk_no_alias : cli.Context :=
  cli.withBoolFlags {[ "bulk-indexing" := true; "no-update-alias" := true ]}
                    reindex_one_file.

(** *** Template files *)

Definition read_path (c : Call) : option string :=
  match c with
  | ReadFile filePath => Some filePath
  | _ => None
  end.

(** The files a run read, in order. *)
Definition reads (t : list Event) : list string := omap read_path (calls t).

(** A name as [ioutil.ReadDir] gives it: one element of a path, not
    empty and without a separator. *)
Definition plainName (name : string) : Prop :=
  name <> "" /\ occurs PathSeparator name = false.

(** The directory entries the provisioner takes for template files:
    those that are neither hidden nor directories. *)
Definition templateFiles (files : list FileInfo) : list FileInfo :=
  List.filter (fun file => negb (HasPrefix (Name file) "." || IsDir file)) files.

(** *** Clock readings *)

(** A clock reading whose fields have the widths of the layout: a
    year of at most four digits, the other fields of at most two. *)
Definition calendar (now : Time) : Prop :=
  Year now < 10 ^ 4 /\ Month now < 10 ^ 2 /\ Day now < 10 ^ 2 /\
  Hour now < 10 ^ 2 /\ Minute now < 10 ^ 2 /\ Second now < 10 ^ 2.

(** [earlier now1 now2]: the first reading comes before the second. *)
Definition earlier (now1 now2 : Time) : Prop :=
  Year now1 < Year now2 \/ Year now1 = Year now2 /\
  (Month now1 < Month now2 \/ Month now1 = Month now2 /\
   (Day now1 < Day now2 \/ Day now1 = Day now2 /\
    (Hour now1 < Hour now2 \/ Hour now1 = Hour now2 /\
     (Minute now1 < Minute now2 \/ Minute now1 = Minute now2 /\
      Second now1 < Second now2)))).

(** The documents of an index of the reference cluster. *)
Definition documentsOf (w : Cluster.State) (index : string) : gset string :=
  default ∅ (Cluster.documents w !! index).

(** A cluster in which [twitter-1] carries the alias and holds two
    documents, beside a new, empty index. *)
Definition with_documents : Cluster.State :=
  {| Cluster.indices := ["twitter-1"; "twitter-2"];
     Cluster.carries := {[ ("twitter-1", "twitter") ]};
     Cluster.templates := {[ "twitter" := "{}" ]};
     Cluster.settings := ∅;
     Cluster.documents := {[ "twitter-1" := {[ "a"; "b" ]} ]};
     Cluster.files := ∅; Cluster.dirs := ∅; Cluster.clock := Examples.july7;
     Cluster.output := [] |}.

Definition is_put_template (c : Call) : bool :=
  match c with
  | IndexPutTemplate _ _ _ => true
  | _ => false
  end.

(** The calls that make or delete an index. *)
Definition is_index_change (c : Call) : bool :=
  match c with
  | CreateIndex _ | DeleteIndex _ => true
  | _ => false
  end.

(** The same cluster at its first reindex of [templates/twitter.json]:
    the old index is there, the new one is yet to be made. *)
Definition before_reindex : Cluster.State :=
  {| Cluster.indices := ["twitter-1"];
     Cluster.carries := {[ ("twitter-1", "twitter") ]};
     Cluster.templates := ∅;
     Cluster.settings := ∅;
     Cluster.documents := {[ "twitter-1" := {[ "a"; "b" ]} ]};
     Cluster.files := {[ "templates/twitter.json" := "{}" ]};
     Cluster.dirs := ∅; Cluster.clock := Examples.july7;
     Cluster.output := [] |}.

(** Two generations of [twitter], as the provisioner names them, and
    an index of another name. *)
Definition two_generations : Cluster.State :=
  {| Cluster.indices := ["twitter-2019-07-07-10-54-40"; "users-1";
                         "twitter-2019-07-07-10-54-33"];
     Cluster.carries := {[ ("twitter-2019-07-07-10-54-40", "twitter") ]};
     Cluster.templates := ∅; Cluster.settings := ∅; Cluster.documents := ∅;
     Cluster.files := ∅; Cluster.dirs := ∅; Cluster.clock := Examples.july7_later;
     Cluster.output := [] |}.

(** *** What a run has done to the settings and to the alias *)

(** The answers a run got to its template lookups, to its settings
    calls, to its alias lookups and to its additions. *)
Definition template_answer (e : Event)
  : option (string * result (gmap string IndicesGetTemplateResponse)) :=
  let 'Ev c r := e in
  match c return Resp c -> option (string * result (gmap string IndicesGetTemplateResponse)) with
  | IndexGetTemplate name => fun r => Some (name, r)
  | _ => fun _ => None
  end r.

Definition settings_answer (e : Event) : option (string * string * result bool) :=
  let 'Ev c r := e in
  match c return Resp c -> option (string * string * result bool) with
  | IndexPutSettings name body => fun r => Some (name, body, r)
  | _ => fun _ => None
  end r.

Definition alias_answer (e : Event) : option (string * result AliasesResult) :=
  let 'Ev c r := e in
  match c return Resp c -> option (string * result AliasesResult) with
  | Aliases alias => fun r => Some (alias, r)
  | _ => fun _ => None
  end r.

Definition add_answer (e : Event) : option (string * string * result bool) :=
  let 'Ev c r := e in
  match c return Resp c -> option (string * string * result bool) with
  | AliasAdd index alias => fun r => Some (index, alias, r)
  | _ => fun _ => None
  end r.

(** [restored alias newIndex t]: the run [t] has read the template of
    [alias], once, found an index settings object in it, and has put
    on [newIndex], in its one settings call and without error, the
    refresh interval and the replica count the template declares,
    [null] for one it does not declare. *)
Definition restored (alias newIndex : string) (t : list Event) : Prop :=
  exists (templates : gmap string IndicesGetTemplateResponse)
         (template : IndicesGetTemplateResponse) (index : gmap string JSON)
         (acknowledged : bool),
    omap template_answer t = [(alias, Ok templates)] /\
    templates !! alias = Some template /\
    Settings template !! "index" = Some (JObject index) /\
    omap settings_answer t
    = [(newIndex,
        elasticsearch.resetRefreshInterval (declared index "refresh_interval")
                                           (declared index "number_of_replicas"),
        Ok acknowledged)].

(** [swapped alias newIndex t]: the run [t] has asked, once, whether
    [newIndex] is there and was told that it is; after its last lookup
    of the alias it has taken the alias off every index that lookup
    named, and it has joined the alias to [newIndex], in its one
    addition and without error. *)
Definition swapped (alias newIndex : string) (t : list Event) : Prop :=
  exists (lookup : result AliasesResult) (acknowledged : bool),
    omap exists_answer t = [(newIndex, Ok true)] /\
    last (omap alias_answer t) = Some (alias, lookup) /\
    removals t = (fun index => (index, alias)) <$> lookedUp lookup alias /\
    omap add_answer t = [(newIndex, alias, Ok acknowledged)].

(** [left_alone newIndex t]: the run [t] has asked, once, whether
    [newIndex] is there, was told that it is not, and has changed no
    alias. *)
Definition left_alone (newIndex : string) (t : list Event) : Prop :=
  omap exists_answer t = [(newIndex, Ok false)] /\
  removals t = [] /\ additions t = [].

(** Runs without a template lookup or a settings call, and runs
    without an existence check or a change of an alias. *)
Definition no_settings_calls (t : list Event) : Prop :=
  omap template_answer t = [] /\ omap settings_answer t = [].

Definition no_alias_changes (t : list Event) : Prop :=
  omap exists_answer t = [] /\ removals t = [] /\
  additions t = [] /\ omap add_answer t = [].


Definition beside_removal (c : Call) : bool :=
  match c with
  | AliasRemove _ _ | Print _ => false
  | _ => true
  end.

(** ** Reasoning about runs *)

#[local] Set Warnings "-clear-no-such-hyp".
#[local] Arguments elasticsearch.destinationIndex : simpl never.
#[local] Arguments Split : simpl never.
#[local] Arguments TrimSuffix : simpl never.
#[local] Arguments HasSuffix : simpl never.

Section Exec.

Context {A B : Type}.

Lemma exec_bind (p : Prog A) (f : A -> Prog B) (t : list Event) (o : Outcome B) :
  exec (p ≫= f) t o <->
  (exists a t1 t2, t = t1 ++ t2 /\ exec p t1 (Returned a) /\ exec (f a) t2 o)
  \/ (exists o1, exec p t o1 /\ stopped o1 = Some o).
Proof.
  revert t. induction p as [a | reason | code | c k IH]; intros t; cbn.
  - split.
    + intros H. left. exists a, [], t. auto.
    + intros [(a' & t1 & t2 & -> & [-> Ha] & H) | (o1 & [_ ->] & Hs)].
      * inversion Ha; subst. exact H.
      * discriminate.
  - split.
    + intros [-> ->]. right. exists (Panicked reason). auto.
    + intros [(a' & t1 & t2 & _ & [_ Ha] & _) | (o1 & [-> ->] & Hs)].
      * discriminate.
      * inversion Hs. auto.
  - split.
    + intros [-> ->]. right. exists (Exited code). auto.
    + intros [(a' & t1 & t2 & _ & [_ Ha] & _) | (o1 & [-> ->] & Hs)].
      * discriminate.
      * inversion Hs. auto.
  - split.
    + intros (r & t' & -> & H). apply IH in H.
      destruct H as [(a & t1 & t2 & -> & H1 & H2) | (o1 & H1 & Hs)].
      * left. exists a, (Ev c r :: t1), t2. split; [reflexivity|].
        split; [|exact H2]. exists r, t1. auto.
      * right. exists o1. split; [|exact Hs]. exists r, t'. auto.
    + intros [(a & t1 & t2 & -> & (r & t' & -> & H1) & H2)
             | (o1 & (r & t' & -> & H1) & Hs)].
      * exists r, (t' ++ t2). split; [reflexivity|].
        apply IH. left. exists a, t', t2. auto.
      * exists r, t'. split; [reflexivity|].
        apply IH. right. exists o1. auto.
Qed.

End Exec.

(** Runs are functional in the answers: the calls made and the way the
    run ends are determined by the answers received. *)
Lemma run_exec {W A : Type} (h : Handler W) (p : Prog A) (w w' : W)
      (o : Outcome A) (t : list Event) :
  run h p w = (o, w', t) -> exec p t o.
Proof.
  revert w w' o t. induction p as [a | reason | code | c k IH]; intros w w' o t; cbn.
  - intros [= <- _ <-]. auto.
  - intros [= <- _ <-]. auto.
  - intros [= <- _ <-]. auto.
  - destruct (h c w) as [r w1] eqn:Hh.
    destruct (run h (k r) w1) as [[o2 w2] t2] eqn:Hr.
    intros [= <- _ <-]. exists r, t2. split; [reflexivity|].
    eapply IH. exact Hr.
Qed.

Lemma run_bind {W A B : Type} (h : Handler W) (p : Prog A) (f : A -> Prog B) (w : W) :
  run h (p ≫= f) w =
  let '(o1, w1, t1) := run h p w in
  match o1 with
  | Returned a => let '(o2, w2, t2) := run h (f a) w1 in (o2, w2, t1 ++ t2)
  | Panicked reason => (Panicked reason, w1, t1)
  | Exited code => (Exited code, w1, t1)
  end.
Proof.
  revert w. induction p as [a | reason | code | c k IH]; intros w; cbn.
  - destruct (run h (f a) w) as [[o2 w2] t2]. reflexivity.
  - reflexivity.
  - reflexivity.
  - destruct (h c w) as [r w1].
    change (bind (k r) f) with (k r ≫= f). rewrite IH.
    destruct (run h (k r) w1) as [[o1 w2] t1].
    destruct o1 as [a | reason | code]; try reflexivity.
    destruct (run h (f a) w2) as [[o2 w3] t2]. reflexivity.
Qed.

(** An event determines its answer. *)
Lemma Ev_inj (c : Call) (r r' : Resp c) : Ev c r = Ev c r' -> r = r'.
Proof.
  intros H. injection H as H.
  apply (inj_pair2_eq_dec Call Call_eq_dec) in H. exact H.
Qed.

Lemma head_Ev (c : Call) (r r' : Resp c) (t : list Event) :
  head (Ev c r :: t) = Some (Ev c r') -> r = r'.
Proof. cbn. intros H. apply Ev_inj. congruence. Qed.

Lemma exec_andThen (p k : Prog goerror) (t : list Event) (o : Outcome goerror) :
  exec (andThen p k) t o <->
  (exists t1 t2, t = t1 ++ t2 /\ exec p t1 (Returned None) /\ exec k t2 o)
  \/ (exists e, exec p t (Returned (Some e)) /\ o = Returned (Some e))
  \/ (exists o1, exec p t o1 /\ stopped o1 = Some o).
Proof.
  unfold andThen. rewrite exec_bind. split.
  - intros [(a & t1 & t2 & -> & Hp & Hk) | H]; [|auto].
    destruct a as [e|]; cbn in Hk.
    + destruct Hk as [-> ->]. right. left. exists e. rewrite app_nil_r. auto.
    + left. exists t1, t2. auto.
  - intros [(t1 & t2 & -> & Hp & Hk) | [(e & Hp & ->) | H]]; [| |auto].
    + left. exists None, t1, t2. auto.
    + left. exists (Some e), t, []. rewrite app_nil_r. cbn. auto.
Qed.

Lemma run_andThen {W : Type} (h : Handler W) (p k : Prog goerror) (w : W) :
  run h (andThen p k) w =
  let '(o1, w1, t1) := run h p w in
  match o1 with
  | Returned None => let '(o2, w2, t2) := run h k w1 in (o2, w2, t1 ++ t2)
  | _ => (o1, w1, t1)
  end.
Proof.
  unfold andThen. rewrite run_bind.
  destruct (run h p w) as [[o1 w1] t1].
  destruct o1 as [[e|] | reason | code]; cbn; try reflexivity.
  rewrite app_nil_r. reflexivity.
Qed.

Lemma run_exec_proj {W A : Type} (h : Handler W) (p : Prog A) (w : W) :
  exec p (run h p w).2 (run h p w).1.1.
Proof.
  destruct (run h p w) as [[o w'] t] eqn:E. cbn. eapply run_exec, E.
Qed.

Lemma never_exec {A : Type} (P : Call -> bool) (p : Prog A)
      (t : list Event) (o : Outcome A) :
  never P p -> exec p t o -> Forall (fun c => P c = false) (calls t).
Proof.
  revert t. induction p as [a | reason | code | c k IH]; intros t Hn H; cbn in *.
  - destruct H as [-> _]. constructor.
  - destruct H as [-> _]. constructor.
  - destruct H as [-> _]. constructor.
  - destruct Hn as [Hc Hk]. destruct H as (r & t' & -> & H).
    cbn. constructor; [exact Hc|]. eapply IH; eauto.
Qed.

Lemma never_bind {A B : Type} (P : Call -> bool) (p : Prog A) (f : A -> Prog B) :
  never P p -> (forall a, never P (f a)) -> never P (p ≫= f).
Proof.
  intros Hp Hf. induction p as [a | reason | code | c k IH]; cbn in *; auto.
  destruct Hp as [Hc Hk]. split; [exact Hc|]. intros r. apply IH, Hk.
Qed.

Lemma never_andThen (P : Call -> bool) (p k : Prog goerror) :
  never P p -> never P k -> never P (andThen p k).
Proof.
  intros Hp Hk. unfold andThen. apply never_bind; [exact Hp|].
  intros [e|]; cbn; auto.
Qed.

Lemma never_forEach {X : Type} (P : Call -> bool) (l : list X)
      (body : X -> Prog goerror) :
  (forall x, never P (body x)) -> never P (forEach l body).
Proof.
  intros Hb. induction l as [|x l IH]; cbn; [exact I|].
  apply never_andThen; auto.
Qed.

Ltac never_tac :=
  repeat first
    [ progress cbn
    | match goal with
      | |- never _ (when _ _) => unfold when
      | |- never _ (andThen _ _) => apply never_andThen
      | |- never _ (forEach _ _) => apply never_forEach; intros
      | |- never _ (_ ≫= _) => apply never_bind; intros
      | |- never _ (match ?x with _ => _ end) => destruct x
      | |- never _ (if ?x then _ else _) => destruct x
      | |- _ /\ _ => split
      | |- forall _, _ => intros
      | |- True => exact I
      | |- _ = _ => reflexivity
      end ].

Lemma cons_inj {X : Type} (x y : X) (l l' : list X) :
  x :: l = y :: l' -> x = y /\ l = l'.
Proof. intros H. split; congruence. Qed.


Lemma calls_app (t1 t2 : list Event) : calls (t1 ++ t2) = calls t1 ++ calls t2.
Proof. apply map_app. Qed.

(** Case analysis of a run of a straight-line body, answer by answer. *)
Ltac exec_inv H :=
  repeat (cbn in H;
          match type of H with
          | exists _, _ => let r := fresh "r" in let t := fresh "t" in
                           destruct H as (r & t & -> & H)
          | _ /\ _ => destruct H as [-> ->]
          | context [when (negb ?b) _] => is_var b; destruct b
          | context [if negb ?b then _ else _] => is_var b; destruct b
          | context [if ?b then _ else _] => is_var b; destruct b
          | context [match ?r with Ok _ => _ | Err _ => _ end] =>
              is_var r; destruct r
          | context [match ?r with Some _ => _ | None => _ end] =>
              is_var r; destruct r
          | context [let '(_, _) := ?p in _] => destruct p
          end).

(** ** Strings and the date suffix *)

Lemma append_cons (x : ascii) (a b : string) : String x a +:+ b = String x (a +:+ b).
Proof. reflexivity. Qed.

Lemma append_nil_l (b : string) : "" +:+ b = b.
Proof. reflexivity. Qed.

Lemma append_assoc (a b c : string) : (a +:+ b) +:+ c = a +:+ (b +:+ c).
Proof.
  induction a as [|x a IH]; [reflexivity|].
  rewrite !append_cons, IH. reflexivity.
Qed.

Lemma append_nil_r (a : string) : a +:+ "" = a.
Proof.
  induction a as [|x a IH]; [reflexivity|]. rewrite append_cons, IH. reflexivity.
Qed.

Lemma length_append (a b : string) :
  String.length (a +:+ b) = String.length a + String.length b.
Proof.
  induction a as [|x a IH]; [reflexivity|].
  rewrite append_cons. simpl. rewrite IH. reflexivity.
Qed.

Lemma append_inj_r (a b c : string) : a +:+ c = b +:+ c -> a = b.
Proof.
  revert b. induction a as [|x a IH]; intros [|y b] H;
    rewrite ?append_cons, ?append_nil_l in H.
  - reflexivity.
  - apply (f_equal String.length) in H. simpl in H. rewrite length_append in H. lia.
  - apply (f_equal String.length) in H. simpl in H. rewrite length_append in H. lia.
  - injection H as -> H. f_equal. apply IH, H.
Qed.

Lemma ReplaceAll_append (a b : string) (old : ascii) (new : string) :
  ReplaceAll (a +:+ b) old new = ReplaceAll a old new +:+ ReplaceAll b old new.
Proof.
  induction a as [|x a IH]; [reflexivity|]. rewrite append_cons. simpl. rewrite IH.
  destruct (Ascii.eqb x old); [rewrite append_assoc|]; reflexivity.
Qed.

Lemma ReplaceAll_absent (s : string) (old : ascii) (new : string) :
  occurs old s = false -> ReplaceAll s old new = s.
Proof.
  induction s as [|x s IH]; simpl; [reflexivity|].
  intros [Hx Hs]%orb_false_iff. rewrite Hx, IH by exact Hs. reflexivity.
Qed.

(** A string is cut in one way only at the first occurrence of a byte. *)
Lemma cut_unique (c : ascii) (a a' r r' : string) :
  occurs c a = false -> occurs c a' = false ->
  a +:+ String c r = a' +:+ String c r' -> a = a' /\ r = r'.
Proof.
  revert a'. induction a as [|x a IH]; intros [|y a'] Ha Ha' H;
    rewrite ?append_cons, ?append_nil_l in H; simpl in *.
  - injection H as ->. auto.
  - injection H as <- _. rewrite Ascii.eqb_refl in Ha'. discriminate.
  - injection H as -> _. rewrite Ascii.eqb_refl in Ha. discriminate.
  - injection H as -> H.
    apply orb_false_iff in Ha as [_ Ha]. apply orb_false_iff in Ha' as [_ Ha'].
    destruct (IH a' Ha Ha' H) as [-> ->]. auto.
Qed.

Lemma all_digits_append (a b : string) :
  all_digits (a +:+ b) = all_digits a && all_digits b.
Proof.
  induction a as [|x a IH]; [reflexivity|].
  rewrite append_cons. simpl. rewrite IH, andb_assoc. reflexivity.
Qed.

Lemma all_digits_absent (c : ascii) (s : string) :
  is_digit c = false -> all_digits s = true -> occurs c s = false.
Proof.
  intros Hc. induction s as [|x s IH]; simpl; [reflexivity|].
  intros [Hx Hs]%andb_true_iff. rewrite IH by exact Hs.
  destruct (Ascii.eqb_spec x c) as [->|_]; [congruence|reflexivity].
Qed.

Lemma is_digit_digit (n : nat) : is_digit (digit n) = true.
Proof.
  unfold is_digit, digit.
  pose proof (Nat.mod_upper_bound n 10 ltac:(lia)).
  rewrite nat_ascii_embedding by lia.
  apply andb_true_iff. split; apply Nat.leb_le; lia.
Qed.

Lemma nat_of_digit (n : nat) : nat_of_ascii (digit n) - 48 = n mod 10.
Proof.
  unfold digit. pose proof (Nat.mod_upper_bound n 10 ltac:(lia)).
  rewrite nat_ascii_embedding by lia. lia.
Qed.

Lemma all_digits_itoa_go (fuel n : nat) (acc : string) :
  all_digits acc = true -> all_digits (itoa_go fuel n acc) = true.
Proof.
  revert n acc. induction fuel as [|fuel IH]; intros n acc Hacc;
    cbn [itoa_go]; [exact Hacc|].
  destruct (n <? 10)%nat.
  - cbn [all_digits]. rewrite is_digit_digit, Hacc. reflexivity.
  - apply IH. cbn [all_digits]. rewrite is_digit_digit, Hacc. reflexivity.
Qed.

Lemma all_digits_zeros (k : nat) : all_digits (zeros k) = true.
Proof. induction k as [|k IH]; simpl; [reflexivity|exact IH]. Qed.

Lemma all_digits_appendInt (x width : nat) : all_digits (appendInt x width) = true.
Proof.
  unfold appendInt. rewrite all_digits_append, all_digits_zeros.
  apply all_digits_itoa_go. reflexivity.
Qed.

Lemma decimal_itoa_go (fuel n : nat) (acc : string) (v : nat) :
  n < fuel ->
  exists k, decimal (itoa_go fuel n acc) v = decimal acc (v * 10 ^ k + n).
Proof.
  revert n acc v. induction fuel as [|fuel IH]; intros n acc v Hf; [lia|].
  cbn [itoa_go]. destruct (Nat.ltb_spec n 10) as [Hn|Hn].
  - exists 1. cbn [decimal]. rewrite nat_of_digit, Nat.mod_small by lia.
    f_equal. rewrite Nat.pow_1_r. lia.
  - destruct (IH (n / 10) (String (digit n) acc) v) as [k Hk].
    { pose proof (Nat.div_lt n 10). lia. }
    exists (S k). rewrite Hk. cbn [decimal]. rewrite nat_of_digit. f_equal.
    pose proof (Nat.div_mod_eq n 10). rewrite Nat.pow_succ_r'. lia.
Qed.

Lemma decimal_zeros (k : nat) (s : string) :
  decimal (zeros k +:+ s) 0 = decimal s 0.
Proof.
  induction k as [|k IH]; [reflexivity|]. simpl zeros. rewrite append_cons. exact IH.
Qed.

Lemma decimal_appendInt (x width : nat) : decimal (appendInt x width) 0 = x.
Proof.
  unfold appendInt, Itoa. rewrite decimal_zeros.
  destruct (decimal_itoa_go (S x) x "" 0) as [k Hk]; [lia|].
  rewrite Hk. cbn [decimal]. lia.
Qed.

Lemma appendInt_inj (x y width : nat) :
  appendInt x width = appendInt y width -> x = y.
Proof.
  intros H. rewrite <- (decimal_appendInt x width), H. apply decimal_appendInt.
Qed.

Lemma appendInt_no (c : ascii) (x width : nat) :
  is_digit c = false -> occurs c (appendInt x width) = false.
Proof. intros Hc. apply all_digits_absent; [exact Hc|apply all_digits_appendInt]. Qed.

Lemma dateSuffix_hyphens (now : Time) :
  elasticsearch.dateSuffix now =
  appendInt (Year now) 4 +:+ "-" +:+ appendInt (Month now) 2 +:+ "-" +:+
  appendInt (Day now) 2 +:+ "-" +:+ appendInt (Hour now) 2 +:+ "-" +:+
  appendInt (Minute now) 2 +:+ "-" +:+ appendInt (Second now) 2.
Proof.
  unfold elasticsearch.dateSuffix, Format. rewrite !ReplaceAll_append.
  rewrite !(ReplaceAll_absent (appendInt _ _)) by (apply appendInt_no; reflexivity).
  reflexivity.
Qed.

(** Two clock readings that differ in a field give two date suffixes. *)
Lemma dateSuffix_inj (now1 now2 : Time) :
  elasticsearch.dateSuffix now1 = elasticsearch.dateSuffix now2 -> now1 = now2.
Proof.
  rewrite !dateSuffix_hyphens. destruct now1 as [y1 m1 d1 h1 i1 s1], now2 as [y2 m2 d2 h2 i2 s2].
  cbn [Year Month Day Hour Minute Second]. intros H.
  repeat match type of H with
  | ?a +:+ "-" +:+ ?r = ?a' +:+ "-" +:+ ?r' =>
      let Ha := fresh "Ha" in
      apply (cut_unique "-"%char a a' r r') in H as [Ha H];
      [apply appendInt_inj in Ha | apply appendInt_no; reflexivity
       | apply appendInt_no; reflexivity]
  end.
  apply appendInt_inj in H. subst. reflexivity.
Qed.

(** ** Provisioning *)

(** C6.  In a run of [UpdateTemplateAndCreateNewIndex] whose existence
    check answers that the destination index is there, no index is
    created and the existence is no error: the index is reported as
    updated and the run returns its name, unless bulk mode is on and
    the settings call of that later step fails.  An index is only ever
    created after the check answered that it is not there. *)
Theorem provisioning_keeps_existing_index
      (filePath newIndexName : string) (bulkIndexing includeTypeName : bool)
      (extraSuffix : string) (t : list Event) (o : Outcome (string * goerror)) :
  exec (elasticsearch.UpdateTemplateAndCreateNewIndex
          filePath newIndexName bulkIndexing includeTypeName extraSuffix) t o ->
  (forall name, omap exists_answer t = [(name, Ok true)] ->
     omap created_name (calls t) = [] /\
     Print (elasticsearch.line3 elasticsearch.IndexPrefix
                                elasticsearch.Updated name) ∈ calls t /\
     (bulkIndexing = false -> o = Returned (name, None)) /\
     (o = Returned (name, None) \/
      exists e, o = Returned ("", Some (withMessage e
                                         (elasticsearch.bulkSettingsFailure name))))) /\
  (forall name, name ∈ omap created_name (calls t) ->
     omap exists_answer t = [(name, Ok false)]).
Proof.
  intros H. unfold elasticsearch.UpdateTemplateAndCreateNewIndex in H.
  exec_inv H.
  all: split; [intros name Hex; cbn in Hex; try discriminate;
               injection Hex as <-;
               (split; [reflexivity|split; [cbn; set_solver|]];
                split; [try reflexivity; discriminate|eauto])
              |intros name Hin; cbn in Hin;
               repeat match goal with
                      | Hin : _ ∈ [] |- _ => apply elem_of_nil in Hin; contradiction
                      | Hin : _ ∈ [_] |- _ => apply list_elem_of_singleton in Hin; subst
                      end; try reflexivity].
Qed.

Lemma occurs_append (c : ascii) (a b : string) :
  occurs c (a +:+ b) = occurs c a || occurs c b.
Proof.
  induction a as [|x a IH]; [reflexivity|].
  rewrite append_cons. cbn [occurs]. rewrite IH, orb_assoc. reflexivity.
Qed.

Lemma destinationIndex_forms (index : string) (now : Time) (override extra : string) :
  (override <> "" -> elasticsearch.destinationIndex index now override extra = override) /\
  (override = "" -> extra = "" ->
   elasticsearch.destinationIndex index now override extra
   = index +:+ "-" +:+ elasticsearch.dateSuffix now) /\
  (override = "" -> extra <> "" ->
   elasticsearch.destinationIndex index now override extra
   = index +:+ "-" +:+ elasticsearch.dateSuffix now +:+ "-" +:+ extra).
Proof.
  unfold elasticsearch.destinationIndex.
  destruct (String.eqb_spec override "") as [->|Hne];
    destruct (String.eqb_spec extra "") as [->|Hne']; cbn; repeat split; congruence.
Qed.

Lemma ReplaceAll_removes (s : string) (old : ascii) (new : string) :
  occurs old new = false -> occurs old (ReplaceAll s old new) = false.
Proof.
  intros Hnew. induction s as [|x s IH]; [reflexivity|]. cbn [ReplaceAll].
  destruct (Ascii.eqb x old) eqn:Hx.
  - rewrite occurs_append, Hnew, IH. reflexivity.
  - cbn [occurs]. rewrite Hx, IH. reflexivity.
Qed.

Lemma dateSuffix_no_colon (now : Time) :
  occurs ":"%char (elasticsearch.dateSuffix now) = false.
Proof. apply ReplaceAll_removes. reflexivity. Qed.

(** C5.  A run of [UpdateTemplateAndCreateNewIndex] that succeeds read
    the file and the clock once, put the file's bytes as the template
    named by the file's base name, and returns: the override when there
    is one; otherwise the base name, a hyphen and the date suffix (the
    formatted time, left without any colon), followed by a hyphen and
    the extra suffix when there is one.  Two such runs on the same file
    without override whose clock readings differ return different
    names, and put the template under the same name. *)
Theorem generated_index_name
      (filePath override : string) (bulkIndexing includeTypeName : bool)
      (extraSuffix : string) :
  let index := TrimSuffix (Split filePath).2 ".json" in
  let provision :=
    elasticsearch.UpdateTemplateAndCreateNewIndex
      filePath override bulkIndexing includeTypeName extraSuffix in
  (forall t name,
      exec provision t (Returned (name, None)) ->
      exists now body,
        omap clock_answer t = [now] /\
        omap file_answer t = [(filePath, Ok body)] /\
        omap put_template (calls t) = [(index, includeTypeName, body)] /\
        occurs ":"%char (elasticsearch.dateSuffix now) = false /\
        (override <> "" -> name = override) /\
        (override = "" -> extraSuffix = "" ->
         name = index +:+ "-" +:+ elasticsearch.dateSuffix now) /\
        (override = "" -> extraSuffix <> "" ->
         name = index +:+ "-" +:+ elasticsearch.dateSuffix now
                +:+ "-" +:+ extraSuffix)) /\
  (forall t1 t2 name1 name2 now1 now2,
      override = "" ->
      exec provision t1 (Returned (name1, None)) ->
      exec provision t2 (Returned (name2, None)) ->
      omap clock_answer t1 = [now1] ->
      omap clock_answer t2 = [now2] ->
      now1 <> now2 ->
      name1 <> name2 /\
      (omap put_template (calls t1)).*1.*1 = [index] /\
      (omap put_template (calls t2)).*1.*1 = [index]).
Proof.
  intros index provision.
  assert (Hrun : forall t name,
      exec provision t (Returned (name, None)) ->
      exists now body,
        omap clock_answer t = [now] /\
        omap file_answer t = [(filePath, Ok body)] /\
        omap put_template (calls t) = [(index, includeTypeName, body)] /\
        name = elasticsearch.destinationIndex index now override extraSuffix).
  { intros t name H. remember (Returned (name, None)) as o eqn:Ho.
    unfold provision, elasticsearch.UpdateTemplateAndCreateNewIndex in H.
    destruct (Split filePath) as [dir fileName] eqn:Hsplit.
    subst index. cbn [snd].
    exec_inv H. all: try discriminate.
    all: injection Ho as <-; eexists _, _; repeat split; reflexivity. }
  split.
  - intros t name H. destruct (Hrun t name H) as (now & body & Hc & Hf & Hp & ->).
    exists now, body. split; [exact Hc|]. split; [exact Hf|]. split; [exact Hp|].
    split; [apply dateSuffix_no_colon|].
    apply destinationIndex_forms.
  - intros t1 t2 name1 name2 now1 now2 -> H1 H2 Hc1 Hc2 Hne.
    destruct (Hrun t1 name1 H1) as (now1' & body1 & Hc1' & _ & Hp1 & ->).
    destruct (Hrun t2 name2 H2) as (now2' & body2 & Hc2' & _ & Hp2 & ->).
    rewrite Hc1 in Hc1'. rewrite Hc2 in Hc2'.
    injection Hc1' as <-. injection Hc2' as <-.
    rewrite Hp1, Hp2. split; [|split; reflexivity].
    intros Heq. apply Hne, dateSuffix_inj.
    unfold elasticsearch.destinationIndex in Heq. cbn [String.eqb] in Heq.
    destruct (negb (String.eqb extraSuffix "")).
    + rewrite <- !append_assoc in Heq.
      apply append_inj_r, append_inj_r in Heq.
      apply (String.app_inj (index +:+ "-")). exact Heq.
    + apply (String.app_inj index) in Heq. apply (String.app_inj "-") in Heq. exact Heq.
Qed.

(** ** Reindex of one alias *)

Lemma UpdateAlias_never_reindex (alias newIndex : string) :
  never is_reindex (elasticsearch.UpdateAlias alias newIndex).
Proof.
  unfold elasticsearch.UpdateAlias, elasticsearch.removeFromAll,
    elasticsearch.removeFromAlias, elasticsearch.addToAlias. never_tac.
Qed.

Lemma restoreSettings_never_reindex (alias newIndex : string) :
  never is_reindex (elasticsearch.restoreSettings alias newIndex).
Proof.
  unfold elasticsearch.restoreSettings, elasticsearch.indexSetting,
    elasticsearch.assertString. never_tac.
Qed.

Lemma andThen_Ret_None (k : Prog goerror) : andThen (Ret None) k = k.
Proof. reflexivity. Qed.

(** The restore step as intended: when the template has an index
    settings object, the settings written to the new index carry the
    template's refresh interval and replica count, each replaced by
    [null] when the template does not declare it. *)
Lemma restoreSettings_puts_template_values
      (alias newIndex : string)
      (templates : gmap string IndicesGetTemplateResponse)
      (template : IndicesGetTemplateResponse) (index : gmap string JSON)
      (t : list Event) (o : Outcome goerror) :
  templates !! alias = Some template ->
  Settings template !! "index" = Some (JObject index) ->
  string_or_absent index "refresh_interval" ->
  string_or_absent index "number_of_replicas" ->
  exec (elasticsearch.restoreSettings alias newIndex) t o ->
  head t = Some (Ev (IndexGetTemplate alias) (Ok templates)) ->
  exists r t',
    t = Ev (IndexGetTemplate alias) (Ok templates)
        :: Ev (IndexPutSettings newIndex
                 (elasticsearch.resetRefreshInterval
                    (declared index "refresh_interval")
                    (declared index "number_of_replicas"))) r
        :: t'.
Proof.
  intros Ht Hs Hr Hn H Hhd. unfold elasticsearch.restoreSettings in H.
  cbn in H. destruct H as (r & t' & -> & H). apply head_Ev in Hhd. subst r.
  unfold elasticsearch.indexSetting in H. rewrite Ht, Hs in H.
  unfold declared.
  destruct (index !! "refresh_interval") as [v1|] eqn:E1;
    [destruct (Hr v1 E1) as [s1 ->]|];
    (destruct (index !! "number_of_replicas") as [v2|] eqn:E2;
     [destruct (Hn v2 E2) as [s2 ->]|]);
    cbn in H; destruct H as (r & t'' & -> & _); eauto.
Qed.

(** The restore step is left out only when both flags are set. *)
Lemma restoreAndSwap_suppressed (alias newIndex : string)
      (t : list Event) (o : Outcome goerror) :
  exec (elasticsearch.restoreAndSwap alias newIndex true true) t o ->
  t = [] /\ o = Returned None.
Proof. cbn. auto. Qed.

Lemma restoreAndSwap_restores (alias newIndex : string)
      (noUpdateAlias bulkIndexing : bool) (t : list Event) (o : Outcome goerror) :
  noUpdateAlias && bulkIndexing = false ->
  exec (elasticsearch.restoreAndSwap alias newIndex noUpdateAlias bulkIndexing) t o ->
  exists r t', t = Ev (IndexGetTemplate alias) r :: t'.
Proof.
  intros Hf H. unfold elasticsearch.restoreAndSwap in H.
  replace (negb noUpdateAlias || negb bulkIndexing) with true in H
    by (destruct noUpdateAlias, bulkIndexing; cbn in *; congruence).
  apply exec_andThen in H
    as [(t1 & t2 & -> & H1 & _) | [(e & H1 & _) | (o1 & H1 & _)]];
    cbn in H1; destruct H1 as (r & t'' & -> & _); eauto.
Qed.

Lemma indexSetting_bare (key : string) :
  elasticsearch.indexSetting Examples.bare_template "twitter" key
  = Panic "interface conversion: interface {} is not map[string]interface {}".
Proof.
  unfold elasticsearch.indexSetting, Examples.bare_template.
  rewrite lookup_singleton_eq. cbn. rewrite lookup_empty. reflexivity.
Qed.

(** C4.  The claim fails on the code for a template that declares no
    index settings at all: the type assertion on [Settings["index"]]
    panics, so the run ends before any settings are written, instead
    of writing [null] for both values. *)
Theorem ReindexOne_panics_on_bare_template :
  exec (elasticsearch.ReindexOne "twitter" "twitter-1" "" false false false)
       Examples.first_run_bare
       (Panicked "interface conversion: interface {} is not map[string]interface {}")
  /\ forall t o,
      exec (elasticsearch.ReindexOne "twitter" "twitter-1" "" false false false) t o ->
      take 2 t = Examples.first_run_bare ->
      t = Examples.first_run_bare /\
      o = Panicked "interface conversion: interface {} is not map[string]interface {}".
Proof.
  split.
  - cbn. eexists _, _. split; [reflexivity|]. cbn.
    eexists _, _. split; [reflexivity|]. cbn. rewrite !indexSetting_bare. cbn. auto.
  - intros t o H Ht. cbn in H.
    destruct H as (r & t' & -> & H). unfold Examples.first_run_bare in Ht. cbn in Ht.
    apply cons_inj in Ht as [Hr Ht]. apply Ev_inj in Hr. subst r.
    cbn in H. destruct H as (r & t'' & -> & H). cbn in Ht.
    apply cons_inj in Ht as [Hr Ht]. apply Ev_inj in Hr. subst r.
    cbn in H. rewrite !indexSetting_bare in H.
    cbn in H. destruct H as [-> ->]. split; reflexivity.
Qed.

(** ** The alias swap *)

(** C9.  When the existence check of [UpdateAlias] answers that the
    destination index is not there, without an error of its own, the
    function prints one line, makes no further call (no alias is removed
    or added) and returns nil: [errors.Wrapf] of a nil error is nil. *)
Theorem UpdateAlias_absent_index_returns_nil
        (alias newIndex : string) (t : list Event) (o : Outcome goerror) :
  exec (elasticsearch.UpdateAlias alias newIndex) t o ->
  head t = Some (Ev (IndexExists newIndex) (Ok false)) ->
  o = Returned None /\
  calls t = [IndexExists newIndex;
             Print ("failed checking for index " +:+ newIndex)] /\
  Forall (fun c => is_alias_mutation c = false) (calls t).
Proof.
  intros H Hhd. unfold elasticsearch.UpdateAlias in H. cbn in H.
  destruct H as (r & t' & -> & H).
  apply head_Ev in Hhd. subst r. cbn in H.
  destruct H as ([] & t'' & -> & -> & ->).
  split; [reflexivity|]. split; [reflexivity|].
  repeat constructor.
Qed.

Lemma UpdateAlias_absent_index_returns_nil_witness :
  let t := [Ev (IndexExists "twitter-3") (Ok false);
            Ev (Print ("failed checking for index " +:+ "twitter-3")) tt] in
  exec (elasticsearch.UpdateAlias "twitter" "twitter-3") t (Returned None) /\
  head t = Some (Ev (IndexExists "twitter-3") (Ok false)) /\
  calls t = [IndexExists "twitter-3";
             Print ("failed checking for index " +:+ "twitter-3")].
Proof.
  intros t.
  assert (E : exec (elasticsearch.UpdateAlias "twitter" "twitter-3") t (Returned None)).
  { cbn. eexists _, _. split; [reflexivity|]. cbn.
    eexists _, _. split; [reflexivity|]. cbn. auto. }
  split; [exact E|]. split; [reflexivity|].
  exact (proj1 (proj2
    (UpdateAlias_absent_index_returns_nil "twitter" "twitter-3" t _ E eq_refl))).
Defined.

Lemma IndicesByAlias_answer (alias : string) (l : list string) :
  IndicesByAlias ((fun i => (i, [alias])) <$> l) alias = l.
Proof.
  unfold IndicesByAlias. induction l as [|i l IH]; cbn; [reflexivity|].
  rewrite String.eqb_refl. cbn. f_equal. exact IH.
Qed.

Section Swap.

Variable decode : string -> option IndicesGetTemplateResponse.
#[local] Abbreviation answer := (Cluster.answer decode).

Lemma elem_of_indicesOf (w : Cluster.State) (alias i : string) :
  i ∈ Cluster.indicesOf w alias <-> (i, alias) ∈ Cluster.carries w.
Proof.
  unfold Cluster.indicesOf. rewrite list_elem_of_fmap. split.
  - intros ([i' a] & -> & H).
    apply elem_of_elements, elem_of_filter in H as [Ha H].
    cbn in *. subst. exact H.
  - intros H. exists (i, alias). split; [reflexivity|].
    apply elem_of_elements, elem_of_filter. auto.
Qed.

Lemma NoDup_indicesOf (w : Cluster.State) (alias : string) :
  NoDup (Cluster.indicesOf w alias).
Proof.
  unfold Cluster.indicesOf. apply NoDup_fmap_2_strong; [|apply NoDup_elements].
  intros [i a] [j b] H1 H2 Heq. cbn in Heq. subst j.
  apply elem_of_elements, elem_of_filter in H1 as [H1 _].
  apply elem_of_elements, elem_of_filter in H2 as [H2 _].
  cbn in *. congruence.
Qed.

Lemma run_removeFromAlias (alias i : string) (w : Cluster.State) :
  (i, alias) ∈ Cluster.carries w ->
  exists w' t,
    run answer (elasticsearch.removeFromAlias alias i) w = (Returned None, w', t) /\
    Cluster.indices w' = Cluster.indices w /\
    Cluster.carries w' = Cluster.carries w ∖ {[ (i, alias) ]}.
Proof.
  intros Hin. unfold elasticsearch.removeFromAlias. cbn.
  rewrite bool_decide_true by exact Hin. cbn.
  eexists _, _. split; [reflexivity|]. cbn. auto.
Qed.

(** The removal loop takes the alias off every index of its list. *)
Lemma run_removal_loop (alias : string) (l : list string) (w : Cluster.State) :
  NoDup l -> (forall i, i ∈ l -> (i, alias) ∈ Cluster.carries w) ->
  exists w' t,
    run answer (forEach l (elasticsearch.removeFromAlias alias)) w
    = (Returned None, w', t) /\
    Cluster.indices w' = Cluster.indices w /\
    Cluster.carries w'
    = Cluster.carries w ∖ list_to_set ((fun i => (i, alias)) <$> l).
Proof.
  revert w. induction l as [|i l IH]; intros w Hnd Hin.
  - exists w, []. cbn. split; [reflexivity|]. split; [reflexivity|]. set_solver.
  - apply NoDup_cons in Hnd as [Hi Hnd].
    destruct (run_removeFromAlias alias i w) as (w1 & t1 & Hr1 & Hi1 & Hc1).
    { apply Hin. set_solver. }
    destruct (IH w1 Hnd) as (w2 & t2 & Hr2 & Hi2 & Hc2).
    { intros j Hj. rewrite Hc1. apply elem_of_difference.
      split; [apply Hin; set_solver|].
      intros Heq%elem_of_singleton. set_solver. }
    exists w2, (t1 ++ t2). cbn [forEach]. rewrite run_andThen, Hr1, Hr2.
    split; [reflexivity|]. split; [congruence|].
    rewrite Hc2, Hc1. set_solver.
Qed.

(** What the swap is meant to do, and does once the destination index
    is there: on the reference cluster [UpdateAlias] returns nil and
    leaves the alias on the new index and on no other. *)
Lemma UpdateAlias_swaps (alias newIndex : string) (w : Cluster.State) :
  newIndex ∈ Cluster.indices w ->
  exists w' t,
    run answer (elasticsearch.UpdateAlias alias newIndex) w
    = (Returned None, w', t) /\
    (forall i, (i, alias) ∈ Cluster.carries w' <-> i = newIndex) /\
    Cluster.indicesOf w' alias = [newIndex].
Proof.
  intros Hin.
  assert (exists w' t,
    run answer (elasticsearch.UpdateAlias alias newIndex) w
    = (Returned None, w', t) /\
    (forall i, (i, alias) ∈ Cluster.carries w' <-> i = newIndex))
    as (w' & t & Hrun & Hc).
  2:{ exists w', t. split; [exact Hrun|]. split; [exact Hc|].
      pose proof (NoDup_indicesOf w' alias) as Hnd.
      assert (Hel : forall i, i ∈ Cluster.indicesOf w' alias <-> i = newIndex).
      { intros i. rewrite elem_of_indicesOf. apply Hc. }
      destruct (Cluster.indicesOf w' alias) as [|a l].
      - exfalso. specialize (Hel newIndex). set_solver.
      - assert (a = newIndex) by (apply Hel; set_solver). subst a.
        destruct l as [|b l]; [reflexivity|].
        assert (b = newIndex) by (apply Hel; set_solver). subst b.
        apply NoDup_cons in Hnd as [Hnd _]. set_solver. }
  unfold elasticsearch.UpdateAlias. cbn -[Cluster.indicesOf].
  unfold Cluster.has_index. rewrite bool_decide_true by exact Hin.
  cbn -[Cluster.indicesOf].
  destruct (Cluster.indicesOf w alias) as [|i0 l0] eqn:Hl.
  - cbn. unfold Cluster.has_index. cbn.
    rewrite bool_decide_true by exact Hin. cbn.
    eexists _, _. split; [reflexivity|]. cbn. intros i.
    pose proof (elem_of_indicesOf w alias i) as He. rewrite Hl in He.
    set_solver.
  - change ((i0, [alias]) :: ((fun i : string => (i, [alias])) <$> l0))
      with ((fun i : string => (i, [alias])) <$> (i0 :: l0)).
    rewrite <- Hl.
    destruct (run_removal_loop alias (Cluster.indicesOf w alias) w)
      as (w1 & t1 & Hr1 & Hi1 & Hc1).
    { apply NoDup_indicesOf. }
    { intros i. apply elem_of_indicesOf. }
    rewrite run_andThen. unfold elasticsearch.removeFromAll.
    rewrite IndicesByAlias_answer, Hr1.
    unfold elasticsearch.addToAlias. cbn.
    unfold Cluster.has_index. rewrite Hi1, bool_decide_true by exact Hin. cbn.
    eexists _, _. split; [reflexivity|]. cbn. intros i. rewrite Hc1.
    rewrite elem_of_union, elem_of_difference, elem_of_list_to_set,
      list_elem_of_fmap, elem_of_singleton.
    split.
    + intros [[H1 H2] | H]; [|congruence].
      exfalso. apply H2. exists i. split; [reflexivity|].
      apply elem_of_indicesOf. exact H1.
    + intros ->. right. reflexivity.
Qed.

End Swap.

(** On the reference cluster, the swap to an index that is not there
    changes nothing but the terminal, and returns nil. *)
Lemma run_UpdateAlias_absent (decode : string -> option IndicesGetTemplateResponse)
      (alias newIndex : string) (w : Cluster.State) :
  newIndex ∉ Cluster.indices w ->
  run (Cluster.answer decode) (elasticsearch.UpdateAlias alias newIndex) w
  = (Returned None,
     Cluster.set_output (("failed checking for index " +:+ newIndex)
                           :: Cluster.output w) w,
     [Ev (IndexExists newIndex) (Ok false);
      Ev (Print ("failed checking for index " +:+ newIndex)) tt]).
Proof.
  intros Hout. unfold elasticsearch.UpdateAlias. cbn.
  unfold Cluster.has_index. rewrite bool_decide_false by exact Hout.
  reflexivity.
Qed.

(** C2.  The claim fails on the code as it stands.  On a cluster where
    two indices carry the alias and the destination index does not
    exist, [UpdateAlias] returns nil after the existence check alone,
    and both indices still carry the alias. *)
Theorem UpdateAlias_nil_with_two_aliased :
  exists w' t,
    run (Cluster.answer Examples.no_decode)
        (elasticsearch.UpdateAlias "twitter" "twitter-3") Examples.two_aliased
    = (Returned None, w', t) /\
    calls t = [IndexExists "twitter-3";
               Print ("failed checking for index " +:+ "twitter-3")] /\
    Cluster.carries w' = {[ ("twitter-1", "twitter"); ("twitter-2", "twitter") ]} /\
    length (Cluster.indicesOf w' "twitter") = 2.
Proof.
  eexists _, _. split.
  - apply run_UpdateAlias_absent.
    apply (bool_decide_unpack _). vm_compute. exact I.
  - split; [reflexivity|]. split; [reflexivity|].
    vm_compute. reflexivity.
Qed.

(** ** The commands and the batch *)

Lemma getClient_call (c : cli.Context) :
  exists opts, cli.getClient c = call (NewClient opts).
Proof.
  unfold cli.getClient.
  destruct (0 <? String.length (cli.ctxString c "username"))%nat; eauto.
Qed.

(** C7, as amended.  With [--dest-index] and a directory argument, the
    [reindex] command first builds its client.  If that fails, the run
    returns the connection error and reports nothing else; if it
    succeeds, the run prints that the combination is not supported,
    shows the help and leaves with status 1.  Either way no call on
    templates, indices, aliases or documents is made. *)
Theorem Reindex_dest_index_with_directory
        (remoteSrc : string) (c : cli.Context) (directory : string)
        (t : list Event) (o : Outcome goerror) :
  cli.Args c = [directory] ->
  HasSuffix directory ".json" = false ->
  cli.IsSet c "dest-index" = true ->
  exec (cli.Reindex remoteSrc c) t o ->
  exists opts client t',
    t = Ev (NewClient opts) client :: t' /\
    match client with
    | Ok _ =>
        calls t' = [Print cli.destIndexUnsupported; ShowCommandHelp "reindex"] /\
        o = Exited 1
    | Err err =>
        t' = [] /\ o = Returned (Some (withMessage err cli.connectFailure))
    end /\
    Forall (fun c => is_admin_call c = false) (calls t).
Proof.
  intros Hargs Hsuf Hset H.
  unfold cli.Reindex, cli.NArg, cli.First in H. rewrite Hargs in H.
  cbn [length hd Nat.eqb Nat.ltb Nat.leb orb] in H.
  destruct (getClient_call c) as [opts Hc]. rewrite Hc, Hsuf, Hset in H.
  cbn in H. destruct H as (client & t' & -> & H).
  exists opts, client, t'. split; [reflexivity|].
  destruct client as [[]|err]; cbn in H.
  - destruct H as ([] & t1 & -> & [] & t2 & -> & -> & ->).
    split; [split; reflexivity|]. repeat constructor.
  - destruct H as [-> ->]. split; [split; reflexivity|]. repeat constructor.
Qed.

(** C7 as stated fails: when the client cannot be built the combination
    is not reported and the process is not left. *)
Lemma Reindex_dest_index_with_directory_unreported :
  ~ rejected_before_any_call "" Examples.dest_index_with_directory.
Proof.
  intros Hclaim.
  destruct (getClient_call Examples.dest_index_with_directory) as [opts Hc].
  destruct (Hclaim [Ev (NewClient opts) (Err (OtherError "no Elasticsearch node available"))]
                   (Returned (Some (withMessage (OtherError "no Elasticsearch node available")
                                                cli.connectFailure))))
    as [(code & Ho & _) _]; [|discriminate].
  unfold cli.Reindex. cbn [cli.NArg cli.Args Examples.dest_index_with_directory length Nat.eqb Nat.ltb Nat.leb orb].
  rewrite Hc. cbn. eexists _, _. split; [reflexivity|]. cbn. auto.
Qed.








(** ** Retention cleanup *)

Lemma ascii_compare_N (a b : ascii) :
  Ascii.compare a b = N.compare (N_of_ascii a) (N_of_ascii b).
Proof. reflexivity. Qed.

#[local] Instance string_le_trans : Transitive string_le.
Proof.
  unfold string_le, String.leb. intros s1.
  induction s1 as [|a s1 IH]; intros [|b s2] [|c s3]; cbn; try congruence.
  rewrite !ascii_compare_N.
  destruct (N.compare_spec (N_of_ascii a) (N_of_ascii b)) as [Hab|Hab|Hab];
    destruct (N.compare_spec (N_of_ascii b) (N_of_ascii c)) as [Hbc|Hbc|Hbc];
    destruct (N.compare_spec (N_of_ascii a) (N_of_ascii c)) as [Hac|Hac|Hac];
    try congruence; try lia.
  apply IH.
Qed.

#[local] Instance string_le_total : Total string_le.
Proof. intros a b. apply String.leb_total. Qed.

#[local] Instance string_le_antisym : AntiSymm eq string_le.
Proof. intros a b. apply String.leb_antisym. Qed.

Lemma sort_Strings_Sorted (l : list string) : Sorted string_le (sort_Strings l).
Proof. apply Sorted_merge_sort, _. Qed.

Lemma sort_Strings_Permutation (l : list string) : sort_Strings l ≡ₚ l.
Proof. apply merge_sort_Permutation. Qed.

Lemma sort_Strings_unique (l l' : list string) :
  Sorted string_le l' -> l' ≡ₚ l -> sort_Strings l = l'.
Proof.
  intros Hs Hp. apply (Sorted_unique string_le); [apply sort_Strings_Sorted|exact Hs|].
  rewrite sort_Strings_Permutation, Hp. reflexivity.
Qed.

Lemma deletions_app (t1 t2 : list Event) :
  deletions (t1 ++ t2) = deletions t1 ++ deletions t2.
Proof. unfold deletions, calls. rewrite map_app, omap_app. reflexivity. Qed.

Lemma wrap_int_small (z : Z) : (MinInt <= z <= MaxInt)%Z -> wrap_int z = z.
Proof.
  unfold wrap_int, MinInt, MaxInt. intros H.
  rewrite Z.mod_small; lia.
Qed.

Lemma wrap_int_le (z : Z) : (0 <= z)%Z -> (wrap_int z <= z)%Z.
Proof.
  unfold wrap_int. intros H.
  pose proof (Z.mod_le (z + 2 ^ 63) (2 ^ 64)). lia.
Qed.

Lemma loop_bound_le (len : nat) (N : Z) :
  (0 <= N <= MaxInt)%Z ->
  Z.to_nat (wrap_int (Z.of_nat len - N)) <= len.
Proof.
  intros HN. destruct (Z.lt_ge_cases (Z.of_nat len - N) 0) as [Hneg|Hpos].
  - rewrite wrap_int_small by (unfold MinInt, MaxInt in *; lia). lia.
  - pose proof (wrap_int_le _ Hpos). lia.
Qed.

Lemma exec_deleteIndex (name : string) (t : list Event) (o : Outcome goerror) :
  exec (elasticsearch.deleteIndex name) t o ->
  deletions t = [name] /\ exists r, o = Returned r.
Proof.
  unfold elasticsearch.deleteIndex. cbn. intros (r & t' & -> & H).
  destruct r as [[|] | e]; cbn in H.
  - destruct H as ([] & t1 & -> & -> & ->). split; [reflexivity|eauto].
  - destruct H as ([] & t1 & -> & [] & t2 & -> & -> & ->). split; [reflexivity|eauto].
  - destruct H as [-> ->]. split; [reflexivity|eauto].
Qed.

Lemma exec_deleteLoop (matches : list string) (n i : nat)
      (t : list Event) (o : Outcome goerror) :
  i + n <= length matches ->
  exec (elasticsearch.deleteLoop matches i n) t o ->
  (exists k, k <= n /\ deletions t = take k (drop i matches) /\
             (o = Returned None -> k = n)) /\
  exists r, o = Returned r.
Proof.
  revert i t. induction n as [|n IH]; intros i t Hlen H.
  - cbn in H. destruct H as [-> ->]. split; [|eauto].
    exists 0. split; [lia|]. split; [reflexivity|auto].
  - cbn [elasticsearch.deleteLoop] in H.
    destruct (matches !! i) as [name|] eqn:Hi.
    2:{ apply lookup_ge_None in Hi. lia. }
    pose proof (drop_S _ _ _ Hi) as Hdrop.
    apply exec_andThen in H
      as [(t1 & t2 & -> & H1 & H2) | [(e & H1 & ->) | (o1 & H1 & Hs)]].
    + apply exec_deleteIndex in H1 as [Hd1 _].
      apply IH in H2 as [(k & Hk & Hd2 & Hdone) [r ->]]; [|lia].
      split; [|eauto]. exists (S k). split; [lia|].
      rewrite deletions_app, Hd1, Hd2, Hdrop. split; [reflexivity|].
      intros Ho. f_equal. auto.
    + apply exec_deleteIndex in H1 as [Hd1 _].
      split; [|eauto]. exists 1. split; [lia|]. rewrite Hd1, Hdrop.
      split; [reflexivity|]. discriminate.
    + apply exec_deleteIndex in H1 as [_ [r ->]]. discriminate.
Qed.

Lemma elem_of_List_filter {X : Type} (f : X -> bool) (l : list X) (x : X) :
  x ∈ List.filter f l <-> x ∈ l /\ f x = true.
Proof. rewrite !list_elem_of_In. apply filter_In. Qed.

Lemma List_filter_filter {X : Type} (f g : X -> bool) (l : list X) :
  List.filter f (List.filter g l) = List.filter (fun x => g x && f x) l.
Proof.
  induction l as [|x l IH]; cbn; [reflexivity|].
  destruct (g x); cbn; [destruct (f x)|]; rewrite IH; reflexivity.
Qed.

Lemma NoDup_List_filter {X : Type} (f : X -> bool) (l : list X) :
  NoDup l -> NoDup (List.filter f l).
Proof. rewrite !NoDup_ListNoDup. apply List.NoDup_filter. Qed.

Section Deletion.

Variable decode : string -> option IndicesGetTemplateResponse.
#[local] Abbreviation answer := (Cluster.answer decode).

Lemma run_deleteIndex (name : string) (w : Cluster.State) :
  name ∈ Cluster.indices w ->
  exists w' t,
    run answer (elasticsearch.deleteIndex name) w = (Returned None, w', t) /\
    Cluster.indices w' = without [name] (Cluster.indices w) /\
    deletions t = [name].
Proof.
  intros Hin. unfold elasticsearch.deleteIndex. cbn.
  unfold Cluster.has_index. rewrite bool_decide_true by exact Hin. cbn.
  eexists _, _. split; [reflexivity|]. cbn. split; [|reflexivity].
  unfold without. apply filter_ext. intros i.
  destruct (String.eqb_spec i name) as [->|Hne]; cbn.
  - rewrite bool_decide_false; [reflexivity|]. set_solver.
  - rewrite bool_decide_true; [reflexivity|]. set_solver.
Qed.

Lemma run_deleteLoop (matches : list string) (n i : nat) (w : Cluster.State) :
  i + n <= length matches -> NoDup matches ->
  (forall x, x ∈ take n (drop i matches) -> x ∈ Cluster.indices w) ->
  exists w' t,
    run answer (elasticsearch.deleteLoop matches i n) w = (Returned None, w', t) /\
    Cluster.indices w' = without (take n (drop i matches)) (Cluster.indices w) /\
    deletions t = take n (drop i matches).
Proof.
  revert i w. induction n as [|n IH]; intros i w Hlen Hnd Hin.
  - exists w, []. cbn. split; [reflexivity|]. split; [|reflexivity].
    unfold without. symmetry. apply forallb_filter_id, forallb_forall.
    intros x _. apply bool_decide_eq_true. set_solver.
  - cbn [elasticsearch.deleteLoop].
    destruct (matches !! i) as [name|] eqn:Hi.
    2:{ apply lookup_ge_None in Hi. lia. }
    pose proof (drop_S _ _ _ Hi) as Hdrop.
    rewrite Hdrop in Hin |- *. cbn [take] in Hin |- *.
    assert (Hfresh : name ∉ take n (drop (S i) matches)).
    { rewrite <- (take_drop i matches), Hdrop in Hnd.
      apply NoDup_app in Hnd as (_ & _ & Hnd).
      apply NoDup_cons in Hnd as [Hnd _].
      intros Hx. apply Hnd. eapply subseteq_take; eauto. }
    destruct (run_deleteIndex name w) as (w1 & t1 & Hr1 & Hi1 & Hd1).
    { apply Hin. set_solver. }
    destruct (IH (S i) w1) as (w2 & t2 & Hr2 & Hi2 & Hd2); [lia|exact Hnd| |].
    { intros x Hx. rewrite Hi1. apply elem_of_List_filter.
      split; [apply Hin; set_solver|].
      apply bool_decide_eq_true. set_solver. }
    exists w2, (t1 ++ t2). rewrite run_andThen, Hr1, Hr2.
    split; [reflexivity|]. rewrite deletions_app, Hd1, Hd2.
    split; [|reflexivity].
    rewrite Hi2, Hi1. unfold without. rewrite List_filter_filter.
    apply filter_ext. intros x.
    destruct (decide (x = name)) as [->|Hne].
    + rewrite (bool_decide_false (name ∉ [name])) by set_solver. cbn.
      symmetry. apply bool_decide_eq_false. set_solver.
    + rewrite (bool_decide_true (x ∉ [name])) by set_solver. cbn.
      apply bool_decide_ext. set_solver.
Qed.

Lemma Sorted_drop_string (k : nat) (l : list string) :
Sorted string_le l -> Sorted string_le (drop k l).
Proof.
intros H. apply (Sorted_StronglySorted string_le) in H.
rewrite <- (take_drop k l) in H.
apply StronglySorted_app_1_r in H. apply StronglySorted_Sorted, H.
Qed.

(** C1.  On the reference cluster, for a count [N >= 0], [CleanupOne]
    returns nil and has deleted exactly the first [max(0, M - N)] of
    the [M] indices whose name starts with the prefix, in sorted order;
    the cluster keeps its other indices, among the matches the last [N]
    in sorted order (all of them when [N >= M]); for [N = 0] every
    match is deleted. *)
Theorem CleanupOne_deletes_all_but_last_N
        (w : Cluster.State) (indexTemplateName : string) (N : Z) :
  (0 <= N <= MaxInt)%Z ->
  NoDup (Cluster.indices w) ->
  (Z.of_nat (length (Cluster.indices w)) <= MaxInt)%Z ->
  let named := fun index => HasPrefix index indexTemplateName in
  let matches := sort_Strings (List.filter named (Cluster.indices w)) in
  let M := length (List.filter named (Cluster.indices w)) in
  let k := Z.to_nat (Z.max 0 (Z.of_nat M - N)) in
  exists w' t,
    run answer (elasticsearch.CleanupOne indexTemplateName N) w
    = (Returned None, w', t) /\
    Sorted string_le matches /\
    deletions t = take k matches /\
    length (deletions t) = k /\
    Cluster.indices w' = without (take k matches) (Cluster.indices w) /\
    sort_Strings (List.filter named (Cluster.indices w')) = drop k matches /\
    length (drop k matches) = Nat.min M (Z.to_nat N) /\
    (N = 0%Z -> deletions t = matches).
Proof.
  intros HN Hnd Hlen named matches M k.
  pose proof (sort_Strings_Permutation (List.filter named (Cluster.indices w)))
    as Hperm. fold matches in Hperm.
  assert (HM : length matches = M) by (unfold M; rewrite Hperm; reflexivity).
  assert (HMle : M <= length (Cluster.indices w)) by apply filter_length_le.
  assert (Hndm : NoDup matches).
  { rewrite Hperm. apply NoDup_List_filter, Hnd. }
  assert (Hk : k <= length matches) by lia.
  assert (Hin : forall x, x ∈ matches <-> x ∈ Cluster.indices w /\ named x = true).
  { intros x. rewrite Hperm. apply elem_of_List_filter. }
  destruct (run_deleteLoop matches k 0 w) as (w' & t & Hrun & Hidx & Hdel);
    [lia|exact Hndm| |].
  { intros x Hx. apply Hin. eapply subseteq_take. exact Hx. }
  rewrite drop_0 in Hidx, Hdel.
  exists w', (Ev IndexNames (Ok (Cluster.indices w)) :: t).
  split.
  { unfold elasticsearch.CleanupOne. cbn -[wrap_int sort_Strings].
    fold named. fold matches. rewrite HM.
    rewrite wrap_int_small by (unfold MinInt, MaxInt in *; lia).
    replace (Z.to_nat (Z.of_nat M - N)) with k by lia.
    rewrite Hrun. reflexivity. }
  split; [apply sort_Strings_Sorted|].
  change (deletions (Ev IndexNames (Ok (Cluster.indices w)) :: t)) with (deletions t).
  split; [exact Hdel|].
  split; [rewrite Hdel; apply length_take_le, Hk|].
  split; [exact Hidx|].
  split.
  { apply sort_Strings_unique; [apply Sorted_drop_string, sort_Strings_Sorted|].
    apply NoDup_Permutation.
    - rewrite <- (take_drop k matches) in Hndm.
      apply NoDup_app in Hndm as (_ & _ & H). exact H.
    - apply NoDup_List_filter. rewrite Hidx. apply NoDup_List_filter, Hnd.
    - intros x. rewrite elem_of_List_filter, Hidx. unfold without.
      rewrite elem_of_List_filter, bool_decide_eq_true.
      rewrite <- (take_drop k matches) in Hndm, Hin.
      apply NoDup_app in Hndm as (_ & Hdisj & _).
      specialize (Hin x). rewrite elem_of_app in Hin.
      split.
      + intros Hx. split; [split|]; [apply Hin; auto| |apply Hin; auto].
        intros Hx'. exact (Hdisj _ Hx' Hx).
      + intros [[Hx Hnot] Hnamed]. destruct Hin as [_ [Hin|Hin]]; auto.
        contradiction. }
  split; [rewrite length_drop; lia|].
  intros ->. rewrite Hdel. apply take_ge. lia.
Qed.
End Deletion.

Lemma deletions_acknowledged (names : list string) :
  deletions (acknowledged_deletions names) = names.
Proof. induction names as [|x l IH]; cbn; [reflexivity|]. f_equal. exact IH. Qed.

Lemma exec_deleteIndex_acknowledged (name : string) :
  exec (elasticsearch.deleteIndex name) (acknowledged_deletions [name]) (Returned None).
Proof.
  cbn. eexists _, _. split; [reflexivity|]. cbn.
  eexists _, _. split; [reflexivity|]. cbn. auto.
Qed.

Lemma exec_deleteLoop_overrun (matches : list string) (n i : nat) :
  i <= length matches -> length matches < i + n ->
  exec (elasticsearch.deleteLoop matches i n)
       (acknowledged_deletions (drop i matches))
       (Panicked "index out of range").
Proof.
  revert i. induction n as [|n IH]; intros i Hi Hlen; [lia|].
  cbn [elasticsearch.deleteLoop].
  destruct (matches !! i) as [name|] eqn:Hl.
  - pose proof (drop_S _ _ _ Hl) as Hdrop. rewrite Hdrop.
    apply lookup_lt_Some in Hl.
    apply exec_andThen. left.
    exists (acknowledged_deletions [name]), (acknowledged_deletions (drop (S i) matches)).
    split; [reflexivity|]. split; [apply exec_deleteIndex_acknowledged|].
    apply IH; lia.
  - apply lookup_ge_None in Hl. rewrite drop_ge by lia. cbn. auto.
Qed.

(** C10.  For a count [N >= 0] no run of [CleanupOne] panics or leaves
    the process: the loop reads positions [0 .. len(matches) - N - 1] at
    most, all inside the slice.  For [N < 0] the bound
    [len(matches) - N] exceeds the length, and the run in which every
    deletion succeeds reads one position too far and panics.  The
    [cleanup] command passes the value of [--max-history] on as it is. *)
Theorem CleanupOne_index_bounds :
  (forall (indexTemplateName : string) (N : Z) (t : list Event) (o : Outcome goerror),
      (0 <= N <= MaxInt)%Z ->
      exec (elasticsearch.CleanupOne indexTemplateName N) t o ->
      (exists r, o = Returned r) /\
      forall indices, head t = Some (Ev IndexNames (Ok indices)) ->
        let matches :=
          sort_Strings (List.filter (fun index => HasPrefix index indexTemplateName)
                                    indices) in
        exists k, (Z.of_nat k <= Z.max 0 (Z.of_nat (length matches) - N))%Z /\
                  k <= length matches /\
                  deletions t = take k matches) /\
  (forall (indexTemplateName : string) (N : Z) (indices : list string),
      (N < 0)%Z ->
      let matches :=
        sort_Strings (List.filter (fun index => HasPrefix index indexTemplateName)
                                  indices) in
      (Z.of_nat (length matches) - N <= MaxInt)%Z ->
      exec (elasticsearch.CleanupOne indexTemplateName N)
           (Ev IndexNames (Ok indices) :: acknowledged_deletions matches)
           (Panicked "index out of range")) /\
  (forall (c : cli.Context) (filePath : string) (t : list Event) (o : Outcome goerror),
      cli.Args c = [filePath] -> HasSuffix filePath ".json" = true ->
      exec (elasticsearch.CleanupOne (TrimSuffix (Split filePath).2 ".json")
                                     (cli.ctxInt c "max-history")) t o ->
      exists opts, exec (cli.Cleanup c) (Ev (NewClient opts) (Ok tt) :: t) o).
Proof.
  split; [|split].
  - intros name N t o HN H. unfold elasticsearch.CleanupOne in H.
    cbn -[wrap_int sort_Strings] in H.
    destruct H as (r & t' & -> & H). destruct r as [indices|e].
    + set (matches := sort_Strings _) in H.
      pose proof (loop_bound_le (length matches) N HN) as Hb.
      apply exec_deleteLoop in H as [(k & Hk & Hd & _) Hr]; [|exact Hb].
      split; [exact Hr|]. intros indices' Hhd.
      apply head_Ev in Hhd. injection Hhd as <-. fold matches.
      rewrite drop_0 in Hd. exists k. split; [|split; [lia|exact Hd]].
      destruct (Z.lt_ge_cases (Z.of_nat (length matches) - N) 0) as [Hneg|Hpos].
      * rewrite wrap_int_small in Hk by (unfold MinInt, MaxInt in *; lia). lia.
      * pose proof (wrap_int_le _ Hpos). lia.
    + cbn in H. destruct H as [-> ->]. split; [eauto|].
      intros indices Hhd. apply head_Ev in Hhd. discriminate.
  - intros name N indices HN matches Hmax.
    unfold elasticsearch.CleanupOne. cbn -[wrap_int sort_Strings].
    eexists (Ok indices), _. split; [reflexivity|].
    cbn -[wrap_int sort_Strings]. fold matches.
    rewrite wrap_int_small by (unfold MinInt, MaxInt in *; lia).
    change (acknowledged_deletions matches)
      with (acknowledged_deletions (drop 0 matches)).
    apply exec_deleteLoop_overrun; lia.
  - intros c filePath t o Hargs Hsuf H.
    unfold cli.Cleanup, cli.NArg, cli.First. rewrite Hargs. cbn [length hd].
    cbn -[elasticsearch.CleanupOne HasSuffix TrimSuffix Split].
    unfold cli.getClient.
    destruct (0 <? String.length (cli.ctxString c "username"))%nat;
      cbn -[elasticsearch.CleanupOne HasSuffix TrimSuffix Split];
      eexists; eexists (Ok tt), _; (split; [reflexivity|]);
      rewrite Hsuf; destruct (Split filePath) as [dir fileName]; exact H.
Qed.

Lemma CleanupOne_index_bounds_witness :
  (0 <= 2 <= MaxInt)%Z /\
  (-1 < 0)%Z /\
  exec (elasticsearch.CleanupOne "twitter" (-1))
       (Ev IndexNames (Ok ["twitter-2"; "users-1"; "twitter-1"])
           :: acknowledged_deletions ["twitter-1"; "twitter-2"])
       (Panicked "index out of range") /\
  forall t o, exec (elasticsearch.CleanupOne "twitter" 2) t o ->
              exists r, o = Returned r.
Proof.
  assert (H2 : (0 <= 2 <= MaxInt)%Z) by (unfold MaxInt; lia).
  assert (H1 : (-1 < 0)%Z) by lia.
  split; [exact H2|]. split; [exact H1|]. split.
  - apply (proj1 (proj2 CleanupOne_index_bounds)
             "twitter" (-1)%Z ["twitter-2"; "users-1"; "twitter-1"] H1).
    vm_compute. discriminate.
  - intros t o H.
    exact (proj1 (proj1 CleanupOne_index_bounds "twitter" 2%Z t o H2 H)).
Defined.

Lemma CleanupOne_deletes_all_but_last_N_witness :
  (0 <= 2 <= MaxInt)%Z /\
  NoDup (Cluster.indices Examples.five_generations) /\
  (Z.of_nat (length (Cluster.indices Examples.five_generations)) <= MaxInt)%Z /\
  exists w' t,
    run (Cluster.answer Examples.no_decode)
        (elasticsearch.CleanupOne "twitter" 2) Examples.five_generations
    = (Returned None, w', t) /\
    deletions t = ["twitter-1"; "twitter-2"; "twitter-3"] /\
    Cluster.indices w' = ["users-1"; "twitter-5"; "twitter-4"].
Proof.
  assert (H1 : (0 <= 2 <= MaxInt)%Z) by (unfold MaxInt; lia).
  assert (H2 : NoDup (Cluster.indices Examples.five_generations))
    by (apply (bool_decide_unpack _); vm_compute; exact I).
  assert (H3 : (Z.of_nat (length (Cluster.indices Examples.five_generations))
                <= MaxInt)%Z) by (vm_compute; discriminate).
  split; [exact H1|]. split; [exact H2|]. split; [exact H3|].
  destruct (CleanupOne_deletes_all_but_last_N
              Examples.no_decode Examples.five_generations "twitter" 2 H1 H2 H3)
    as (w' & t & Hrun & _ & Hdel & _ & Hidx & _).
  exists w', t. split; [exact Hrun|]. split.
  - rewrite Hdel. vm_compute. reflexivity.
  - rewrite Hidx. vm_compute. reflexivity.
Defined.

(** ** Example runs on the reference cluster *)

Lemma provisioning_keeps_existing_index_witness :
  let provision :=
    elasticsearch.UpdateTemplateAndCreateNewIndex
      "templates/twitter.json" "" false false "" in
  let r := run (Cluster.answer Examples.decode_plain) provision Examples.provisioned in
  exec provision r.2 r.1.1 /\
  omap exists_answer r.2 = [("twitter-2019-07-07-10-54-33", Ok true)] /\
  omap created_name (calls r.2) = [] /\
  r.1.1 = Returned ("twitter-2019-07-07-10-54-33", None).
Proof.
  intros provision r.
  assert (E : exec provision r.2 r.1.1) by apply run_exec_proj.
  assert (Hex : omap exists_answer r.2 = [("twitter-2019-07-07-10-54-33", Ok true)])
    by (vm_compute; reflexivity).
  split; [exact E|]. split; [exact Hex|].
  destruct (proj1 (provisioning_keeps_existing_index
                     "templates/twitter.json" "" false false "" r.2 r.1.1 E)
                  "twitter-2019-07-07-10-54-33" Hex) as (Hnone & _ & Hret & _).
  split; [exact Hnone|]. exact (Hret eq_refl).
Defined.

Lemma generated_index_name_witness :
  let provision :=
    elasticsearch.UpdateTemplateAndCreateNewIndex
      "templates/twitter.json" "" false false "" in
  let r1 := run (Cluster.answer Examples.decode_plain) provision
                (Examples.fresh Examples.july7) in
  let r2 := run (Cluster.answer Examples.decode_plain) provision
                (Examples.fresh Examples.july7_later) in
  let name1 := "twitter-2019-07-07-10-54-33" in
  let name2 := "twitter-2019-07-07-10-54-40" in
  exec provision r1.2 (Returned (name1, None)) /\
  exec provision r2.2 (Returned (name2, None)) /\
  omap clock_answer r1.2 = [Examples.july7] /\
  omap clock_answer r2.2 = [Examples.july7_later] /\
  Examples.july7 <> Examples.july7_later /\
  name1 <> name2 /\
  (omap put_template (calls r1.2)).*1.*1 = ["twitter"] /\
  exists now body,
    omap file_answer r1.2 = [("templates/twitter.json", Ok body)] /\
    name1 = "twitter" +:+ "-" +:+ elasticsearch.dateSuffix now.
Proof.
  intros provision r1 r2 name1 name2.
  assert (E1 : exec provision r1.2 (Returned (name1, None))).
  { replace (Returned (name1, None)) with r1.1.1 by (vm_compute; reflexivity).
    apply run_exec_proj. }
  assert (E2 : exec provision r2.2 (Returned (name2, None))).
  { replace (Returned (name2, None)) with r2.1.1 by (vm_compute; reflexivity).
    apply run_exec_proj. }
  assert (C1 : omap clock_answer r1.2 = [Examples.july7]) by (vm_compute; reflexivity).
  assert (C2 : omap clock_answer r2.2 = [Examples.july7_later])
    by (vm_compute; reflexivity).
  assert (Hne : Examples.july7 <> Examples.july7_later) by discriminate.
  split; [exact E1|]. split; [exact E2|]. split; [exact C1|]. split; [exact C2|].
  split; [exact Hne|].
  destruct (generated_index_name "templates/twitter.json" "" false false "")
    as [Hone Htwo].
  destruct (Htwo r1.2 r2.2 name1 name2 _ _ eq_refl E1 E2 C1 C2 Hne)
    as (Hdiff & Hp1 & _).
  split; [exact Hdiff|]. split; [exact Hp1|].
  destruct (Hone r1.2 name1 E1) as (now & body & _ & Hf & _ & _ & _ & Hname & _).
  exists now, body. split; [exact Hf|]. exact (Hname eq_refl eq_refl).
Defined.

Lemma Reindex_dest_index_with_directory_witness :
  let c := Examples.dest_index_with_directory in
  let r := run (Cluster.answer Examples.decode_plain) (cli.Reindex "" c)
               Examples.ready_to_swap in
  cli.Args c = ["templates"] /\
  HasSuffix "templates" ".json" = false /\
  cli.IsSet c "dest-index" = true /\
  exec (cli.Reindex "" c) r.2 r.1.1 /\
  Forall (fun c => is_admin_call c = false) (calls r.2).
Proof.
  intros c r.
  assert (H1 : cli.Args c = ["templates"]) by reflexivity.
  assert (H2 : HasSuffix "templates" ".json" = false) by reflexivity.
  assert (H3 : cli.IsSet c "dest-index" = true) by (vm_compute; reflexivity).
  assert (E : exec (cli.Reindex "" c) r.2 r.1.1) by apply run_exec_proj.
  split; [exact H1|]. split; [exact H2|]. split; [exact H3|]. split; [exact E|].
  destruct (Reindex_dest_index_with_directory "" c "templates" r.2 r.1.1 H1 H2 H3 E)
    as (opts & client & t' & _ & _ & Hadmin).
  exact Hadmin.
Defined.

(** * Further properties of the code *)

(** ** Retention cleanup, further *)

Lemma failed_deletion_app (t1 t2 : list Event) :
  omap failed_deletion (t1 ++ t2) = omap failed_deletion t1 ++ omap failed_deletion t2.
Proof. apply omap_app. Qed.

(** A run of the loop body deletes the index it is given; when the
    deletion fails, the failure is the last event and is returned. *)
Lemma exec_deleteIndex_answers (name : string) (t : list Event) (o : Outcome goerror) :
  exec (elasticsearch.deleteIndex name) t o ->
  (o = Returned None /\ omap failed_deletion t = []) \/
  (exists err, t = [Ev (DeleteIndex name) (Err err)] /\
               o = Returned (Some (deletionFailure name err))).
Proof.
  unfold elasticsearch.deleteIndex. cbn. intros (r & t' & -> & H).
  destruct r as [[|] | e]; cbn in H.
  - destruct H as ([] & t1 & -> & -> & ->). left. auto.
  - destruct H as ([] & t1 & -> & [] & t2 & -> & -> & ->). left. auto.
  - destruct H as [-> ->]. right. eauto.
Qed.

(** Whatever the bound, the loop deletes a run of consecutive entries
    of the slice, from its starting position on. *)
Lemma exec_deleteLoop_consecutive (matches : list string) (n i : nat)
      (t : list Event) (o : Outcome goerror) :
  exec (elasticsearch.deleteLoop matches i n) t o ->
  exists k, deletions t = take k (drop i matches).
Proof.
  revert i t. induction n as [|n IH]; intros i t H.
  - cbn in H. destruct H as [-> _]. exists 0. reflexivity.
  - cbn [elasticsearch.deleteLoop] in H.
    destruct (matches !! i) as [name|] eqn:Hi.
    2:{ cbn in H. destruct H as [-> _]. exists 0. reflexivity. }
    pose proof (drop_S _ _ _ Hi) as Hdrop.
    apply exec_andThen in H
      as [(t1 & t2 & -> & H1 & H2) | [(e & H1 & ->) | (o1 & H1 & Hs)]].
    + apply exec_deleteIndex in H1 as [Hd1 _].
      apply IH in H2 as [k Hd2].
      exists (S k). rewrite deletions_app, Hd1, Hd2, Hdrop. reflexivity.
    + apply exec_deleteIndex in H1 as [Hd1 _].
      exists 1. rewrite Hd1, Hdrop. reflexivity.
    + apply exec_deleteIndex in H1 as [_ [r ->]]. discriminate.
Qed.

(** X1.  Whatever the count, negative ones included, and whatever the
    cluster answers, [CleanupOne] asks to delete only names that the
    cluster listed and that start with the given name, each in sorted
    order, as a leading part of the sorted matches. *)
Theorem CleanupOne_deletes_only_matches
        (indexTemplateName : string) (maxHistory : Z) (indices : list string)
        (t : list Event) (o : Outcome goerror) :
  exec (elasticsearch.CleanupOne indexTemplateName maxHistory) t o ->
  head t = Some (Ev IndexNames (Ok indices)) ->
  deletions t `prefix_of`
    sort_Strings (List.filter (fun index => HasPrefix index indexTemplateName) indices)
  /\ forall name, name ∈ deletions t ->
                  name ∈ indices /\ HasPrefix name indexTemplateName = true.
Proof.
  intros H Hhd. unfold elasticsearch.CleanupOne in H.
  cbn -[wrap_int sort_Strings] in H. destruct H as (r & t' & -> & H).
  apply head_Ev in Hhd. subst r. cbn -[wrap_int sort_Strings] in H.
  set (matches := sort_Strings _) in *.
  apply exec_deleteLoop_consecutive in H as [k Hk]. rewrite drop_0 in Hk.
  change (deletions (Ev IndexNames (Ok indices) :: t')) with (deletions t').
  rewrite Hk. split.
  - exists (drop k matches). symmetry. apply take_drop.
  - intros name Hin. apply subseteq_take in Hin. unfold matches in Hin.
    rewrite sort_Strings_Permutation in Hin.
    apply elem_of_List_filter in Hin. exact Hin.
Qed.

Lemma CleanupOne_deletes_only_matches_witness :
  let t := Ev IndexNames (Ok ["users-1"; "twitter-2"; "twitter-1"])
              :: acknowledged_deletions ["twitter-1"; "twitter-2"] in
  exec (elasticsearch.CleanupOne "twitter" (-1)) t (Panicked "index out of range") /\
  head t = Some (Ev IndexNames (Ok ["users-1"; "twitter-2"; "twitter-1"])) /\
  forall name, name ∈ deletions t -> HasPrefix name "twitter" = true.
Proof.
  intros t.
  assert (E : exec (elasticsearch.CleanupOne "twitter" (-1)) t
                   (Panicked "index out of range")).
  { unfold t. cbn -[acknowledged_deletions].
    eexists (Ok _), _. split; [reflexivity|]. vm_compute.
    repeat (eexists; eexists; split; [reflexivity|]). auto. }
  split; [exact E|]. split; [reflexivity|].
  intros name Hin.
  exact (proj2 (proj2 (CleanupOne_deletes_only_matches
                         "twitter" (-1) _ t _ E eq_refl) name Hin)).
Defined.

Lemma exec_deleteLoop_failure (matches : list string) (n i : nat)
      (t : list Event) (o : Outcome goerror) :
  exec (elasticsearch.deleteLoop matches i n) t o ->
  (omap failed_deletion t = [] /\ forall e, o <> Returned (Some e)) \/
  (exists t0 name err,
      t = t0 ++ [Ev (DeleteIndex name) (Err err)] /\
      omap failed_deletion t0 = [] /\
      o = Returned (Some (deletionFailure name err))).
Proof.
  revert i t. induction n as [|n IH]; intros i t H.
  - cbn in H. destruct H as [-> ->]. left. split; [reflexivity|discriminate].
  - cbn [elasticsearch.deleteLoop] in H.
    destruct (matches !! i) as [name|] eqn:Hi.
    2:{ cbn in H. destruct H as [-> ->]. left. split; [reflexivity|discriminate]. }
    apply exec_andThen in H
      as [(t1 & t2 & -> & H1 & H2) | [(e & H1 & ->) | (o1 & H1 & Hs)]].
    + apply exec_deleteIndex_answers in H1 as [[_ Hf1] | (err & _ & [=])].
      apply IH in H2 as [[Hf2 Ho] | (t0 & x & err & -> & Hf0 & ->)].
      * left. rewrite failed_deletion_app, Hf1, Hf2. auto.
      * right. exists (t1 ++ t0), x, err. rewrite app_assoc.
        split; [reflexivity|]. rewrite failed_deletion_app, Hf1, Hf0. auto.
    + apply exec_deleteIndex_answers in H1 as [[[=] _] | (err & -> & [= ->])].
      right. exists [], name, err. auto.
    + apply exec_deleteIndex_answers in H1 as [[-> _] | (err & _ & ->)];
        discriminate.
Qed.

(** X2.  [CleanupOne] stops at the first deletion that fails: the failed
    call is the last event of the run, no deletion before it failed,
    and the run returns that error, wrapped with the index name.  A run
    that returns nil had every deletion answered without error; a run
    whose listing of the index names fails makes no other call. *)
Theorem CleanupOne_stops_at_first_failure
        (indexTemplateName : string) (maxHistory : Z)
        (t : list Event) (o : Outcome goerror) :
  exec (elasticsearch.CleanupOne indexTemplateName maxHistory) t o ->
  (o = Returned None -> omap failed_deletion t = []) /\
  (forall name err,
      (name, err) ∈ omap failed_deletion t ->
      exists t0, t = t0 ++ [Ev (DeleteIndex name) (Err err)] /\
                 omap failed_deletion t0 = [] /\
                 o = Returned (Some (deletionFailure name err))) /\
  (forall err,
      head t = Some (Ev IndexNames (Err err)) ->
      t = [Ev IndexNames (Err err)] /\
      o = Returned (Some (withMessage err "could not get index names"))).
Proof.
  intros H. unfold elasticsearch.CleanupOne in H.
  cbn -[wrap_int sort_Strings] in H. destruct H as (r & t' & -> & H).
  destruct r as [indices|e]; cbn -[wrap_int sort_Strings] in H.
  - change (omap failed_deletion (Ev IndexNames (Ok indices) :: t'))
      with (omap failed_deletion t').
    apply exec_deleteLoop_failure in H
      as [[Hf Ho] | (t0 & x & err & -> & Hf0 & ->)].
    + split; [auto|]. split.
      * intros name err Hin. rewrite Hf in Hin. apply elem_of_nil in Hin. contradiction.
      * intros err Hhd. apply head_Ev in Hhd. discriminate.
    + split; [discriminate|]. split.
      * intros name err' Hin. rewrite failed_deletion_app, Hf0 in Hin.
        cbn in Hin. apply list_elem_of_singleton in Hin. injection Hin as -> ->.
        exists (Ev IndexNames (Ok indices) :: t0). auto.
      * intros err' Hhd. apply head_Ev in Hhd. discriminate.
  - destruct H as [-> ->]. split; [discriminate|]. split.
    + intros name err Hin. cbn in Hin. apply elem_of_nil in Hin. contradiction.
    + intros err Hhd. apply head_Ev in Hhd. injection Hhd as <-. auto.
Qed.

Lemma CleanupOne_stops_at_first_failure_witness :
  let err := ElasticError 403 "forbidden" in
  let t := [Ev IndexNames (Ok ["twitter-2"; "twitter-1"]);
            Ev (DeleteIndex "twitter-1") (Err err)] in
  let o := Returned (Some (deletionFailure "twitter-1" err)) in
  exec (elasticsearch.CleanupOne "twitter" 0) t o /\
  ("twitter-1", err) ∈ omap failed_deletion t /\
  exists t0, t = t0 ++ [Ev (DeleteIndex "twitter-1") (Err err)] /\
             omap failed_deletion t0 = [].
Proof.
  intros err t o.
  assert (E : exec (elasticsearch.CleanupOne "twitter" 0) t o).
  { cbn. eexists (Ok _), _. split; [reflexivity|]. vm_compute.
    eexists (Err _), _. split; [reflexivity|]. auto. }
  assert (Hin : ("twitter-1", err) ∈ omap failed_deletion t) by (cbn; set_solver).
  split; [exact E|]. split; [exact Hin|].
  destruct (proj1 (proj2 (CleanupOne_stops_at_first_failure "twitter" 0 t o E))
                  "twitter-1" err Hin) as (t0 & Ht & Hf & _).
  exists t0. auto.
Defined.

Section Again.

Variable decode : string -> option IndicesGetTemplateResponse.
#[local] Abbreviation answer := (Cluster.answer decode).

Lemma without_nil (indices : list string) : without [] indices = indices.
Proof.
  unfold without. apply forallb_filter_id, forallb_forall.
  intros x _. apply bool_decide_eq_true. set_solver.
Qed.

(** The state the reference cluster is left in by a cleanup. *)
Lemma run_CleanupOne (w : Cluster.State) (indexTemplateName : string) (N : Z) :
  (0 <= N <= MaxInt)%Z ->
  NoDup (Cluster.indices w) ->
  (Z.of_nat (length (Cluster.indices w)) <= MaxInt)%Z ->
  let named := fun index => HasPrefix index indexTemplateName in
  let matches := sort_Strings (List.filter named (Cluster.indices w)) in
  let k := Z.to_nat (Z.max 0 (Z.of_nat (length matches) - N)) in
  exists w' t,
    run answer (elasticsearch.CleanupOne indexTemplateName N) w
    = (Returned None, w', t) /\
    deletions t = take k matches /\
    Cluster.indices w' = without (take k matches) (Cluster.indices w) /\
    sort_Strings (List.filter named (Cluster.indices w')) = drop k matches.
Proof.
  intros HN Hnd Hlen named matches k.
  pose proof (sort_Strings_Permutation (List.filter named (Cluster.indices w)))
    as Hperm. fold matches in Hperm.
  assert (HMle : length matches <= length (Cluster.indices w)).
  { rewrite Hperm. apply filter_length_le. }
  assert (Hndm : NoDup matches).
  { rewrite Hperm. apply NoDup_List_filter, Hnd. }
  assert (Hin : forall x, x ∈ matches <-> x ∈ Cluster.indices w /\ named x = true).
  { intros x. rewrite Hperm. apply elem_of_List_filter. }
  destruct (run_deleteLoop decode matches k 0 w) as (w' & t & Hrun & Hidx & Hdel);
    [lia|exact Hndm| |].
  { intros x Hx. apply Hin. eapply subseteq_take. exact Hx. }
  rewrite drop_0 in Hidx, Hdel.
  exists w', (Ev IndexNames (Ok (Cluster.indices w)) :: t).
  split.
  { unfold elasticsearch.CleanupOne. cbn -[wrap_int sort_Strings].
    fold named. fold matches.
    rewrite wrap_int_small by (unfold MinInt, MaxInt in *; lia).
    replace (Z.to_nat (Z.of_nat (length matches) - N)) with k by lia.
    rewrite Hrun. reflexivity. }
  split; [exact Hdel|]. split; [exact Hidx|].
  apply sort_Strings_unique; [apply Sorted_drop_string, sort_Strings_Sorted|].
  apply NoDup_Permutation.
  - rewrite <- (take_drop k matches) in Hndm.
    apply NoDup_app in Hndm as (_ & _ & H). exact H.
  - apply NoDup_List_filter. rewrite Hidx. apply NoDup_List_filter, Hnd.
  - intros x. rewrite elem_of_List_filter, Hidx. unfold without.
    rewrite elem_of_List_filter, bool_decide_eq_true.
    rewrite <- (take_drop k matches) in Hndm, Hin.
    apply NoDup_app in Hndm as (_ & Hdisj & _).
    specialize (Hin x). rewrite elem_of_app in Hin.
    split.
    + intros Hx. split; [split|]; [apply Hin; auto| |apply Hin; auto].
      intros Hx'. exact (Hdisj _ Hx' Hx).
    + intros [[Hx Hnot] Hnamed]. destruct Hin as [_ [Hin|Hin]]; auto.
      contradiction.
Qed.

(** X3.  On the reference cluster a cleanup is idempotent: run again
    with the same name and count, it returns nil, asks for no deletion
    and leaves the indices as the first cleanup left them. *)
Theorem CleanupOne_again_deletes_nothing
        (w : Cluster.State) (indexTemplateName : string) (N : Z) :
  (0 <= N <= MaxInt)%Z ->
  NoDup (Cluster.indices w) ->
  (Z.of_nat (length (Cluster.indices w)) <= MaxInt)%Z ->
  exists w1 t1 w2 t2,
    run answer (elasticsearch.CleanupOne indexTemplateName N) w
    = (Returned None, w1, t1) /\
    run answer (elasticsearch.CleanupOne indexTemplateName N) w1
    = (Returned None, w2, t2) /\
    deletions t2 = [] /\
    Cluster.indices w2 = Cluster.indices w1.
Proof.
  intros HN Hnd Hlen.
  destruct (run_CleanupOne w indexTemplateName N HN Hnd Hlen)
    as (w1 & t1 & Hrun1 & Hdel1 & Hidx1 & Hleft).
  assert (Hnd1 : NoDup (Cluster.indices w1)).
  { rewrite Hidx1. apply NoDup_List_filter, Hnd. }
  assert (Hlen1 : (Z.of_nat (length (Cluster.indices w1)) <= MaxInt)%Z).
  { rewrite Hidx1. unfold without.
    pose proof (filter_length_le
                  (fun i => bool_decide (i ∉ take
                     (Z.to_nat (Z.max 0 (Z.of_nat (length (sort_Strings
                        (List.filter (fun index => HasPrefix index indexTemplateName)
                                     (Cluster.indices w)))) - N)))
                     (sort_Strings
                        (List.filter (fun index => HasPrefix index indexTemplateName)
                                     (Cluster.indices w)))))
                  (Cluster.indices w)). lia. }
  destruct (run_CleanupOne w1 indexTemplateName N HN Hnd1 Hlen1)
    as (w2 & t2 & Hrun2 & Hdel2 & Hidx2 & _).
  exists w1, t1, w2, t2. split; [exact Hrun1|]. split; [exact Hrun2|].
  rewrite Hleft in Hdel2, Hidx2. rewrite length_drop in Hdel2, Hidx2.
  replace (Z.to_nat _) with 0 in Hdel2, Hidx2 by lia.
  rewrite take_0 in Hdel2, Hidx2. rewrite without_nil in Hidx2. auto.
Qed.

End Again.

Lemma CleanupOne_again_deletes_nothing_witness :
  (0 <= 2 <= MaxInt)%Z /\
  NoDup (Cluster.indices Examples.five_generations) /\
  (Z.of_nat (length (Cluster.indices Examples.five_generations)) <= MaxInt)%Z /\
  exists w1 t1 w2 t2,
    run (Cluster.answer Examples.no_decode)
        (elasticsearch.CleanupOne "twitter" 2) Examples.five_generations
    = (Returned None, w1, t1) /\
    run (Cluster.answer Examples.no_decode)
        (elasticsearch.CleanupOne "twitter" 2) w1
    = (Returned None, w2, t2) /\
    deletions t2 = [] /\
    Cluster.indices w2 = Cluster.indices w1.
Proof.
  assert (H1 : (0 <= 2 <= MaxInt)%Z) by (unfold MaxInt; lia).
  assert (H2 : NoDup (Cluster.indices Examples.five_generations))
    by (apply (bool_decide_unpack _); vm_compute; exact I).
  assert (H3 : (Z.of_nat (length (Cluster.indices Examples.five_generations))
                <= MaxInt)%Z) by (vm_compute; discriminate).
  split; [exact H1|]. split; [exact H2|]. split; [exact H3|].
  exact (CleanupOne_again_deletes_nothing
           Examples.no_decode Examples.five_generations "twitter" 2 H1 H2 H3).
Defined.

(** ** Loops *)

(** A run of a loop is made of runs of its body on a leading part of
    the slice, all of it when the loop ends without an error. *)
Lemma exec_forEach {X : Type} (l : list X) (body : X -> Prog goerror)
      (t : list Event) (o : Outcome goerror) :
  exec (forEach l body) t o ->
  exists ts : list (list Event),
    t = concat ts /\ length ts <= length l /\
    Forall2 (fun x ti => exists oi, exec (body x) ti oi) (take (length ts) l) ts /\
    (o = Returned None -> length ts = length l).
Proof.
  revert t. induction l as [|x l IH]; intros t H.
  - cbn in H. destruct H as [-> ->]. exists []. cbn. auto.
  - cbn [forEach] in H.
    apply exec_andThen in H
      as [(t1 & t2 & -> & H1 & H2) | [(e & H1 & ->) | (o1 & H1 & Hs)]].
    + apply IH in H2 as (ts & -> & Hlen & Hall & Hnil).
      exists (t1 :: ts). cbn. split; [reflexivity|]. split; [lia|].
      split; [constructor; eauto|]. intros Ho. f_equal. auto.
    + exists [t]. cbn. rewrite app_nil_r. split; [reflexivity|]. split; [lia|].
      split; [|discriminate]. rewrite take_0. constructor; [eauto|constructor].
    + exists [t]. cbn. rewrite app_nil_r. split; [reflexivity|]. split; [lia|].
      split; [rewrite take_0; constructor; [eauto|constructor]|].
      intros ->. destruct o1; discriminate.
Qed.

Lemma never_deleteLoop_listing (matches : list string) (n i : nat) :
  never is_index_names (elasticsearch.deleteLoop matches i n).
Proof.
  revert i. induction n as [|n IH]; intros i; cbn [elasticsearch.deleteLoop].
  - exact I.
  - destruct (matches !! i) as [name|]; [|exact I].
    apply never_andThen; [|apply IH].
    unfold elasticsearch.deleteIndex. never_tac.
Qed.

Lemma filter_none {X : Type} (P : X -> bool) (l : list X) :
  Forall (fun x => P x = false) l -> List.filter P l = [].
Proof.
  induction 1 as [|x l Hx _ IH]; cbn; [reflexivity|]. rewrite Hx. exact IH.
Qed.

(** A run of [CleanupOne] lists the index names once, and asks to
    delete only names that start with the name it was given. *)
Lemma exec_CleanupOne_shape (indexTemplateName : string) (maxHistory : Z)
      (t : list Event) (o : Outcome goerror) :
  exec (elasticsearch.CleanupOne indexTemplateName maxHistory) t o ->
  length (List.filter is_index_names (calls t)) = 1 /\
  forall name, name ∈ deletions t -> HasPrefix name indexTemplateName = true.
Proof.
  intros H. unfold elasticsearch.CleanupOne in H.
  cbn -[wrap_int sort_Strings] in H. destruct H as (r & t' & -> & H).
  change (deletions (Ev IndexNames r :: t')) with (deletions t').
  cbn [calls map call_of List.filter is_index_names length].
  destruct r as [indices|e]; cbn -[wrap_int sort_Strings] in H.
  - split.
    + f_equal. erewrite filter_none; [reflexivity|].
      eapply never_exec; [apply never_deleteLoop_listing|exact H].
    + apply exec_deleteLoop_consecutive in H as [k Hk]. rewrite drop_0 in Hk.
      intros name Hin. rewrite Hk in Hin. apply subseteq_take in Hin.
      rewrite sort_Strings_Permutation in Hin.
      apply elem_of_List_filter in Hin. apply Hin.
  - destruct H as [-> ->]. split; [reflexivity|].
    intros name Hin. cbn in Hin. apply elem_of_nil in Hin. contradiction.
Qed.

Lemma CleanupAll_loop (files : list FileInfo) (maxHistory : Z)
      (ts : list (list Event)) :
  Forall2 (fun (file : FileInfo) ti =>
             exists oi, exec (elasticsearch.CleanupOne
                                (TrimSuffix (Name file) ".json") maxHistory) ti oi)
          files ts ->
  length (List.filter is_index_names (calls (concat ts))) = length files /\
  forall name, name ∈ deletions (concat ts) ->
    exists file, file ∈ files /\
                 HasPrefix name (TrimSuffix (Name file) ".json") = true.
Proof.
  induction 1 as [|file ti files ts [oi Hi] _ [IHn IHd]]; cbn [concat].
  - split; [reflexivity|]. intros name Hin. cbn in Hin.
    apply elem_of_nil in Hin. contradiction.
  - apply exec_CleanupOne_shape in Hi as [Hn Hd].
    rewrite calls_app, List.filter_app, length_app, Hn, IHn.
    split; [reflexivity|]. intros name Hin.
    rewrite deletions_app in Hin. apply elem_of_app in Hin as [Hin|Hin].
    + exists file. split; [set_solver|auto].
    + destruct (IHd name Hin) as (f & Hf & Hp). exists f. split; [set_solver|auto].
Qed.

(** X4.  [CleanupAll] cleans up after every entry of the directory,
    hidden files and subdirectories included: a run that returns nil
    has listed the index names once per entry, and every name a run
    asks to delete starts with the name of an entry, less its [.json]
    ending. *)
Theorem CleanupAll_uses_every_entry
        (templatesDir : string) (maxHistory : Z) (files : list FileInfo)
        (t : list Event) (o : Outcome goerror) :
  exec (elasticsearch.CleanupAll templatesDir maxHistory) t o ->
  head t = Some (Ev (ReadDir templatesDir) (Ok files)) ->
  (forall name, name ∈ deletions t ->
     exists file, file ∈ files /\
                  HasPrefix name (TrimSuffix (Name file) ".json") = true) /\
  length (List.filter is_index_names (calls t)) <= length files /\
  (o = Returned None ->
   length (List.filter is_index_names (calls t)) = length files).
Proof.
  intros H Hhd. unfold elasticsearch.CleanupAll in H. cbn in H.
  destruct H as (r & t' & -> & H). apply head_Ev in Hhd. subst r. cbn in H.
  apply exec_forEach in H as (ts & -> & Hlen & Hall & Hnil).
  change (deletions (Ev (ReadDir templatesDir) (Ok files) :: concat ts))
    with (deletions (concat ts)).
  cbn [calls map call_of List.filter is_index_names].
  change (map call_of (concat ts)) with (calls (concat ts)).
  apply CleanupAll_loop in Hall as [Hn Hd].
  rewrite Hn, length_take. split; [|split; [lia|intros Ho; rewrite Hnil by exact Ho; lia]].
  intros name Hin. destruct (Hd name Hin) as (f & Hf & Hp).
  exists f. split; [|exact Hp]. eapply subseteq_take. exact Hf.
Qed.

Lemma CleanupAll_uses_every_entry_witness :
  let files := [ {| Name := "..data"; IsDir := true |};
                 {| Name := "twitter.json"; IsDir := false |} ] in
  let r := run (Cluster.answer Examples.no_decode)
               (elasticsearch.CleanupAll "templates" 1) mounted in
  exec (elasticsearch.CleanupAll "templates" 1) r.2 (Returned None) /\
  head r.2 = Some (Ev (ReadDir "templates") (Ok files)) /\
  deletions r.2 = ["twitter-1"] /\
  length (List.filter is_index_names (calls r.2)) = 2.
Proof.
  intros files r.
  assert (E : exec (elasticsearch.CleanupAll "templates" 1) r.2 (Returned None)).
  { replace (Returned None) with r.1.1 by (vm_compute; reflexivity).
    apply run_exec_proj. }
  assert (Hhd : head r.2 = Some (Ev (ReadDir "templates") (Ok files)))
    by (vm_compute; reflexivity).
  split; [exact E|]. split; [exact Hhd|]. split; [vm_compute; reflexivity|].
  exact (proj2 (proj2 (CleanupAll_uses_every_entry
                         "templates" 1 files r.2 _ E Hhd)) eq_refl).
Defined.

(** ** Failures end a run *)

Lemma reports_exec {A : Type} (isErr : A -> bool) (p : Prog A)
      (t : list Event) (o : Outcome A) :
  reports isErr p -> exec p t o ->
  Forall (fun c => is_print c = true) (calls t) /\
  exists a, o = Returned a /\ isErr a = true.
Proof.
  revert t. induction p as [a | reason | code | c k IH]; intros t Hr H; cbn in *.
  - destruct H as [-> ->]. split; [constructor|eauto].
  - contradiction.
  - contradiction.
  - destruct Hr as [Hc Hk]. destruct H as (r & t' & -> & H).
    destruct (IH r t' (Hk r) H) as [Hall Ho].
    split; [constructor; assumption|exact Ho].
Qed.

Lemma failfast_exec {A : Type} (isErr : A -> bool) (p : Prog A)
      (t : list Event) (o : Outcome A) :
  failfast isErr p -> exec p t o ->
  forall t1 e t2, t = t1 ++ e :: t2 -> failure e = true ->
    Forall (fun c => is_print c = true) (calls t2) /\
    exists a, o = Returned a /\ isErr a = true.
Proof.
  revert t. induction p as [a | reason | code | c k IH];
    intros t Hf H t1 e t2 Ht He; cbn in H.
  1-3: destruct H as [-> _]; destruct t1; discriminate.
  destruct H as (r & t' & -> & H). cbn in Hf. destruct (Hf r) as [Hfail Hrest].
  destruct t1 as [|e1 t1]; cbn in Ht; apply cons_inj in Ht as [<- ->].
  - eapply reports_exec; [apply Hfail, He|exact H].
  - eapply IH; eauto.
Qed.

Lemma reports_bind {A B : Type} (isErrA : A -> bool) (isErrB : B -> bool)
      (p : Prog A) (f : A -> Prog B) :
  reports isErrA p ->
  (forall a, isErrA a = true -> reports isErrB (f a)) ->
  reports isErrB (p ≫= f).
Proof.
  intros Hp Hf. induction p as [a | reason | code | c k IH]; cbn in *; auto.
  destruct Hp as [Hc Hk]. split; [exact Hc|]. intros r. apply IH, Hk.
Qed.

Lemma failfast_bind {A B : Type} (isErrA : A -> bool) (isErrB : B -> bool)
      (p : Prog A) (f : A -> Prog B) :
  failfast isErrA p ->
  (forall a, isErrA a = true -> reports isErrB (f a)) ->
  (forall a, failfast isErrB (f a)) ->
  failfast isErrB (p ≫= f).
Proof.
  intros Hp Hr Hf. induction p as [a | reason | code | c k IH]; cbn in *; auto.
  intros r. destruct (Hp r) as [Hfail Hrest]. split.
  - intros He. eapply reports_bind; eauto.
  - apply IH, Hrest.
Qed.

Lemma failfast_andThen (p k : Prog goerror) :
  failfast non_nil p -> failfast non_nil k -> failfast non_nil (andThen p k).
Proof.
  intros Hp Hk. unfold andThen.
  apply failfast_bind with (isErrA := non_nil); [exact Hp| |].
  - intros [e|] He; [reflexivity|discriminate].
  - intros [e|]; [exact I|exact Hk].
Qed.

Lemma failfast_forEach {X : Type} (l : list X) (body : X -> Prog goerror) :
  (forall x, failfast non_nil (body x)) -> failfast non_nil (forEach l body).
Proof.
  intros Hb. induction l as [|x l IH]; cbn [forEach]; [exact I|].
  apply failfast_andThen; auto.
Qed.

(** Case analysis of a straight-line body, answer by answer. *)
Ltac failfast_tac :=
  repeat first
    [ progress cbn
    | match goal with
      | |- failfast _ (when _ _) => unfold when
      | |- reports _ (when _ _) => unfold when
      | |- failfast _ (andThen _ _) => apply failfast_andThen
      | |- failfast _ (forEach _ _) => apply failfast_forEach; intros
      | |- is_err ?r = true -> _ => is_var r; destruct r
      | |- match ?r with Ok _ => false | Err _ => _ end = true -> _ =>
          is_var r; destruct r
      | |- false = true -> _ => discriminate
      | |- true = true -> _ => intros _
      | |- negb (IsNotFound ?e) = true -> _ =>
          let H := fresh in intros H; rewrite ?H
      | |- context [when (negb ?b) _] => is_var b; destruct b
      | |- context [if negb ?b then _ else _] => is_var b; destruct b
      | |- context [if ?b then _ else _] => is_var b; destruct b
      | |- failfast _ (bind (match ?x with _ => _ end) _) => destruct x
      | |- failfast _ (match ?x with _ => _ end ≫= _) => destruct x
      | |- failfast _ ((match ?x with _ => _ end ≫= _) ≫= _) => destruct x
      | |- reports _ (bind (match ?x with _ => _ end) _) => destruct x
      | |- failfast _ (match ?x with _ => _ end) => destruct x eqn:?
      | |- reports _ (match ?x with _ => _ end) => destruct x eqn:?
      | |- failfast _ (if ?x then _ else _) => destruct x eqn:?
      | |- reports _ (if ?x then _ else _) => destruct x eqn:?
      | |- _ /\ _ => split
      | |- forall _ : Resp _, _ => intros
      | |- forall _ : unit, _ => intros
      | |- forall _ : Time, _ => intros
      | |- forall _ : result _, _ => intros
      | |- True => exact I
      | |- _ = _ => reflexivity
      end ].

Lemma failfast_provision (filePath newIndexName : string)
      (bulkIndexing includeTypeName : bool) (extraSuffix : string) :
  failfast with_error
    (elasticsearch.UpdateTemplateAndCreateNewIndex
       filePath newIndexName bulkIndexing includeTypeName extraSuffix).
Proof. unfold elasticsearch.UpdateTemplateAndCreateNewIndex. failfast_tac. Qed.

Lemma failfast_provisionFiles (templatesDir : string) (files : list FileInfo)
      (bulkIndexing includeTypeName : bool) (extraSuffix : string)
      (aliasToNewIndex : gmap string string) :
  failfast with_error
    (elasticsearch.provisionFiles templatesDir files bulkIndexing includeTypeName
                                  extraSuffix aliasToNewIndex).
Proof.
  revert aliasToNewIndex.
  induction files as [|file files IH]; intros aliasToNewIndex;
    cbn [elasticsearch.provisionFiles]; [exact I|].
  destruct (HasPrefix (Name file) "." || IsDir file); [apply IH|].
  apply failfast_bind with (isErrA := with_error).
  - apply failfast_provision.
  - intros [newIndex [e|]] He; [reflexivity|discriminate].
  - intros [newIndex [e|]]; [exact I|apply IH].
Qed.

Lemma failfast_UpdateTemplatesAndCreateNewIndices
      (templatesDir : string) (bulkIndexing includeTypeName : bool)
      (extraSuffix : string) :
  failfast with_error
    (elasticsearch.UpdateTemplatesAndCreateNewIndices
       templatesDir bulkIndexing includeTypeName extraSuffix).
Proof.
  unfold elasticsearch.UpdateTemplatesAndCreateNewIndices.
  cbn. intros r. split.
  - destruct r; [discriminate|]. intros _. reflexivity.
  - destruct r; [apply failfast_provisionFiles|exact I].
Qed.

Lemma failfast_removeFromAlias (alias index : string) :
  failfast non_nil (elasticsearch.removeFromAlias alias index).
Proof. unfold elasticsearch.removeFromAlias. failfast_tac. Qed.

Lemma failfast_addToAlias (alias newIndex : string) :
  failfast non_nil (elasticsearch.addToAlias alias newIndex).
Proof. unfold elasticsearch.addToAlias. failfast_tac. Qed.

Lemma failfast_UpdateAlias (alias newIndex : string) :
  failfast non_nil (elasticsearch.UpdateAlias alias newIndex).
Proof.
  unfold elasticsearch.UpdateAlias. cbn. intros r. split.
  - destruct r as [b|e]; [discriminate|]. intros _. cbn. auto.
  - destruct r as [b|e]; cbn.
    + destruct b; cbn; [|intros []; auto].
      intros lookup. split.
      * destruct lookup as [res|e]; [discriminate|]. cbn. intros H.
        unfold andThen, elasticsearch.removeFromAll. rewrite H. reflexivity.
      * apply failfast_andThen; [|apply failfast_addToAlias].
        unfold elasticsearch.removeFromAll. destruct lookup as [res|e].
        -- apply failfast_forEach. intros. apply failfast_removeFromAlias.
        -- destruct (negb (IsNotFound e)); cbn; auto.
    + intros []. auto.
Qed.

Lemma failfast_reindexFrom (index newIndex remoteSrc : string)
      (versionExternal : bool) :
  failfast non_nil
    (elasticsearch.reindexFrom index newIndex remoteSrc versionExternal).
Proof. unfold elasticsearch.reindexFrom. failfast_tac. Qed.

Lemma failfast_copyDocuments (alias newIndex remoteSrc : string)
      (versionExternal reindexingRequired : bool)
      (aliasResult : option AliasesResult) :
  failfast non_nil
    (elasticsearch.copyDocuments alias newIndex remoteSrc versionExternal
                                 reindexingRequired aliasResult).
Proof.
  unfold elasticsearch.copyDocuments.
  destruct (reindexingRequired || negb (remoteSrc =? "")%string); [|exact I].
  destruct (remoteSrc =? "")%string; [destruct aliasResult|]; cbn -[forEach];
    try exact I.
  all: apply failfast_forEach; intros; apply failfast_reindexFrom.
Qed.

Lemma failfast_restoreSettings (alias newIndex : string) :
  failfast non_nil (elasticsearch.restoreSettings alias newIndex).
Proof.
  unfold elasticsearch.restoreSettings, elasticsearch.indexSetting,
    elasticsearch.assertString.
  failfast_tac.
Qed.

Lemma failfast_ReindexOne (alias newIndex remoteSrc : string)
      (versionExternal noUpdateAlias bulkIndexing : bool) :
  failfast non_nil
    (elasticsearch.ReindexOne alias newIndex remoteSrc versionExternal
                              noUpdateAlias bulkIndexing).
Proof.
  assert (Hsteps : forall required aliasResult,
             failfast non_nil
               (elasticsearch.reindexSteps alias newIndex remoteSrc versionExternal
                  noUpdateAlias bulkIndexing required aliasResult)).
  { intros required aliasResult. unfold elasticsearch.reindexSteps.
    apply failfast_andThen; [apply failfast_copyDocuments|].
    unfold elasticsearch.restoreAndSwap. apply failfast_andThen.
    - destruct (negb noUpdateAlias || negb bulkIndexing);
        [apply failfast_restoreSettings|exact I].
    - destruct (negb noUpdateAlias); [apply failfast_UpdateAlias|exact I]. }
  unfold elasticsearch.ReindexOne. cbn -[elasticsearch.reindexSteps].
  intros lookup. split.
  - destruct lookup as [res|e]; [discriminate|]. intros H. rewrite H. reflexivity.
  - destruct lookup as [res|e]; [apply Hsteps|].
    destruct (negb (IsNotFound e)); [exact I|apply Hsteps].
Qed.

Lemma failfast_UpdateHostAllocation (newIndex allocation : string) :
  failfast non_nil (elasticsearch.UpdateHostAllocation newIndex allocation).
Proof. unfold elasticsearch.UpdateHostAllocation. failfast_tac. Qed.

Lemma failfast_ReindexAllIn (entries : list (string * string)) (remoteSrc : string) :
  failfast non_nil (elasticsearch.ReindexAllIn entries remoteSrc).
Proof.
  unfold elasticsearch.ReindexAllIn. apply failfast_forEach.
  intros [alias newIndex]. unfold elasticsearch.reindexEntry.
  apply failfast_bind with (isErrA := non_nil).
  - apply failfast_ReindexOne.
  - intros [e|] He; [reflexivity|discriminate].
  - intros [e|]; exact I.
Qed.

Lemma failfast_deleteLoop (matches : list string) (n i : nat) :
  failfast non_nil (elasticsearch.deleteLoop matches i n).
Proof.
  revert i. induction n as [|n IH]; intros i; cbn [elasticsearch.deleteLoop].
  - exact I.
  - destruct (matches !! i) as [name|]; [|exact I].
    apply failfast_andThen; [|apply IH].
    unfold elasticsearch.deleteIndex. failfast_tac.
Qed.

Lemma failfast_CleanupOne (indexTemplateName : string) (maxHistory : Z) :
  failfast non_nil (elasticsearch.CleanupOne indexTemplateName maxHistory).
Proof.
  unfold elasticsearch.CleanupOne. cbn -[wrap_int sort_Strings]. intros r. split.
  - destruct r; [discriminate|]. intros _. reflexivity.
  - destruct r; [apply failfast_deleteLoop|exact I].
Qed.

Lemma failfast_CleanupAll (templatesDir : string) (maxHistory : Z) :
  failfast non_nil (elasticsearch.CleanupAll templatesDir maxHistory).
Proof.
  unfold elasticsearch.CleanupAll. cbn -[forEach]. intros r. split.
  - destruct r; [discriminate|]. intros _. reflexivity.
  - destruct r; [|exact I]. apply failfast_forEach. intros.
    apply failfast_CleanupOne.
Qed.

(** The checks a command makes on its arguments: no call that can
    fail, and nothing returned that could be taken for an error. *)
Lemma failfast_guard (b : bool) (msg command : string) (k : Prog goerror) :
  failfast non_nil k ->
  failfast non_nil
    ((if b then print msg;; cli.ShowCommandHelpAndExit command 1 else Ret tt);; k).
Proof.
  intros Hk. destruct b; cbn; [|exact Hk].
  intros []. split; [discriminate|]. intros []. split; [discriminate|exact I].
Qed.

Lemma failfast_connected (c : cli.Context) (k : Prog goerror) :
  failfast non_nil k ->
  failfast non_nil
    (client ← cli.getClient c;
     match client with
     | Err err => Ret (Wrap (Some err) cli.connectFailure)
     | Ok _ => k
     end).
Proof.
  intros Hk. unfold cli.getClient.
  destruct (0 <? String.length (cli.ctxString c "username"))%nat; cbn.
  all: intros r; split; [destruct r; [discriminate|]; intros _; reflexivity|].
  all: destruct r; [exact Hk|exact I].
Qed.

Lemma failfast_allocateIfSet (c : cli.Context) (flag newIndex : string) :
  failfast non_nil (cli.allocateIfSet c flag newIndex).
Proof.
  unfold cli.allocateIfSet. destruct (cli.IsSet c flag); [|exact I].
  apply failfast_UpdateHostAllocation.
Qed.

Lemma failfast_Reindex (remoteSrc : string) (c : cli.Context) :
  failfast non_nil (cli.Reindex remoteSrc c).
Proof.
  unfold cli.Reindex. apply failfast_guard, failfast_connected.
  destruct (HasSuffix (cli.First c) ".json").
  - apply failfast_bind with (isErrA := with_error).
    + apply failfast_provision.
    + intros [newIndex [e|]] He; [reflexivity|discriminate].
    + intros [newIndex [e|]]; [exact I|].
      apply failfast_andThen; [apply failfast_allocateIfSet|].
      destruct (Split (cli.First c)) as [dir fileName].
      apply failfast_andThen; [apply failfast_ReindexOne|apply failfast_allocateIfSet].
  - apply failfast_guard.
    apply failfast_bind with (isErrA := with_error).
    + apply failfast_UpdateTemplatesAndCreateNewIndices.
    + intros [m [e|]] He; [reflexivity|discriminate].
    + intros [m [e|]]; [exact I|]. apply failfast_ReindexAllIn.
Qed.

Lemma failfast_Cleanup (c : cli.Context) : failfast non_nil (cli.Cleanup c).
Proof.
  unfold cli.Cleanup. apply failfast_guard, failfast_connected.
  destruct (HasSuffix (cli.First c) ".json").
  - destruct (Split (cli.First c)) as [dir fileName]. apply failfast_CleanupOne.
  - apply failfast_CleanupAll.
Qed.

Lemma failfast_UpdateAlias_command (c : cli.Context) :
  failfast non_nil (cli.UpdateAlias c).
Proof.
  unfold cli.UpdateAlias. apply failfast_guard, failfast_connected.
  apply failfast_UpdateAlias.
Qed.

(** X5.  Every command stops at the first failure.  Once a call of a run
    of [reindex], [cleanup] or [update-alias] is answered by an error
    (but for the alias lookup that finds no alias), the command makes
    no further call on the cluster or the file system: it only prints,
    and returns a non-nil error. *)
Theorem commands_stop_at_first_failure
        (remoteSrc : string) (c : cli.Context) (action : Prog goerror)
        (t : list Event) (o : Outcome goerror) :
  action = cli.Reindex remoteSrc c \/ action = cli.Cleanup c \/
  action = cli.UpdateAlias c ->
  exec action t o ->
  forall t1 e t2,
    t = t1 ++ e :: t2 -> failure e = true ->
    Forall (fun c => is_print c = true) (calls t2) /\
    exists err, o = Returned (Some err).
Proof.
  intros Haction H t1 e t2 Ht He.
  assert (Hff : failfast non_nil action).
  { destruct Haction as [-> | [-> | ->]].
    - apply failfast_Reindex.
    - apply failfast_Cleanup.
    - apply failfast_UpdateAlias_command. }
  destruct (failfast_exec non_nil action t o Hff H t1 e t2 Ht He)
    as [Hprints (a & -> & Ha)].
  split; [exact Hprints|]. destruct a as [err|]; [eauto|discriminate].
Qed.

Lemma commands_stop_at_first_failure_witness :
  let action := cli.Reindex "" reindex_one_file in
  let r := run (Cluster.answer Examples.no_decode) action
               (Examples.fresh Examples.july7) in
  let e := Ev (IndexPutTemplate "twitter" false "{}")
              (Err (ElasticError 400 "parse_exception")) in
  exec action r.2 r.1.1 /\
  r.2 = take 2 r.2 ++ e :: [] /\
  failure e = true /\
  exists err, r.1.1 = Returned (Some err).
Proof.
  intros action r e.
  assert (E : exec action r.2 r.1.1) by apply run_exec_proj.
  assert (Ht : r.2 = take 2 r.2 ++ e :: []) by (vm_compute; reflexivity).
  assert (He : failure e = true) by reflexivity.
  split; [exact E|]. split; [exact Ht|]. split; [exact He|].
  exact (proj2 (commands_stop_at_first_failure
                  "" reindex_one_file action r.2 r.1.1 (or_introl eq_refl) E
                  (take 2 r.2) e [] Ht He)).
Defined.

(** ** Errors come from failures *)

Lemma faithful_exec {A : Type} (isErr : A -> bool) (p : Prog A)
      (t : list Event) (o : Outcome A) :
  faithful isErr p -> exec p t o ->
  Forall (fun e => failure e = false) t ->
  forall a, o = Returned a -> isErr a = false.
Proof.
  revert t. induction p as [a | reason | code | c k IH];
    intros t Hf H Hall b Ho; cbn in H.
  - destruct H as [_ ->]. injection Ho as <-. exact Hf.
  - destruct H as [_ ->]. discriminate.
  - destruct H as [_ ->]. discriminate.
  - destruct H as (r & t' & -> & H). apply Forall_cons in Hall as [Hr Hall].
    eapply IH; [apply Hf, Hr|exact H|exact Hall|exact Ho].
Qed.

Lemma faithful_bind {A B : Type} (isErrA : A -> bool) (isErrB : B -> bool)
      (p : Prog A) (f : A -> Prog B) :
  faithful isErrA p ->
  (forall a, isErrA a = false -> faithful isErrB (f a)) ->
  faithful isErrB (p ≫= f).
Proof.
  intros Hp Hf. induction p as [a | reason | code | c k IH]; cbn in *; auto.
  intros r Hr. apply IH, Hp, Hr.
Qed.

Lemma faithful_andThen (p k : Prog goerror) :
  faithful non_nil p -> faithful non_nil k -> faithful non_nil (andThen p k).
Proof.
  intros Hp Hk. unfold andThen.
  apply faithful_bind with (isErrA := non_nil); [exact Hp|].
  intros [e|] He; [discriminate|exact Hk].
Qed.

Lemma faithful_forEach {X : Type} (l : list X) (body : X -> Prog goerror) :
  (forall x, faithful non_nil (body x)) -> faithful non_nil (forEach l body).
Proof.
  intros Hb. induction l as [|x l IH]; cbn [forEach]; [reflexivity|].
  apply faithful_andThen; auto.
Qed.

Ltac faithful_tac :=
  repeat first
    [ progress cbn
    | match goal with
      | |- faithful _ (andThen _ _) => apply faithful_andThen
      | |- faithful _ (forEach _ _) => apply faithful_forEach; intros
      | |- is_err ?r = false -> _ => is_var r; destruct r
      | |- match ?r with Ok _ => false | Err _ => _ end = false -> _ =>
          is_var r; destruct r
      | |- true = false -> _ => discriminate
      | |- false = false -> _ => intros _
      | |- negb (IsNotFound ?e) = false -> _ =>
          let H := fresh in intros H; rewrite ?H
      | |- context [when (negb ?b) _] => is_var b; destruct b
      | |- context [if negb ?b then _ else _] => is_var b; destruct b
      | |- context [if ?b then _ else _] => is_var b; destruct b
      | |- faithful _ (bind (match ?x with _ => _ end) _) => destruct x
      | |- faithful _ (match ?x with _ => _ end ≫= _) => destruct x
      | |- faithful _ ((match ?x with _ => _ end ≫= _) ≫= _) => destruct x
      | |- faithful _ (match ?x with _ => _ end) => destruct x eqn:?
      | |- faithful _ (if ?x then _ else _) => destruct x eqn:?
      | |- forall _ : Resp _, _ => let r := fresh "r" in intro r
      | |- forall _ : unit, _ => let r := fresh "r" in intro r
      | |- forall _ : Time, _ => let r := fresh "r" in intro r
      | |- forall _ : result _, _ => let r := fresh "r" in intro r
      | |- True => exact I
      | |- _ = _ => reflexivity
      end ].

Lemma faithful_provision (filePath newIndexName : string)
      (bulkIndexing includeTypeName : bool) (extraSuffix : string) :
  faithful with_error
    (elasticsearch.UpdateTemplateAndCreateNewIndex
       filePath newIndexName bulkIndexing includeTypeName extraSuffix).
Proof. unfold elasticsearch.UpdateTemplateAndCreateNewIndex. faithful_tac. Qed.

Lemma faithful_provisionFiles (templatesDir : string) (files : list FileInfo)
      (bulkIndexing includeTypeName : bool) (extraSuffix : string)
      (aliasToNewIndex : gmap string string) :
  faithful with_error
    (elasticsearch.provisionFiles templatesDir files bulkIndexing includeTypeName
                                  extraSuffix aliasToNewIndex).
Proof.
  revert aliasToNewIndex.
  induction files as [|file files IH]; intros aliasToNewIndex;
    cbn [elasticsearch.provisionFiles]; [reflexivity|].
  destruct (HasPrefix (Name file) "." || IsDir file); [apply IH|].
  apply faithful_bind with (isErrA := with_error).
  - apply faithful_provision.
  - intros [newIndex [e|]] He; [discriminate|apply IH].
Qed.

Lemma faithful_UpdateTemplatesAndCreateNewIndices
      (templatesDir : string) (bulkIndexing includeTypeName : bool)
      (extraSuffix : string) :
  faithful with_error
    (elasticsearch.UpdateTemplatesAndCreateNewIndices
       templatesDir bulkIndexing includeTypeName extraSuffix).
Proof.
  unfold elasticsearch.UpdateTemplatesAndCreateNewIndices.
  cbn. intros r. destruct r; [|discriminate]. intros _.
  apply faithful_provisionFiles.
Qed.

Lemma faithful_UpdateAlias (alias newIndex : string) :
  faithful non_nil (elasticsearch.UpdateAlias alias newIndex).
Proof.
  unfold elasticsearch.UpdateAlias. cbn. intros r.
  destruct r as [b|e]; [|discriminate]. intros _. cbn.
  destruct b; cbn; [|intros [] _; reflexivity].
  intros lookup Hl. apply faithful_andThen.
  - unfold elasticsearch.removeFromAll. destruct lookup as [res|e].
    + apply faithful_forEach. intros index.
      unfold elasticsearch.removeFromAlias. faithful_tac.
    + cbn in Hl. rewrite Hl. cbn. intros [] _. reflexivity.
  - unfold elasticsearch.addToAlias. faithful_tac.
Qed.

Lemma faithful_copyDocuments (alias newIndex remoteSrc : string)
      (versionExternal reindexingRequired : bool)
      (aliasResult : option AliasesResult) :
  faithful non_nil
    (elasticsearch.copyDocuments alias newIndex remoteSrc versionExternal
                                 reindexingRequired aliasResult).
Proof.
  unfold elasticsearch.copyDocuments.
  destruct (reindexingRequired || negb (remoteSrc =? "")%string); [|reflexivity].
  destruct (remoteSrc =? "")%string; [destruct aliasResult|]; cbn -[forEach];
    try exact I.
  all: apply faithful_forEach; intros;
    unfold elasticsearch.reindexFrom; faithful_tac.
Qed.

Lemma faithful_restoreSettings (alias newIndex : string) :
  faithful non_nil (elasticsearch.restoreSettings alias newIndex).
Proof.
  unfold elasticsearch.restoreSettings, elasticsearch.indexSetting,
    elasticsearch.assertString.
  faithful_tac.
Qed.

Lemma faithful_ReindexOne (alias newIndex remoteSrc : string)
      (versionExternal noUpdateAlias bulkIndexing : bool) :
  faithful non_nil
    (elasticsearch.ReindexOne alias newIndex remoteSrc versionExternal
                              noUpdateAlias bulkIndexing).
Proof.
  assert (Hsteps : forall required aliasResult,
             faithful non_nil
               (elasticsearch.reindexSteps alias newIndex remoteSrc versionExternal
                  noUpdateAlias bulkIndexing required aliasResult)).
  { intros required aliasResult. unfold elasticsearch.reindexSteps.
    apply faithful_andThen; [apply faithful_copyDocuments|].
    unfold elasticsearch.restoreAndSwap. apply faithful_andThen.
    - destruct (negb noUpdateAlias || negb bulkIndexing);
        [apply faithful_restoreSettings|reflexivity].
    - destruct (negb noUpdateAlias); [apply faithful_UpdateAlias|reflexivity]. }
  unfold elasticsearch.ReindexOne. cbn -[elasticsearch.reindexSteps].
  intros lookup Hl. destruct lookup as [res|e]; [apply Hsteps|].
  rewrite Hl. apply Hsteps.
Qed.

Lemma faithful_ReindexAllIn (entries : list (string * string)) (remoteSrc : string) :
  faithful non_nil (elasticsearch.ReindexAllIn entries remoteSrc).
Proof.
  unfold elasticsearch.ReindexAllIn. apply faithful_forEach.
  intros [alias newIndex]. unfold elasticsearch.reindexEntry.
  apply faithful_bind with (isErrA := non_nil).
  - apply faithful_ReindexOne.
  - intros [e|] He; [discriminate|reflexivity].
Qed.

Lemma faithful_deleteLoop (matches : list string) (n i : nat) :
  faithful non_nil (elasticsearch.deleteLoop matches i n).
Proof.
  revert i. induction n as [|n IH]; intros i; cbn [elasticsearch.deleteLoop].
  - reflexivity.
  - destruct (matches !! i) as [name|]; [|exact I].
    apply faithful_andThen; [|apply IH].
    unfold elasticsearch.deleteIndex. faithful_tac.
Qed.

Lemma faithful_CleanupOne (indexTemplateName : string) (maxHistory : Z) :
  faithful non_nil (elasticsearch.CleanupOne indexTemplateName maxHistory).
Proof.
  unfold elasticsearch.CleanupOne. cbn -[wrap_int sort_Strings]. intros r.
  destruct r; [|discriminate]. intros _. apply faithful_deleteLoop.
Qed.

Lemma faithful_CleanupAll (templatesDir : string) (maxHistory : Z) :
  faithful non_nil (elasticsearch.CleanupAll templatesDir maxHistory).
Proof.
  unfold elasticsearch.CleanupAll. cbn -[forEach]. intros r.
  destruct r; [|discriminate]. intros _. apply faithful_forEach. intros.
  apply faithful_CleanupOne.
Qed.

Lemma faithful_guard (b : bool) (msg command : string) (k : Prog goerror) :
  faithful non_nil k ->
  faithful non_nil
    ((if b then print msg;; cli.ShowCommandHelpAndExit command 1 else Ret tt);; k).
Proof.
  intros Hk. destruct b; cbn; [|exact Hk]. intros [] _ [] _. exact I.
Qed.

Lemma faithful_connected (c : cli.Context) (k : Prog goerror) :
  faithful non_nil k ->
  faithful non_nil
    (client ← cli.getClient c;
     match client with
     | Err err => Ret (Wrap (Some err) cli.connectFailure)
     | Ok _ => k
     end).
Proof.
  intros Hk. unfold cli.getClient.
  destruct (0 <? String.length (cli.ctxString c "username"))%nat; cbn.
  all: intros r; destruct r; [intros _; exact Hk|discriminate].
Qed.

Lemma faithful_allocateIfSet (c : cli.Context) (flag newIndex : string) :
  faithful non_nil (cli.allocateIfSet c flag newIndex).
Proof.
  unfold cli.allocateIfSet. destruct (cli.IsSet c flag); [|reflexivity].
  unfold elasticsearch.UpdateHostAllocation. faithful_tac.
Qed.

Lemma faithful_Reindex (remoteSrc : string) (c : cli.Context) :
  faithful non_nil (cli.Reindex remoteSrc c).
Proof.
  unfold cli.Reindex. apply faithful_guard, faithful_connected.
  destruct (HasSuffix (cli.First c) ".json").
  - apply faithful_bind with (isErrA := with_error).
    + apply faithful_provision.
    + intros [newIndex [e|]] He; [discriminate|].
      apply faithful_andThen; [apply faithful_allocateIfSet|].
      destruct (Split (cli.First c)) as [dir fileName].
      apply faithful_andThen; [apply faithful_ReindexOne|apply faithful_allocateIfSet].
  - apply faithful_guard.
    apply faithful_bind with (isErrA := with_error).
    + apply faithful_UpdateTemplatesAndCreateNewIndices.
    + intros [m [e|]] He; [discriminate|]. apply faithful_ReindexAllIn.
Qed.

Lemma faithful_Cleanup (c : cli.Context) : faithful non_nil (cli.Cleanup c).
Proof.
  unfold cli.Cleanup. apply faithful_guard, faithful_connected.
  destruct (HasSuffix (cli.First c) ".json").
  - destruct (Split (cli.First c)) as [dir fileName]. apply faithful_CleanupOne.
  - apply faithful_CleanupAll.
Qed.

Lemma faithful_UpdateAlias_command (c : cli.Context) :
  faithful non_nil (cli.UpdateAlias c).
Proof.
  unfold cli.UpdateAlias. apply faithful_guard, faithful_connected.
  apply faithful_UpdateAlias.
Qed.

Lemma some_failure (t : list Event) :
  Forall (fun e => failure e = false) t \/ Exists (fun e => failure e = true) t.
Proof.
  induction t as [|e t [IH|IH]].
  - left. constructor.
  - destruct (failure e) eqn:He.
    + right. apply Exists_cons_hd. exact He.
    + left. constructor; assumption.
  - right. apply Exists_cons_tl. exact IH.
Qed.

(** X6.  A command returns an error only when a call has failed: a run
    of [reindex], [cleanup] or [update-alias] that returns a non-nil
    error holds a call answered by an error (other than the alias
    lookup that finds no alias).  Nothing else is reported through the
    returned error. *)
Theorem commands_fail_only_on_failed_calls
        (remoteSrc : string) (c : cli.Context) (action : Prog goerror)
        (t : list Event) (err : error) :
  action = cli.Reindex remoteSrc c \/ action = cli.Cleanup c \/
  action = cli.UpdateAlias c ->
  exec action t (Returned (Some err)) ->
  Exists (fun e => failure e = true) t.
Proof.
  intros Haction H.
  assert (Hf : faithful non_nil action).
  { destruct Haction as [-> | [-> | ->]].
    - apply faithful_Reindex.
    - apply faithful_Cleanup.
    - apply faithful_UpdateAlias_command. }
  destruct (some_failure t) as [Hall|Hex]; [|exact Hex].
  pose proof (faithful_exec non_nil action t _ Hf H Hall (Some err) eq_refl).
  discriminate.
Qed.

Lemma commands_fail_only_on_failed_calls_witness :
  let action := cli.Reindex "" reindex_one_file in
  let r := run (Cluster.answer Examples.no_decode) action
               (Examples.fresh Examples.july7) in
  let err := withMessage (ElasticError 400 "parse_exception")
                         "failed updating index template twitter" in
  exec action r.2 (Returned (Some err)) /\
  Exists (fun e => failure e = true) r.2.
Proof.
  intros action r err.
  assert (E : exec action r.2 (Returned (Some err))).
  { replace (Returned (Some err)) with r.1.1 by (vm_compute; reflexivity).
    apply run_exec_proj. }
  split; [exact E|].
  exact (commands_fail_only_on_failed_calls
           "" reindex_one_file action r.2 err (or_introl eq_refl) E).
Defined.

(** ** The alias swap, further *)

Lemma removals_app (t1 t2 : list Event) :
  removals (t1 ++ t2) = removals t1 ++ removals t2.
Proof. unfold removals. rewrite calls_app. apply omap_app. Qed.

Lemma additions_app (t1 t2 : list Event) :
  additions (t1 ++ t2) = additions t1 ++ additions t2.
Proof. unfold additions. rewrite calls_app. apply omap_app. Qed.

Lemma exec_removeFromAlias (alias index : string)
      (t : list Event) (o : Outcome goerror) :
  exec (elasticsearch.removeFromAlias alias index) t o ->
  removals t = [(index, alias)] /\ additions t = [] /\ exists r, o = Returned r.
Proof.
  unfold elasticsearch.removeFromAlias. intros H. exec_inv H; cbn; eauto.
Qed.

Lemma exec_addToAlias (alias newIndex : string)
      (t : list Event) (o : Outcome goerror) :
  exec (elasticsearch.addToAlias alias newIndex) t o ->
  removals t = [] /\ additions t = [(newIndex, alias)].
Proof.
  unfold elasticsearch.addToAlias. intros H. exec_inv H; cbn; eauto.
Qed.

Lemma exec_removal_loop (alias : string) (l : list string)
      (t : list Event) (o : Outcome goerror) :
  exec (forEach l (elasticsearch.removeFromAlias alias)) t o ->
  removals t `prefix_of` ((fun index => (index, alias)) <$> l) /\
  additions t = [] /\
  (o = Returned None -> removals t = (fun index => (index, alias)) <$> l).
Proof.
  revert t. induction l as [|i l IH]; intros t H.
  - cbn in H. destruct H as [-> ->]. cbn. split; [reflexivity|]. auto.
  - cbn [forEach] in H.
    apply exec_andThen in H
      as [(t1 & t2 & -> & H1 & H2) | [(e & H1 & ->) | (o1 & H1 & Hs)]].
    + apply exec_removeFromAlias in H1 as (Hr1 & Ha1 & _).
      apply IH in H2 as (Hp & Ha2 & Hall).
      rewrite removals_app, additions_app, Hr1, Ha1, Ha2. cbn.
      split; [apply prefix_cons, Hp|]. split; [reflexivity|].
      intros Ho. f_equal. auto.
    + apply exec_removeFromAlias in H1 as (Hr1 & Ha1 & _). rewrite Hr1, Ha1. cbn.
      split; [apply prefix_cons, prefix_nil|]. split; [reflexivity|discriminate].
    + apply exec_removeFromAlias in H1 as (_ & _ & r & ->). discriminate.
Qed.

(** X7.  [UpdateAlias] joins the alias to the new index only, and only
    at the end of a run whose existence check answered true and whose
    removals took the alias off every index the lookup named; in every
    run the removals are of this alias, from a leading part of the
    indices the lookup named. *)
Theorem UpdateAlias_adds_after_removals
        (alias newIndex : string) (t : list Event) (o : Outcome goerror) :
  exec (elasticsearch.UpdateAlias alias newIndex) t o ->
  (forall lookup, nth_error t 1 = Some (Ev (Aliases alias) lookup) ->
     removals t `prefix_of` ((fun index => (index, alias)) <$> lookedUp lookup alias)) /\
  (additions t = [] \/
   additions t = [(newIndex, alias)] /\
   exists lookup t',
     t = Ev (IndexExists newIndex) (Ok true) :: Ev (Aliases alias) lookup :: t' /\
     removals t = (fun index => (index, alias)) <$> lookedUp lookup alias).
Proof.
  unfold elasticsearch.UpdateAlias. intros H. cbn in H.
  destruct H as (r & t' & -> & H).
  destruct r as [[|] | e]; cbn in H.
  2,3: destruct H as ([] & t1 & -> & -> & ->); cbn; split; [|auto];
    intros lookup Hl; discriminate.
  destruct H as (lookup & t1 & -> & H).
  change (removals (Ev (IndexExists newIndex) (Ok true)
                       :: Ev (Aliases alias) lookup :: t1)) with (removals t1).
  change (additions (Ev (IndexExists newIndex) (Ok true)
                        :: Ev (Aliases alias) lookup :: t1)) with (additions t1).
  assert (Hloop : forall t0 o0,
             exec (elasticsearch.removeFromAll alias lookup) t0 o0 ->
             removals t0 `prefix_of` ((fun index => (index, alias)) <$> lookedUp lookup alias) /\
             additions t0 = [] /\
             (o0 = Returned None ->
              removals t0 = (fun index => (index, alias)) <$> lookedUp lookup alias)).
  { intros t0 o0 H0. unfold elasticsearch.removeFromAll in H0.
    destruct lookup as [res|e]; [apply exec_removal_loop, H0|].
    destruct (negb (IsNotFound e)); cbn in H0.
    - destruct H0 as [-> ->]. cbn. split; [reflexivity|]. auto.
    - destruct H0 as ([] & t2 & -> & -> & ->). cbn. split; [reflexivity|]. auto. }
  assert (Hshape :
            removals t1 `prefix_of` ((fun index => (index, alias)) <$> lookedUp lookup alias) /\
            (additions t1 = [] \/
             additions t1 = [(newIndex, alias)] /\
             removals t1 = (fun index => (index, alias)) <$> lookedUp lookup alias)).
  { apply exec_andThen in H
      as [(t2 & t3 & -> & H1 & H2) | [(e & H1 & ->) | (o1 & H1 & Hs)]].
    - apply Hloop in H1 as (_ & Ha1 & Hall). specialize (Hall eq_refl).
      apply exec_addToAlias in H2 as [Hr2 Ha2].
      rewrite removals_app, additions_app, Hall, Hr2, Ha1, Ha2, app_nil_r.
      split; [reflexivity|]. right. auto.
    - apply Hloop in H1 as (Hp & Ha1 & _). auto.
    - apply Hloop in H1 as (Hp & Ha1 & _). auto. }
  destruct Hshape as [Hp Hadd]. split.
  - intros lookup' Hl. cbn in Hl. apply (inj Some), Ev_inj in Hl.
    subst lookup'. exact Hp.
  - destruct Hadd as [Hadd | [Hadd Hrem]]; [auto|].
    right. split; [exact Hadd|]. exists lookup, t1. auto.
Qed.

Lemma UpdateAlias_adds_after_removals_witness :
  let lookup : result AliasesResult :=
    Ok [("twitter-1", ["twitter"]); ("users-1", ["users"])] in
  let t := [Ev (IndexExists "twitter-2") (Ok true);
            Ev (Aliases "twitter") lookup;
            Ev (AliasRemove "twitter-1" "twitter") (Ok true);
            Ev (Print (elasticsearch.AliasPrefix +:+ " " +:+ elasticsearch.Removed
                       +:+ " twitter-1 from twitter" +:+ nl)) tt;
            Ev (AliasAdd "twitter-2" "twitter") (Ok true);
            Ev (Print (elasticsearch.AliasPrefix +:+ " " +:+ elasticsearch.Added
                       +:+ " twitter-2 to twitter" +:+ nl)) tt] in
  exec (elasticsearch.UpdateAlias "twitter" "twitter-2") t (Returned None) /\
  nth_error t 1 = Some (Ev (Aliases "twitter") lookup) /\
  removals t `prefix_of` [("twitter-1", "twitter")].
Proof.
  intros lookup t.
  assert (E : exec (elasticsearch.UpdateAlias "twitter" "twitter-2") t (Returned None)).
  { cbn. eexists (Ok true), _. split; [reflexivity|]. cbn.
    eexists lookup, _. split; [reflexivity|]. cbn.
    eexists (Ok true), _. split; [reflexivity|]. cbn.
    eexists tt, _. split; [reflexivity|]. cbn.
    eexists (Ok true), _. split; [reflexivity|]. cbn.
    eexists tt, _. split; [reflexivity|]. cbn. auto. }
  split; [exact E|]. split; [reflexivity|].
  exact (proj1 (UpdateAlias_adds_after_removals "twitter" "twitter-2" t _ E)
               lookup eq_refl).
Defined.

Section SwapAgain.

Variable decode : string -> option IndicesGetTemplateResponse.
#[local] Abbreviation answer := (Cluster.answer decode).

(** The swap on the reference cluster, once the new index is there:
    what it asks for and what it leaves. *)
Lemma run_UpdateAlias_present (alias newIndex : string) (w : Cluster.State) :
  newIndex ∈ Cluster.indices w ->
  exists w' t,
    run answer (elasticsearch.UpdateAlias alias newIndex) w
    = (Returned None, w', t) /\
    Cluster.indices w' = Cluster.indices w /\
    Cluster.carries w'
    = Cluster.carries w
        ∖ list_to_set ((fun i => (i, alias)) <$> Cluster.indicesOf w alias)
        ∪ {[ (newIndex, alias) ]} /\
    removals t = (fun i => (i, alias)) <$> Cluster.indicesOf w alias /\
    additions t = [(newIndex, alias)].
Proof.
  intros Hin.
  unfold elasticsearch.UpdateAlias. cbn -[Cluster.indicesOf].
  unfold Cluster.has_index. rewrite bool_decide_true by exact Hin.
  cbn -[Cluster.indicesOf].
  destruct (Cluster.indicesOf w alias) as [|i0 l0] eqn:Hl.
  - cbn. unfold Cluster.has_index. cbn.
    rewrite bool_decide_true by exact Hin. cbn.
    eexists _, _. split; [reflexivity|]. cbn.
    split; [reflexivity|]. split; [|auto]. set_solver.
  - change ((i0, [alias]) :: ((fun i : string => (i, [alias])) <$> l0))
      with ((fun i : string => (i, [alias])) <$> (i0 :: l0)).
    rewrite <- Hl.
    destruct (run_removal_loop decode alias (Cluster.indicesOf w alias) w)
      as (w1 & t1 & Hr1 & Hi1 & Hc1).
    { apply NoDup_indicesOf. }
    { intros i. apply elem_of_indicesOf. }
    pose proof (run_exec _ _ _ _ _ _ Hr1) as E1.
    apply exec_removal_loop in E1 as (_ & Ha1 & Hrem1).
    specialize (Hrem1 eq_refl).
    rewrite run_andThen. unfold elasticsearch.removeFromAll.
    rewrite IndicesByAlias_answer, Hr1.
    unfold elasticsearch.addToAlias. cbn.
    unfold Cluster.has_index. rewrite Hi1, bool_decide_true by exact Hin. cbn.
    eexists _, _. split; [reflexivity|]. cbn.
    split; [exact Hi1|]. split; [rewrite Hc1; reflexivity|].
    fold (calls (t1 ++ [Ev (AliasAdd newIndex alias) (Ok true);
                        Ev (Print (elasticsearch.AliasPrefix +:+ " " +:+
                                   elasticsearch.Added +:+ " " +:+ newIndex +:+
                                   " to " +:+ alias +:+ nl)) tt])).
    fold (removals (t1 ++ [Ev (AliasAdd newIndex alias) (Ok true);
                           Ev (Print (elasticsearch.AliasPrefix +:+ " " +:+
                                      elasticsearch.Added +:+ " " +:+ newIndex +:+
                                      " to " +:+ alias +:+ nl)) tt])).
    fold (additions (t1 ++ [Ev (AliasAdd newIndex alias) (Ok true);
                            Ev (Print (elasticsearch.AliasPrefix +:+ " " +:+
                                       elasticsearch.Added +:+ " " +:+ newIndex +:+
                                       " to " +:+ alias +:+ nl)) tt])).
    rewrite removals_app, additions_app, Hrem1, Ha1. cbn.
    rewrite app_nil_r. auto.
Qed.

(** X8.  On the reference cluster a swap to an index that is there moves
    this alias and nothing else: the indices stay, every other alias
    stays where it was, and the new index alone carries the alias. *)
Theorem UpdateAlias_moves_only_its_alias
        (alias newIndex : string) (w : Cluster.State) :
  newIndex ∈ Cluster.indices w ->
  exists w' t,
    run answer (elasticsearch.UpdateAlias alias newIndex) w
    = (Returned None, w', t) /\
    Cluster.indices w' = Cluster.indices w /\
    forall i a, (i, a) ∈ Cluster.carries w' <->
                (a = alias /\ i = newIndex) \/
                (a <> alias /\ (i, a) ∈ Cluster.carries w).
Proof.
  intros Hin.
  destruct (run_UpdateAlias_present alias newIndex w Hin)
    as (w' & t & Hrun & Hidx & Hc & _).
  exists w', t. split; [exact Hrun|]. split; [exact Hidx|].
  intros i a. rewrite Hc.
  rewrite elem_of_union, elem_of_difference, elem_of_list_to_set,
    list_elem_of_fmap, elem_of_singleton.
  split.
  - intros [[H1 H2] | [= -> ->]]; [|auto].
    right. split; [|exact H1]. intros ->. apply H2.
    exists i. split; [reflexivity|]. apply elem_of_indicesOf. exact H1.
  - intros [[-> ->] | [Ha H1]]; [auto|].
    left. split; [exact H1|]. intros (j & [= -> ->] & _). congruence.
Qed.

(** X9.  The swap is not a no-op when the alias is where it should be:
    run again on the reference cluster, it takes the alias off the new
    index and joins it again, leaving the cluster as the first swap
    left it. *)
Theorem UpdateAlias_again_removes_and_adds
        (alias newIndex : string) (w : Cluster.State) :
  newIndex ∈ Cluster.indices w ->
  exists w1 t1 w2 t2,
    run answer (elasticsearch.UpdateAlias alias newIndex) w
    = (Returned None, w1, t1) /\
    run answer (elasticsearch.UpdateAlias alias newIndex) w1
    = (Returned None, w2, t2) /\
    removals t2 = [(newIndex, alias)] /\
    additions t2 = [(newIndex, alias)] /\
    Cluster.indices w2 = Cluster.indices w1 /\
    Cluster.carries w2 = Cluster.carries w1.
Proof.
  intros Hin.
  destruct (run_UpdateAlias_present alias newIndex w Hin)
    as (w1 & t1 & Hrun1 & Hidx1 & Hc1 & _).
  assert (Hin1 : newIndex ∈ Cluster.indices w1) by (rewrite Hidx1; exact Hin).
  destruct (run_UpdateAlias_present alias newIndex w1 Hin1)
    as (w2 & t2 & Hrun2 & Hidx2 & Hc2 & Hrem2 & Hadd2).
  assert (Hone : forall i, (i, alias) ∈ Cluster.carries w1 <-> i = newIndex).
  { intros i. rewrite Hc1.
    rewrite elem_of_union, elem_of_difference, elem_of_list_to_set,
      list_elem_of_fmap, elem_of_singleton.
    split.
    - intros [[H1 H2] | [= ->]]; [|reflexivity].
      exfalso. apply H2. exists i. split; [reflexivity|].
      apply elem_of_indicesOf. exact H1.
    - intros ->. right. reflexivity. }
  assert (Hof : Cluster.indicesOf w1 alias = [newIndex]).
  { pose proof (NoDup_indicesOf w1 alias) as Hnd.
    assert (Hel : forall i, i ∈ Cluster.indicesOf w1 alias <-> i = newIndex).
    { intros i. rewrite elem_of_indicesOf. apply Hone. }
    destruct (Cluster.indicesOf w1 alias) as [|a l].
    - exfalso. specialize (Hel newIndex). set_solver.
    - assert (a = newIndex) by (apply Hel; set_solver). subst a.
      destruct l as [|b l]; [reflexivity|].
      assert (b = newIndex) by (apply Hel; set_solver). subst b.
      apply NoDup_cons in Hnd as [Hnd _]. set_solver. }
  exists w1, t1, w2, t2. split; [exact Hrun1|]. split; [exact Hrun2|].
  rewrite Hof in Hrem2, Hc2. split; [exact Hrem2|]. split; [exact Hadd2|].
  split; [exact Hidx2|]. rewrite Hc2. cbn.
  assert (Hnew : (newIndex, alias) ∈ Cluster.carries w1) by (apply Hone; reflexivity).
  apply set_eq. intros p.
  rewrite elem_of_union, elem_of_difference, elem_of_union, !elem_of_singleton.
  split.
  - intros [[Hp _] | ->]; [exact Hp|exact Hnew].
  - intros Hp. destruct (decide (p = (newIndex, alias))) as [->|Hne].
    + right. reflexivity.
    + left. split; [exact Hp|]. intros [Heq|Hemp]; [contradiction|].
      apply elem_of_empty in Hemp. exact Hemp.
Qed.

End SwapAgain.

Lemma UpdateAlias_moves_only_its_alias_witness :
  "twitter-2" ∈ Cluster.indices Examples.two_aliased /\
  exists w' t,
    run (Cluster.answer Examples.no_decode)
        (elasticsearch.UpdateAlias "twitter" "twitter-2") Examples.two_aliased
    = (Returned None, w', t) /\
    Cluster.indices w' = ["twitter-1"; "twitter-2"] /\
    forall i a, (i, a) ∈ Cluster.carries w' <->
                (a = "twitter" /\ i = "twitter-2") \/
                (a <> "twitter" /\ (i, a) ∈ Cluster.carries Examples.two_aliased).
Proof.
  assert (H : "twitter-2" ∈ Cluster.indices Examples.two_aliased)
    by (apply (bool_decide_unpack _); vm_compute; exact I).
  split; [exact H|].
  exact (UpdateAlias_moves_only_its_alias
           Examples.no_decode "twitter" "twitter-2" Examples.two_aliased H).
Defined.

Lemma UpdateAlias_again_removes_and_adds_witness :
  "twitter-2" ∈ Cluster.indices Examples.two_aliased /\
  exists w1 t1 w2 t2,
    run (Cluster.answer Examples.no_decode)
        (elasticsearch.UpdateAlias "twitter" "twitter-2") Examples.two_aliased
    = (Returned None, w1, t1) /\
    run (Cluster.answer Examples.no_decode)
        (elasticsearch.UpdateAlias "twitter" "twitter-2") w1
    = (Returned None, w2, t2) /\
    removals t2 = [("twitter-2", "twitter")] /\
    additions t2 = [("twitter-2", "twitter")] /\
    Cluster.indices w2 = Cluster.indices w1 /\
    Cluster.carries w2 = Cluster.carries w1.
Proof.
  assert (H : "twitter-2" ∈ Cluster.indices Examples.two_aliased)
    by (apply (bool_decide_unpack _); vm_compute; exact I).
  split; [exact H|].
  exact (UpdateAlias_again_removes_and_adds
           Examples.no_decode "twitter" "twitter-2" Examples.two_aliased H).
Defined.

(** ** Reindex of one alias, further *)

Lemma copies_app (t1 t2 : list Event) : copies (t1 ++ t2) = copies t1 ++ copies t2.
Proof. unfold copies. rewrite calls_app. apply omap_app. Qed.

Lemma copies_none (t : list Event) :
  Forall (fun c => is_reindex c = false) (calls t) -> copies t = [].
Proof.
  unfold copies. induction 1 as [|c l Hc _ IH]; [reflexivity|].
  destruct c; try discriminate; exact IH.
Qed.

Lemma exec_reindexFrom (index newIndex remoteSrc : string) (versionExternal : bool)
      (t : list Event) (o : Outcome goerror) :
  exec (elasticsearch.reindexFrom index newIndex remoteSrc versionExternal) t o ->
  copies t = [ (if negb (String.eqb remoteSrc "")
                then {| src_index := index; src_remote := Some (remoteSrc, "5m") |}
                else {| src_index := index; src_remote := None |},
                destinationOf newIndex versionExternal, "true", "proceed") ] /\
  exists r, o = Returned r.
Proof.
  unfold elasticsearch.reindexFrom. cbn. intros (r & t' & -> & H).
  destruct r as [total|e]; cbn in H.
  - destruct H as ([] & t1 & -> & -> & ->). split; [reflexivity|eauto].
  - destruct H as [-> ->]. split; [reflexivity|eauto].
Qed.

Lemma exec_copy_loop (l : list string) (newIndex remoteSrc : string)
      (versionExternal : bool) (t : list Event) (o : Outcome goerror) :
  let request := fun index =>
    (if negb (String.eqb remoteSrc "")
     then {| src_index := index; src_remote := Some (remoteSrc, "5m") |}
     else {| src_index := index; src_remote := None |},
     destinationOf newIndex versionExternal, "true", "proceed") in
  exec (forEach l (fun index =>
          elasticsearch.reindexFrom index newIndex remoteSrc versionExternal)) t o ->
  copies t `prefix_of` (request <$> l) /\
  (o = Returned None -> copies t = request <$> l) /\
  exists r, o = Returned r.
Proof.
  intros request. revert t. induction l as [|i l IH]; intros t H.
  - cbn in H. destruct H as [-> ->]. cbn. split; [reflexivity|]. eauto.
  - cbn [forEach] in H.
    apply exec_andThen in H
      as [(t1 & t2 & -> & H1 & H2) | [(e & H1 & ->) | (o1 & H1 & Hs)]].
    + apply exec_reindexFrom in H1 as [Hc1 _].
      apply IH in H2 as (Hp & Hall & Hr).
      rewrite copies_app, Hc1. cbn.
      split; [apply prefix_cons, Hp|]. split; [|exact Hr].
      intros Ho. f_equal. auto.
    + apply exec_reindexFrom in H1 as [Hc1 _]. rewrite Hc1. cbn.
      split; [apply prefix_cons, prefix_nil|]. split; [discriminate|eauto].
    + apply exec_reindexFrom in H1 as [_ [r ->]]. discriminate.
Qed.

Lemma never_restoreAndSwap_reindex (alias newIndex : string)
      (noUpdateAlias bulkIndexing : bool) :
  never is_reindex
        (elasticsearch.restoreAndSwap alias newIndex noUpdateAlias bulkIndexing).
Proof.
  unfold elasticsearch.restoreAndSwap. apply never_andThen.
  - destruct (negb noUpdateAlias || negb bulkIndexing);
      [apply restoreSettings_never_reindex|exact I].
  - destruct (negb noUpdateAlias); [apply UpdateAlias_never_reindex|exact I].
Qed.

(** X10.  What [ReindexOne] copies.  Its reindex requests all go to the
    new index, with [refresh=true] and [conflicts=proceed] and the
    version type the flag asks for; they come, in order, from the
    indices the alias lookup named, or, with a remote source, from the
    one index named like the alias on the remote host, whatever the
    lookup found.  A run that returns nil has asked for all of them. *)
Theorem ReindexOne_copies
        (alias newIndex remoteSrc : string)
        (versionExternal noUpdateAlias bulkIndexing : bool)
        (lookup : result AliasesResult)
        (t : list Event) (o : Outcome goerror) :
  exec (elasticsearch.ReindexOne alias newIndex remoteSrc versionExternal
                                 noUpdateAlias bulkIndexing) t o ->
  head t = Some (Ev (Aliases alias) lookup) ->
  let requests :=
    (fun src => (src, destinationOf newIndex versionExternal, "true", "proceed"))
      <$> sourcesOf alias remoteSrc lookup in
  copies t `prefix_of` requests /\
  (o = Returned None -> copies t = requests).
Proof.
  intros H Hhd requests. unfold elasticsearch.ReindexOne in H.
  cbn -[elasticsearch.reindexSteps] in H. destruct H as (r & t' & -> & H).
  apply head_Ev in Hhd. subst r.
  change (copies (Ev (Aliases alias) lookup :: t')) with (copies t').
  assert (Hsteps : forall required aliasResult,
    (required = true -> aliasResult = match lookup with
                                      | Ok res => Some res
                                      | Err _ => None
                                      end /\ exists res, lookup = Ok res) ->
    (required = false -> lookedUp lookup alias = []) ->
    exec (elasticsearch.reindexSteps alias newIndex remoteSrc versionExternal
            noUpdateAlias bulkIndexing required aliasResult) t' o ->
    copies t' `prefix_of` requests /\ (o = Returned None -> copies t' = requests)).
  { intros required aliasResult Hreq Hnot Hs.
    assert (Hcopy : forall t0 o0,
      exec (elasticsearch.copyDocuments alias newIndex remoteSrc versionExternal
              required aliasResult) t0 o0 ->
      copies t0 `prefix_of` requests /\
      (o0 = Returned None -> copies t0 = requests) /\
      forall reason, o0 <> Panicked reason).
    { intros t0 o0 H0. unfold elasticsearch.copyDocuments in H0.
      unfold requests, sourcesOf.
      destruct (String.eqb remoteSrc "") eqn:Hremote; cbn [negb orb] in H0.
      - rewrite orb_false_r in H0. destruct required.
        + destruct (Hreq eq_refl) as [-> [res ->]]. cbn -[forEach] in H0.
          apply exec_copy_loop in H0 as (Hp & Hall & r & ->).
          rewrite Hremote in Hp, Hall. cbn [negb] in Hp, Hall.
          cbn [lookedUp]. rewrite <- list_fmap_compose.
          split; [exact Hp|]. split; [exact Hall|]. discriminate.
        + cbn in H0. destruct H0 as [-> ->]. rewrite (Hnot eq_refl). cbn.
          split; [reflexivity|]. split; [reflexivity|]. discriminate.
      - rewrite orb_true_r in H0. cbn -[forEach] in H0.
        apply exec_copy_loop in H0 as (Hp & Hall & r & ->).
        rewrite Hremote in Hp, Hall. cbn [negb] in Hp, Hall.
        split; [exact Hp|]. split; [exact Hall|]. discriminate. }
    unfold elasticsearch.reindexSteps in Hs.
    apply exec_andThen in Hs
      as [(t1 & t2 & -> & H1 & H2) | [(e & H1 & ->) | (o1 & H1 & Hso)]].
    - apply Hcopy in H1 as (_ & Hall & _). specialize (Hall eq_refl).
      rewrite copies_app, Hall.
      rewrite (copies_none t2), app_nil_r.
      2:{ eapply never_exec; [apply never_restoreAndSwap_reindex|exact H2]. }
      split; [reflexivity|]. reflexivity.
    - apply Hcopy in H1 as (Hp & _ & _). split; [exact Hp|discriminate].
    - apply Hcopy in H1 as (Hp & _ & _). split; [exact Hp|].
      intros ->. destruct o1; discriminate. }
  destruct lookup as [res|e].
  - apply (Hsteps true (Some res)); [eauto|discriminate|exact H].
  - destruct (negb (IsNotFound e)).
    + cbn in H. destruct H as [-> ->]. cbn.
      split; [apply prefix_nil|discriminate].
    + apply (Hsteps false None); [discriminate|reflexivity|exact H].
Qed.

Lemma ReindexOne_copies_witness :
  let action :=
    elasticsearch.ReindexOne "twitter" "twitter-1" "http://old:9200"
                             false false false in
  let r := run (Cluster.answer Examples.decode_plain) action Examples.ready_to_swap in
  let lookup : result AliasesResult := Err (Cluster.notFound "alias missing") in
  exec action r.2 r.1.1 /\
  head r.2 = Some (Ev (Aliases "twitter") lookup) /\
  copies r.2 `prefix_of`
    [ ({| src_index := "twitter"; src_remote := Some ("http://old:9200", "5m") |},
       {| dst_index := "twitter-1"; dst_version_type := "internal" |},
       "true", "proceed") ].
Proof.
  intros action r lookup.
  assert (E : exec action r.2 r.1.1) by apply run_exec_proj.
  assert (Hhd : head r.2 = Some (Ev (Aliases "twitter") lookup))
    by (vm_compute; reflexivity).
  split; [exact E|]. split; [exact Hhd|].
  exact (proj1 (ReindexOne_copies "twitter" "twitter-1" "http://old:9200"
                                  false false false lookup r.2 r.1.1 E Hhd)).
Defined.

(** ** The flags of the [reindex] command *)

Lemma never_copyDocuments (P : Call -> bool) (alias newIndex remoteSrc : string)
      (versionExternal reindexingRequired : bool)
      (aliasResult : option AliasesResult) :
  (forall src dst refresh conflicts, P (ReindexDocs src dst refresh conflicts) = false) ->
  (forall s, P (Print s) = false) ->
  never P (elasticsearch.copyDocuments alias newIndex remoteSrc versionExternal
                                       reindexingRequired aliasResult).
Proof.
  intros Hre Hpr. unfold elasticsearch.copyDocuments.
  destruct (reindexingRequired || negb (remoteSrc =? "")%string); [|exact I].
  apply never_bind.
  - destruct (remoteSrc =? "")%string; [destruct aliasResult|]; exact I.
  - intros l. apply never_forEach. intros index.
    unfold elasticsearch.reindexFrom. cbn. split; [apply Hre|].
    intros [total|e]; cbn; [|exact I]. split; [apply Hpr|]. intros []. exact I.
Qed.

Lemma never_provision_alias (filePath newIndexName : string)
      (bulkIndexing includeTypeName : bool) (extraSuffix : string) :
  never (fun c => is_alias_mutation c || is_template_lookup c)
        (elasticsearch.UpdateTemplateAndCreateNewIndex
           filePath newIndexName bulkIndexing includeTypeName extraSuffix).
Proof. unfold elasticsearch.UpdateTemplateAndCreateNewIndex. never_tac. Qed.

Lemma never_allocateIfSet_alias (c : cli.Context) (flag newIndex : string) :
  never (fun c => is_alias_mutation c || is_template_lookup c)
        (cli.allocateIfSet c flag newIndex).
Proof.
  unfold cli.allocateIfSet, elasticsearch.UpdateHostAllocation. never_tac.
Qed.

Lemma never_restoreSettings_alias (alias newIndex : string) :
  never is_alias_mutation (elasticsearch.restoreSettings alias newIndex).
Proof.
  unfold elasticsearch.restoreSettings, elasticsearch.indexSetting,
    elasticsearch.assertString. never_tac.
Qed.

Lemma never_weaken {A : Type} (P Q : Call -> bool) (p : Prog A) :
  (forall c, P c = false -> Q c = false) -> never P p -> never Q p.
Proof.
  intros HPQ. induction p as [a | reason | code | c k IH]; cbn; auto.
  intros [Hc Hk]. split; [apply HPQ, Hc|]. intros r. apply IH, Hk.
Qed.

Lemma never_Reindex_one_file (P : Call -> bool) (remoteSrc : string)
      (c : cli.Context) :
  (forall s, P (Print s) = false) ->
  (forall s, P (ShowCommandHelp s) = false) ->
  (forall opts, P (NewClient opts) = false) ->
  (forall c, is_alias_mutation c || is_template_lookup c = false -> P c = false) ->
  HasSuffix (cli.First c) ".json" = true ->
  (forall alias newIndex,
      never P (elasticsearch.ReindexOne
                 alias newIndex remoteSrc (cli.ctxBool c "version-external")
                 (cli.ctxBool c "no-update-alias") (cli.ctxBool c "bulk-indexing"))) ->
  never P (cli.Reindex remoteSrc c).
Proof.
  intros Hprint Hhelp Hclient Hother Hjson Hone. unfold cli.Reindex. rewrite Hjson.
  apply never_bind.
  { destruct ((cli.NArg c =? 0)%nat || (1 <? cli.NArg c)%nat); cbn; [|exact I].
    split; [apply Hprint|]. intros []. split; [apply Hhelp|]. intros []. exact I. }
  intros [].
  apply never_bind.
  { unfold cli.getClient.
    destruct (0 <? String.length (cli.ctxString c "username"))%nat; cbn.
    all: split; [apply Hclient|intros r; exact I]. }
  intros [client|e]; [|exact I].
  apply never_bind.
  { eapply never_weaken; [exact Hother|apply never_provision_alias]. }
  intros [newIndex [e|]]; [exact I|].
  apply never_andThen.
  { eapply never_weaken; [exact Hother|apply never_allocateIfSet_alias]. }
  destruct (Split (cli.First c)) as [dir fileName].
  apply never_andThen; [apply Hone|].
  eapply never_weaken; [exact Hother|apply never_allocateIfSet_alias].
Qed.

(** X11.  The flags of [reindex] on one template file.  With
    [--no-update-alias] no run takes the alias off an index or joins it
    to one; with [--bulk-indexing] as well, no run reads the template
    back either, so the settings of the bulk mode are left on the new
    index. *)
Theorem Reindex_no_update_alias
        (remoteSrc : string) (c : cli.Context)
        (t : list Event) (o : Outcome goerror) :
  HasSuffix (cli.First c) ".json" = true ->
  cli.ctxBool c "no-update-alias" = true ->
  exec (cli.Reindex remoteSrc c) t o ->
  Forall (fun c => is_alias_mutation c = false) (calls t) /\
  (cli.ctxBool c "bulk-indexing" = true ->
   Forall (fun c => is_template_lookup c = false) (calls t)).
Proof.
  intros Hjson Hno H. split.
  - eapply never_exec; [|exact H].
    apply never_Reindex_one_file; try reflexivity; [|exact Hjson|].
    + intros call Hc. apply orb_false_iff in Hc. apply Hc.
    + intros alias newIndex. rewrite Hno.
      unfold elasticsearch.ReindexOne, elasticsearch.reindexSteps,
        elasticsearch.restoreAndSwap.
      cbn -[elasticsearch.copyDocuments elasticsearch.restoreSettings].
      split; [reflexivity|]. intros lookup.
      assert (Hsteps : forall required aliasResult,
        never is_alias_mutation
          (andThen
             (elasticsearch.copyDocuments alias newIndex remoteSrc
                (cli.ctxBool c "version-external") required aliasResult)
             (andThen
                (if negb (cli.ctxBool c "bulk-indexing")
                 then elasticsearch.restoreSettings alias newIndex
                 else Ret None)
                (Ret None)))).
      { intros required aliasResult. apply never_andThen.
        - apply never_copyDocuments; reflexivity.
        - apply never_andThen; [|exact I].
          destruct (negb (cli.ctxBool c "bulk-indexing"));
            [apply never_restoreSettings_alias|exact I]. }
      destruct lookup as [res|e]; [apply Hsteps|].
      destruct (negb (IsNotFound e)); [exact I|apply Hsteps].
  - intros Hbulk. eapply never_exec; [|exact H].
    apply never_Reindex_one_file; try reflexivity; [|exact Hjson|].
    + intros call Hc. apply orb_false_iff in Hc. apply Hc.
    + intros alias newIndex. rewrite Hno, Hbulk.
      unfold elasticsearch.ReindexOne, elasticsearch.reindexSteps,
        elasticsearch.restoreAndSwap.
      cbn -[elasticsearch.copyDocuments].
      split; [reflexivity|]. intros lookup.
      assert (Hsteps : forall required aliasResult,
        never is_template_lookup
          (andThen
             (elasticsearch.copyDocuments alias newIndex remoteSrc
                (cli.ctxBool c "version-external") required aliasResult)
             (andThen (Ret None) (Ret None)))).
      { intros required aliasResult. apply never_andThen.
        - apply never_copyDocuments; reflexivity.
        - exact I. }
      destruct lookup as [res|e]; [apply Hsteps|].
      destruct (negb (IsNotFound e)); [exact I|apply Hsteps].
Qed.

Lemma Reindex_no_update_alias_witness :
  let c := reindex_bulk_no_alias in
  let r := run (Cluster.answer Examples.decode_plain) (cli.Reindex "" c)
               (Examples.fresh Examples.july7) in
  HasSuffix (cli.First c) ".json" = true /\
  cli.ctxBool c "no-update-alias" = true /\
  exec (cli.Reindex "" c) r.2 r.1.1 /\
  r.1.1 = Returned None /\
  Forall (fun c => is_alias_mutation c = false) (calls r.2) /\
  Forall (fun c => is_template_lookup c = false) (calls r.2).
Proof.
  intros c r.
  assert (H1 : HasSuffix (cli.First c) ".json" = true) by (vm_compute; reflexivity).
  assert (H2 : cli.ctxBool c "no-update-alias" = true) by (vm_compute; reflexivity).
  assert (H3 : cli.ctxBool c "bulk-indexing" = true) by (vm_compute; reflexivity).
  assert (E : exec (cli.Reindex "" c) r.2 r.1.1)
    by exact (run_exec_proj (Cluster.answer Examples.decode_plain)
                            (cli.Reindex "" c) (Examples.fresh Examples.july7)).
  split; [exact H1|]. split; [exact H2|]. split; [exact E|].
  split; [vm_compute; reflexivity|].
  destruct (Reindex_no_update_alias "" c r.2 r.1.1 H1 H2 E) as [Ha Hb].
  split; [exact Ha|exact (Hb H3)].
Defined.

(** ** The arguments of the commands *)

Lemma exec_guard_exit (msg command : string) (k : Prog goerror)
      (t : list Event) (o : Outcome goerror) :
  exec ((print msg;; cli.ShowCommandHelpAndExit (A:=unit) command 1);; k) t o ->
  calls t = [Print msg; ShowCommandHelp command] /\ o = Exited 1.
Proof.
  cbn. intros ([] & t1 & -> & [] & t2 & -> & -> & ->). auto.
Qed.

(** X12.  A command given the wrong arguments does nothing but say so:
    [reindex] and [cleanup] with no argument or more than one, and
    [update-alias] without [--alias] or without [--dest-index], print
    the usage line and the command help and exit with status 1, before
    a client is made.  The help [update-alias] shows is that of
    [reindex]. *)
Theorem commands_reject_bad_arguments
        (remoteSrc : string) (c : cli.Context)
        (t : list Event) (o : Outcome goerror) :
  (cli.NArg c <> 1 -> exec (cli.Reindex remoteSrc c) t o ->
   calls t = [Print cli.usage; ShowCommandHelp "reindex"] /\ o = Exited 1) /\
  (cli.NArg c <> 1 -> exec (cli.Cleanup c) t o ->
   calls t = [Print cli.usage; ShowCommandHelp "cleanup"] /\ o = Exited 1) /\
  (cli.IsSet c "alias" = false \/ cli.IsSet c "dest-index" = false ->
   exec (cli.UpdateAlias c) t o ->
   calls t = [Print cli.usage; ShowCommandHelp "reindex"] /\ o = Exited 1).
Proof.
  assert (Hn : cli.NArg c <> 1 ->
               (cli.NArg c =? 0)%nat || (1 <? cli.NArg c)%nat = true).
  { intros Hne. destruct (Nat.eqb_spec (cli.NArg c) 0) as [|H0]; [reflexivity|].
    apply Nat.ltb_lt. lia. }
  split; [|split].
  - intros Hne H. unfold cli.Reindex in H. rewrite (Hn Hne) in H.
    eapply exec_guard_exit, H.
  - intros Hne H. unfold cli.Cleanup in H. rewrite (Hn Hne) in H.
    eapply exec_guard_exit, H.
  - intros Hflag H. unfold cli.UpdateAlias in H.
    assert (Hb : negb (cli.IsSet c "alias") || negb (cli.IsSet c "dest-index") = true).
    { destruct Hflag as [-> | ->]; [reflexivity|apply orb_true_r]. }
    rewrite Hb in H. eapply exec_guard_exit, H.
Qed.

Lemma commands_reject_bad_arguments_witness :
  let c := cli.withBoolFlags ∅ Examples.dest_index_with_directory in
  let r := run (Cluster.answer Examples.no_decode) (cli.UpdateAlias c)
               Examples.two_aliased in
  cli.IsSet c "alias" = false /\
  exec (cli.UpdateAlias c) r.2 r.1.1 /\
  calls r.2 = [Print cli.usage; ShowCommandHelp "reindex"] /\ r.1.1 = Exited 1.
Proof.
  intros c r.
  assert (H1 : cli.IsSet c "alias" = false) by (vm_compute; reflexivity).
  assert (E : exec (cli.UpdateAlias c) r.2 r.1.1)
    by exact (run_exec_proj (Cluster.answer Examples.no_decode)
                            (cli.UpdateAlias c) Examples.two_aliased).
  split; [exact H1|]. split; [exact E|].
  exact (proj2 (proj2 (commands_reject_bad_arguments "" c r.2 r.1.1))
               (or_introl H1) E).
Defined.

(** ** Provisioning a directory *)

Lemma Split_cons (c : ascii) (rest : string) :
  Split (String c rest) =
  let '(dir, file) := Split rest in
  if String.eqb dir "" then
    if Ascii.eqb c PathSeparator then (String c "", file)
    else ("", String c file)
  else (String c dir, file).
Proof. reflexivity. Qed.

Lemma Split_plain (name : string) :
  occurs PathSeparator name = false -> Split name = ("", name).
Proof.
  induction name as [|c name IH]; [reflexivity|].
  cbn [occurs]. intros H. apply orb_false_iff in H as [Hc Hn].
  rewrite Split_cons, (IH Hn). cbn. rewrite Hc. reflexivity.
Qed.

Lemma Split_after_separator (dir name : string) :
  occurs PathSeparator name = false ->
  Split (dir +:+ "/" +:+ name) = (dir +:+ "/", name).
Proof.
  intros Hn. induction dir as [|c dir IH].
  - rewrite append_nil_l, append_cons, append_nil_l, Split_cons.
    rewrite (Split_plain name Hn). reflexivity.
  - rewrite append_cons, Split_cons, IH.
    destruct dir; reflexivity.
Qed.

Lemma pathElements_plain (name : string) :
  occurs PathSeparator name = false -> pathElements name = [name].
Proof.
  induction name as [|c name IH]; [reflexivity|].
  cbn [occurs pathElements]. intros H. apply orb_false_iff in H as [Hc Hn].
  rewrite Hc, (IH Hn). reflexivity.
Qed.

Lemma pathElements_nonempty (path : string) : pathElements path <> [].
Proof.
  destruct path as [|c path]; cbn [pathElements]; [discriminate|].
  destruct (Ascii.eqb c PathSeparator); [discriminate|].
  destruct (pathElements path); discriminate.
Qed.

Lemma pathElements_snoc (dir name : string) :
  occurs PathSeparator name = false ->
  pathElements (dir +:+ String PathSeparator "" +:+ name)
  = pathElements dir ++ [name].
Proof.
  intros Hn. induction dir as [|c dir IH].
  - rewrite append_nil_l, append_cons, append_nil_l. cbn [pathElements].
    rewrite Ascii.eqb_refl, (pathElements_plain name Hn). reflexivity.
  - rewrite append_cons. cbn [pathElements]. rewrite IH.
    destruct (Ascii.eqb c PathSeparator); [reflexivity|].
    pose proof (pathElements_nonempty dir) as Hdir.
    destruct (pathElements dir) as [|e es]; [contradiction|reflexivity].
Qed.

Lemma joinElements_snoc (elems : list string) (name : string) :
  joinElements (elems ++ [name]) =
  match elems with
  | [] => name
  | _ => joinElements elems +:+ String PathSeparator "" +:+ name
  end.
Proof.
  induction elems as [|e elems IH]; [reflexivity|].
  destruct elems as [|e' elems]; [reflexivity|].
  change (joinElements ((e :: e' :: elems) ++ [name]))
    with (e +:+ String PathSeparator "" +:+ joinElements ((e' :: elems) ++ [name])).
  rewrite IH.
  change (joinElements (e :: e' :: elems))
    with (e +:+ String PathSeparator "" +:+ joinElements (e' :: elems)).
  rewrite !append_assoc. reflexivity.
Qed.

(** A path whose last element is a plain name, neither empty nor
    hidden, is cleaned to a path whose file part is that name. *)
Lemma Split_Clean (path : string) (elems : list string) (name : string) :
  path <> "" ->
  pathElements path = elems ++ [name] ->
  occurs PathSeparator name = false ->
  name <> "" -> HasPrefix name "." = false ->
  (Split (Clean path)).2 = name.
Proof.
  intros Hpath Helems Hplain Hne Hhidden.
  destruct path as [|c rest]; [contradiction|].
  unfold Clean. rewrite Helems, fold_left_app.
  set (rooted := Ascii.eqb c PathSeparator).
  set (out := fold_left (cleanElement rooted) elems []).
  assert (Hreal : cleanElement rooted out name = name :: out).
  { unfold cleanElement. destruct name as [|x name]; [contradiction|].
    unfold HasPrefix in Hhidden. cbn [String.prefix] in Hhidden.
    destruct (ascii_dec "."%char x) as [<-|Hx].
    - destruct name; discriminate.
    - cbn [String.eqb].
      replace (Ascii.eqb x ".") with false; [reflexivity|].
      symmetry. apply Ascii.eqb_neq. congruence. }
  cbn [fold_left]. rewrite Hreal. cbn [rev]. rewrite joinElements_snoc.
  destruct rooted.
  - destruct (rev out) as [|e es].
    + rewrite <- (append_nil_l (String PathSeparator "" +:+ name)).
      rewrite Split_after_separator by exact Hplain. reflexivity.
    + rewrite <- append_assoc.
      rewrite Split_after_separator by exact Hplain. reflexivity.
  - destruct (rev out) as [|e es].
    + rewrite (Split_plain name Hplain). reflexivity.
    + rewrite Split_after_separator by exact Hplain. reflexivity.
Qed.

(** The file name the provisioner cuts out of the path it joined is
    the name of the directory entry. *)
Lemma Split_Join (dir name : string) :
  occurs PathSeparator name = false ->
  name <> "" -> HasPrefix name "." = false ->
  (Split (Join dir name)).2 = name.
Proof.
  intros Hplain Hne Hhidden. unfold Join.
  destruct (String.eqb_spec dir "") as [->|Hdir]; cbn [negb].
  - destruct (String.eqb_spec name "") as [->|_]; [contradiction|]. cbn [negb].
    apply (Split_Clean name []); try assumption.
    apply pathElements_plain, Hplain.
  - apply (Split_Clean _ (pathElements dir)); try assumption.
    + destruct dir; [contradiction|]. rewrite append_cons. discriminate.
    + apply pathElements_snoc, Hplain.
Qed.

Lemma reads_app (t1 t2 : list Event) : reads (t1 ++ t2) = reads t1 ++ reads t2.
Proof. unfold reads. rewrite calls_app. apply omap_app. Qed.

(** One template file: what a run reads, and what a successful run
    has put and returns. *)
Lemma exec_provision_summary
      (filePath : string) (bulkIndexing includeTypeName : bool)
      (extraSuffix : string) (t : list Event) (o : Outcome (string * goerror)) :
  exec (elasticsearch.UpdateTemplateAndCreateNewIndex
          filePath "" bulkIndexing includeTypeName extraSuffix) t o ->
  reads t = [filePath] /\
  (exists r, o = Returned r) /\
  forall name, o = Returned (name, None) ->
    exists now body,
      name = elasticsearch.destinationIndex
               (TrimSuffix (Split filePath).2 ".json") now "" extraSuffix /\
      IndexPutTemplate (TrimSuffix (Split filePath).2 ".json") includeTypeName body
        ∈ calls t.
Proof.
  intros H. unfold elasticsearch.UpdateTemplateAndCreateNewIndex in H.
  destruct (Split filePath) as [dir fileName] eqn:Hsplit. cbn [snd].
  exec_inv H.
  all: split; [reflexivity|]; split; [eauto|]; intros name Ho; try discriminate.
  all: injection Ho as <-; eexists _, _; split; [reflexivity|]; cbn;
    constructor; constructor.
Qed.

Lemma exec_provisionFiles
      (templatesDir : string) (files : list FileInfo)
      (bulkIndexing includeTypeName : bool) (extraSuffix : string)
      (acc : gmap string string)
      (t : list Event) (o : Outcome (option (gmap string string) * goerror)) :
  Forall (fun file => plainName (Name file)) files ->
  exec (elasticsearch.provisionFiles templatesDir files bulkIndexing
          includeTypeName extraSuffix acc) t o ->
  let paths := (fun file => Join templatesDir (Name file)) <$> templateFiles files in
  reads t `prefix_of` paths /\
  (exists r, o = Returned r) /\
  (forall m e, o = Returned (m, Some e) -> m = None) /\
  forall m, o = Returned (Some m, None) ->
    reads t = paths /\
    (forall alias,
        is_Some (m !! alias) <->
        is_Some (acc !! alias) \/
        exists file, file ∈ templateFiles files /\
                     alias = TrimSuffix (Name file) ".json") /\
    (forall alias newIndex,
        m !! alias = Some newIndex ->
        acc !! alias = Some newIndex \/
        exists now body,
          newIndex = elasticsearch.destinationIndex alias now "" extraSuffix /\
          IndexPutTemplate alias includeTypeName body ∈ calls t).
Proof.
  intros Hplain. revert acc t.
  induction Hplain as [|file files Hname Hplain IH]; intros acc t H.
  - cbn in H. destruct H as [-> ->]. cbn.
    split; [reflexivity|]. split; [eauto|].
    split; [intros m e He; discriminate He|].
    intros m [= <-]. split; [reflexivity|]. split.
    + intros alias. split; [auto|]. intros [Hs | (f & Hf & _)]; [exact Hs|].
      apply elem_of_nil in Hf. contradiction.
    + auto.
  - cbn [elasticsearch.provisionFiles] in H. unfold templateFiles.
    cbn [List.filter].
    destruct (HasPrefix (Name file) "." || IsDir file) eqn:Hskip; cbn [negb].
    { apply IH, H. }
    fold (templateFiles files). cbn [fmap list_fmap].
    apply exec_bind in H as [(a & t1 & t2 & -> & H1 & H2) | (o1 & H1 & Hs)].
    2:{ apply exec_provision_summary in H1 as (_ & [r ->] & _). discriminate. }
    apply exec_provision_summary in H1 as (Hr1 & _ & Hname1).
    destruct Hname as [Hne Hsep]. apply orb_false_iff in Hskip as [Hhidden _].
    rewrite (Split_Join templatesDir (Name file) Hsep Hne Hhidden) in Hname1.
    rewrite reads_app, Hr1. destruct a as [newIndex [e|]].
    + cbn in H2. destruct H2 as [-> ->]. cbn.
      split; [apply prefix_cons, prefix_nil|]. split; [eauto|].
      split; [intros m e' [= <- _]; reflexivity|]. intros m He; discriminate He.
    + destruct (Hname1 newIndex eq_refl) as (now & body & -> & Hput).
      apply IH in H2 as (Hp & Hret & Herr & Hok).
      split; [apply prefix_cons, Hp|]. split; [exact Hret|]. split; [exact Herr|].
      intros m Ho. destruct (Hok m Ho) as (Hall & Hdom & Hval).
      split; [cbn; f_equal; exact Hall|]. split.
      * intros alias. rewrite Hdom, lookup_insert_is_Some. split.
        -- intros [[<- | [_ Hacc]] | (f & Hf & ->)].
           ++ right. exists file. split; [set_solver|reflexivity].
           ++ left. exact Hacc.
           ++ right. exists f. split; [set_solver|reflexivity].
        -- intros [Hacc | (f & Hf & ->)].
           ++ destruct (decide (TrimSuffix (Name file) ".json" = alias)); auto.
           ++ apply elem_of_cons in Hf as [-> | Hf]; [auto|].
              right. exists f. auto.
      * intros alias newIndex Hm. rewrite calls_app.
        destruct (Hval alias newIndex Hm) as [Hacc | (now' & body' & -> & Hput')].
        -- apply lookup_insert_Some in Hacc as [[<- <-] | [_ Hacc]]; [|auto].
           right. exists now, body. split; [reflexivity|]. set_solver.
        -- right. exists now', body'. split; [reflexivity|]. set_solver.
Qed.

(** X13.  Provisioning a directory.  The hidden entries and the
    subdirectories are passed over; the other entries are read in
    order, each under the directory's path, up to the first that
    fails.  A run that succeeds has read them all, and its map has
    exactly their names, less the [.json] ending, for keys; every key
    is the name of a template the run has put, and its value is a name
    generated from the key.  A run that fails returns no map.  The
    names are those of directory entries: not empty, and without a
    separator. *)
Theorem directory_mode_maps_every_template
        (templatesDir : string) (bulkIndexing includeTypeName : bool)
        (extraSuffix : string) (files : list FileInfo)
        (t : list Event) (o : Outcome (option (gmap string string) * goerror)) :
  Forall (fun file => plainName (Name file)) files ->
  exec (elasticsearch.UpdateTemplatesAndCreateNewIndices
          templatesDir bulkIndexing includeTypeName extraSuffix) t o ->
  head t = Some (Ev (ReadDir templatesDir) (Ok files)) ->
  let paths := (fun file => Join templatesDir (Name file)) <$> templateFiles files in
  reads t `prefix_of` paths /\
  (forall m e, o = Returned (m, Some e) -> m = None) /\
  forall m, o = Returned (Some m, None) ->
    reads t = paths /\
    (forall alias,
        is_Some (m !! alias) <->
        exists file, file ∈ templateFiles files /\
                     alias = TrimSuffix (Name file) ".json") /\
    (forall alias newIndex,
        m !! alias = Some newIndex ->
        exists now body,
          newIndex = elasticsearch.destinationIndex alias now "" extraSuffix /\
          IndexPutTemplate alias includeTypeName body ∈ calls t).
Proof.
  intros Hplain H Hhd paths.
  unfold elasticsearch.UpdateTemplatesAndCreateNewIndices in H.
  cbn -[elasticsearch.provisionFiles] in H. destruct H as (r & t' & -> & H).
  apply head_Ev in Hhd. subst r. cbn -[elasticsearch.provisionFiles] in H.
  apply exec_provisionFiles in H as (Hp & _ & Herr & Hok); [|exact Hplain].
  change (reads (Ev (ReadDir templatesDir) (Ok files) :: t')) with (reads t').
  split; [exact Hp|]. split; [exact Herr|].
  intros m Ho. destruct (Hok m Ho) as (Hall & Hdom & Hval).
  split; [exact Hall|]. split.
  - intros alias. rewrite Hdom, lookup_empty. split.
    + intros [[x Hx] | Hf]; [discriminate Hx|exact Hf].
    + auto.
  - intros alias newIndex Hm.
    destruct (Hval alias newIndex Hm) as [Hacc | (now & body & -> & Hput)];
      [rewrite lookup_empty in Hacc; discriminate|].
    exists now, body. split; [reflexivity|]. cbn. set_solver.
Qed.

Lemma directory_mode_maps_every_template_witness :
  let files := [ {| Name := "..data"; IsDir := true |};
                 {| Name := "twitter.json"; IsDir := false |} ] in
  let provision :=
    elasticsearch.UpdateTemplatesAndCreateNewIndices "templates" false false "" in
  let r := run (Cluster.answer Examples.decode_plain) provision mounted in
  Forall (fun file => plainName (Name file)) files /\
  exec provision r.2 r.1.1 /\
  head r.2 = Some (Ev (ReadDir "templates") (Ok files)) /\
  reads r.2 `prefix_of` ["templates/twitter.json"].
Proof.
  intros files provision r.
  assert (H1 : Forall (fun file => plainName (Name file)) files)
    by (repeat (constructor; [split; [discriminate|reflexivity]|]); constructor).
  assert (E : exec provision r.2 r.1.1)
    by exact (run_exec_proj (Cluster.answer Examples.decode_plain) provision mounted).
  assert (Hhd : head r.2 = Some (Ev (ReadDir "templates") (Ok files)))
    by (vm_compute; reflexivity).
  split; [exact H1|]. split; [exact E|]. split; [exact Hhd|].
  exact (proj1 (directory_mode_maps_every_template
                  "templates" false false "" files r.2 r.1.1 H1 E Hhd)).
Defined.

(** ** The order of the generated names *)

Lemma compare_append_same (a r1 r2 : string) :
  String.compare (a +:+ r1) (a +:+ r2) = String.compare r1 r2.
Proof.
  induction a as [|c a IH]; [reflexivity|].
  rewrite !append_cons. cbn [String.compare].
  rewrite ascii_compare_N, N.compare_refl. exact IH.
Qed.

Lemma decimal_shift (s : string) (v : nat) :
  decimal s v = v * 10 ^ String.length s + decimal s 0.
Proof.
  revert v. induction s as [|c s IH]; intros v.
  - cbn. lia.
  - cbn [decimal String.length]. rewrite IH, (IH (10 * 0 + _)).
    rewrite Nat.pow_succ_r'. lia.
Qed.

Lemma decimal_bound (s : string) :
  all_digits s = true -> decimal s 0 < 10 ^ String.length s.
Proof.
  induction s as [|c s IH]; intros Hs.
  - cbn. lia.
  - cbn [all_digits] in Hs. apply andb_true_iff in Hs as [Hc Hs].
    cbn [decimal String.length]. rewrite decimal_shift, Nat.pow_succ_r'.
    specialize (IH Hs). unfold is_digit in Hc.
    apply andb_true_iff in Hc as [H1 H2].
    apply Nat.leb_le in H1, H2. nia.
Qed.

(** Two strings of digits of the same length compare as the numbers
    they denote, whatever follows them. *)
Lemma compare_digits (a b r1 r2 : string) :
  all_digits a = true -> all_digits b = true ->
  String.length a = String.length b ->
  decimal a 0 < decimal b 0 ->
  String.compare (a +:+ r1) (b +:+ r2) = Lt.
Proof.
  revert b. induction a as [|c a IH]; intros [|d b] Ha Hb Hlen Hlt;
    try discriminate.
  - cbn in Hlt. lia.
  - cbn [all_digits] in Ha, Hb.
    apply andb_true_iff in Ha as [Hc Ha]. apply andb_true_iff in Hb as [Hd Hb].
    cbn [String.length] in Hlen. injection Hlen as Hlen.
    cbn [decimal] in Hlt. rewrite (decimal_shift a), (decimal_shift b) in Hlt.
    pose proof (decimal_bound a Ha) as Hba. pose proof (decimal_bound b Hb) as Hbb.
    rewrite Hlen in Hlt, Hba.
    unfold is_digit in Hc, Hd.
    apply andb_true_iff in Hc as [Hc1 Hc2]. apply andb_true_iff in Hd as [Hd1 Hd2].
    apply Nat.leb_le in Hc1, Hc2, Hd1, Hd2.
    rewrite !append_cons. cbn [String.compare]. rewrite ascii_compare_N.
    assert (Hcd : nat_of_ascii c < nat_of_ascii d \/
                  nat_of_ascii c = nat_of_ascii d /\ decimal a 0 < decimal b 0) by nia.
    unfold nat_of_ascii in Hcd.
    destruct Hcd as [Hcd | [Hcd Hrest]].
    + replace (N_of_ascii c ?= N_of_ascii d)%N with Lt; [reflexivity|].
      symmetry. apply N.compare_lt_iff. lia.
    + apply N2Nat.inj in Hcd. rewrite Hcd, N.compare_refl.
      apply IH; assumption.
Qed.

Lemma length_zeros (k : nat) : String.length (zeros k) = k.
Proof. induction k as [|k IH]; simpl; [reflexivity|]. rewrite IH. reflexivity. Qed.

Lemma length_itoa_go (fuel n k : nat) (acc : string) :
  n < fuel -> 1 <= k -> n < 10 ^ k ->
  String.length (itoa_go fuel n acc) <= k + String.length acc.
Proof.
  revert n k acc. induction fuel as [|fuel IH]; intros n k acc Hf Hk Hn; [lia|].
  cbn [itoa_go]. destruct (Nat.ltb_spec n 10) as [Hlt|Hge].
  - cbn [String.length]. lia.
  - destruct k as [|[|k]]; [lia|rewrite Nat.pow_1_r in Hn; lia|].
    pose proof (Nat.div_lt n 10 ltac:(lia) ltac:(lia)).
    assert (Hdiv : n / 10 < 10 ^ S k).
    { apply Nat.Div0.div_lt_upper_bound. rewrite <- Nat.pow_succ_r'. exact Hn. }
    specialize (IH (n / 10) (S k) (String (digit n) acc) ltac:(lia) ltac:(lia) Hdiv).
    cbn [String.length] in IH. lia.
Qed.

(** A field that fits its width is printed in exactly that width. *)
Lemma length_appendInt (x width : nat) :
  1 <= width -> x < 10 ^ width -> String.length (appendInt x width) = width.
Proof.
  intros Hw Hx. unfold appendInt. rewrite length_append, length_zeros.
  pose proof (length_itoa_go (S x) x width "" ltac:(lia) Hw Hx) as Hlen.
  unfold Itoa. cbn [String.length] in Hlen. lia.
Qed.

Lemma compare_field (x y width : nat) (r1 r2 : string) :
  1 <= width -> x < 10 ^ width -> y < 10 ^ width ->
  (x < y ->
   String.compare (appendInt x width +:+ r1) (appendInt y width +:+ r2) = Lt) /\
  (x = y ->
   String.compare (appendInt x width +:+ r1) (appendInt y width +:+ r2)
   = String.compare r1 r2).
Proof.
  intros Hw Hx Hy. split.
  - intros Hlt. apply compare_digits.
    + apply all_digits_appendInt.
    + apply all_digits_appendInt.
    + rewrite !length_appendInt by assumption. reflexivity.
    + rewrite !decimal_appendInt. exact Hlt.
  - intros ->. apply compare_append_same.
Qed.

(** The date suffix of an earlier clock reading sorts first. *)
Lemma dateSuffix_compare (now1 now2 : Time) (rest : string) :
  calendar now1 -> calendar now2 -> earlier now1 now2 ->
  String.compare (elasticsearch.dateSuffix now1 +:+ rest)
                 (elasticsearch.dateSuffix now2 +:+ rest) = Lt.
Proof.
  intros (Hy1 & Hm1 & Hd1 & Hh1 & Hi1 & Hs1) (Hy2 & Hm2 & Hd2 & Hh2 & Hi2 & Hs2).
  rewrite !dateSuffix_hyphens, !append_assoc.
  destruct now1 as [y1 m1 d1 h1 i1 s1], now2 as [y2 m2 d2 h2 i2 s2].
  unfold earlier. cbn [Year Month Day Hour Minute Second] in *.
  intros Hearlier.
  repeat match type of Hearlier with
  | _ \/ _ =>
      let Hlt := fresh "Hlt" in let Heq := fresh "Heq" in
      destruct Hearlier as [Hlt | [Heq Hearlier]];
      [ apply compare_field; [lia|assumption|assumption|exact Hlt]
      | subst; rewrite compare_append_same, (compare_append_same "-") ]
  end.
  apply compare_field; [lia|assumption|assumption|exact Hearlier].
Qed.

Lemma HasPrefix_append (a b : string) : HasPrefix (a +:+ b) a = true.
Proof.
  unfold HasPrefix. induction a as [|c a IH]; [destruct b; reflexivity|].
  rewrite append_cons. cbn [String.prefix].
  destruct (ascii_dec c c); [exact IH|contradiction].
Qed.

(** The name generated at the earlier clock reading is the smaller. *)
Lemma generated_compare (index extraSuffix : string) (now1 now2 : Time) :
  calendar now1 -> calendar now2 -> earlier now1 now2 ->
  String.compare (elasticsearch.destinationIndex index now1 "" extraSuffix)
                 (elasticsearch.destinationIndex index now2 "" extraSuffix) = Lt.
Proof.
  intros Hc1 Hc2 Hearlier.
  unfold elasticsearch.destinationIndex. cbn [String.eqb].
  rewrite compare_append_same, (compare_append_same "-").
  destruct (negb (String.eqb extraSuffix "")).
  - apply dateSuffix_compare; assumption.
  - rewrite <- (append_nil_r (elasticsearch.dateSuffix now1)),
      <- (append_nil_r (elasticsearch.dateSuffix now2)).
    apply dateSuffix_compare; assumption.
Qed.

(** X14.  The names the provisioner generates for one template sort by
    the time of their making, as long as the year has four digits: the
    name made at the earlier clock reading is the smaller string, so
    [sort.Strings] puts it first, and both names start with the
    template's name, which is what the cleanup looks for. *)
Theorem generated_names_sort_by_time
        (index extraSuffix : string) (now1 now2 : Time) :
  calendar now1 -> calendar now2 -> earlier now1 now2 ->
  let name1 := elasticsearch.destinationIndex index now1 "" extraSuffix in
  let name2 := elasticsearch.destinationIndex index now2 "" extraSuffix in
  String.ltb name1 name2 = true /\
  sort_Strings [name2; name1] = [name1; name2] /\
  HasPrefix name1 index = true /\ HasPrefix name2 index = true.
Proof.
  intros Hc1 Hc2 Hearlier name1 name2.
  assert (Hlt : String.compare name1 name2 = Lt)
    by (apply generated_compare; assumption).
  assert (Hpre : forall now, HasPrefix (elasticsearch.destinationIndex
                                          index now "" extraSuffix) index = true).
  { intros now. unfold elasticsearch.destinationIndex. cbn [String.eqb].
    apply HasPrefix_append. }
  split; [unfold String.ltb; rewrite Hlt; reflexivity|].
  split; [|split; apply Hpre].
  apply sort_Strings_unique.
  - repeat constructor. unfold string_le, String.leb. rewrite Hlt. reflexivity.
  - apply Permutation_swap.
Qed.

Lemma generated_names_sort_by_time_witness :
  calendar Examples.july7 /\ calendar Examples.july7_later /\
  earlier Examples.july7 Examples.july7_later /\
  sort_Strings ["twitter-2019-07-07-10-54-40"; "twitter-2019-07-07-10-54-33"]
  = ["twitter-2019-07-07-10-54-33"; "twitter-2019-07-07-10-54-40"].
Proof.
  assert (H1 : calendar Examples.july7)
    by (unfold calendar; cbn [Examples.july7 Year Month Day Hour Minute Second];
        repeat split; apply Nat.ltb_lt; reflexivity).
  assert (H2 : calendar Examples.july7_later)
    by (unfold calendar;
        cbn [Examples.july7_later Year Month Day Hour Minute Second];
        repeat split; apply Nat.ltb_lt; reflexivity).
  assert (H3 : earlier Examples.july7 Examples.july7_later)
    by (unfold earlier; cbn; lia).
  split; [exact H1|]. split; [exact H2|]. split; [exact H3|].
  exact (proj1 (proj2 (generated_names_sort_by_time
                         "twitter" "" Examples.july7 Examples.july7_later H1 H2 H3))).
Defined.

(** ** Reindex of one alias on the reference cluster *)

Ltac answer_cases :=
  let c := fresh "c" in let w := fresh "w" in let Hc := fresh "Hc" in
  intros c w Hc; destruct c; try discriminate Hc; cbn;
  repeat match goal with
         | |- context [if ?b then _ else _] => destruct b
         | |- context [match ?x with _ => _ end] => destruct x
         end; reflexivity.

Section Whole.

Variable decode : string -> option IndicesGetTemplateResponse.
#[local] Abbreviation answer := (Cluster.answer decode).

(** What a body leaves alone when it makes none of the calls that
    could change it. *)
Lemma run_frame {A X : Type} (proj : Cluster.State -> X) (P : Call -> bool)
      (p : Prog A) :
  (forall c w, P c = false -> proj (answer c w).2 = proj w) ->
  never P p -> forall w, proj (run answer p w).1.2 = proj w.
Proof.
  intros Hanswer. induction p as [a | reason | code | c k IH]; intros Hn w;
    cbn; try reflexivity.
  destruct Hn as [Hc Hk]. specialize (Hanswer c w Hc).
  destruct (answer c w) as [r w1]. cbn in Hanswer.
  specialize (IH r (Hk r) w1).
  destruct (run answer (k r) w1) as [[o w2] t]. cbn in *. congruence.
Qed.

Lemma answer_documents (c : Call) (w : Cluster.State) :
  is_reindex c = false -> Cluster.documents (answer c w).2 = Cluster.documents w.
Proof. revert c w. answer_cases. Qed.

Lemma run_reindexFrom (i newIndex : string) (versionExternal : bool)
      (w : Cluster.State) :
  i ∈ Cluster.indices w -> newIndex ∈ Cluster.indices w ->
  exists w' t,
    run answer (elasticsearch.reindexFrom i newIndex "" versionExternal) w
    = (Returned None, w', t) /\
    Cluster.indices w' = Cluster.indices w /\
    Cluster.carries w' = Cluster.carries w /\
    Cluster.templates w' = Cluster.templates w /\
    Cluster.documents w'
    = <[newIndex := documentsOf w newIndex ∪ documentsOf w i]> (Cluster.documents w).
Proof.
  intros Hi Hnew. unfold elasticsearch.reindexFrom. cbn.
  unfold Cluster.has_index.
  rewrite (bool_decide_true (i ∈ Cluster.indices w)) by exact Hi.
  rewrite (bool_decide_true (newIndex ∈ Cluster.indices w)) by exact Hnew.
  cbn. eexists _, _. split; [reflexivity|]. cbn. auto.
Qed.

Lemma run_copy_loop (l : list string) (newIndex : string)
      (versionExternal : bool) (w : Cluster.State) :
  newIndex ∈ Cluster.indices w ->
  (forall i, i ∈ l -> i ∈ Cluster.indices w) ->
  exists w' t,
    run answer (forEach l (fun index =>
                  elasticsearch.reindexFrom index newIndex "" versionExternal)) w
    = (Returned None, w', t) /\
    Cluster.indices w' = Cluster.indices w /\
    Cluster.carries w' = Cluster.carries w /\
    Cluster.templates w' = Cluster.templates w /\
    (forall i, i <> newIndex ->
               Cluster.documents w' !! i = Cluster.documents w !! i) /\
    (forall d, d ∈ documentsOf w' newIndex <->
               d ∈ documentsOf w newIndex \/
               exists i, i ∈ l /\ d ∈ documentsOf w i).
Proof.
  intros Hnew. revert w Hnew. induction l as [|i l IH]; intros w Hnew Hl.
  - exists w, []. cbn. repeat split; auto.
    intros [H | (i & Hi & _)]; [exact H|]. apply elem_of_nil in Hi. contradiction.
  - destruct (run_reindexFrom i newIndex versionExternal w)
      as (w1 & t1 & Hrun1 & Hidx1 & Hcar1 & Htem1 & Hdoc1);
      [apply Hl; set_solver|exact Hnew|].
    destruct (IH w1) as (w' & t & Hrun & Hidx & Hcar & Htem & Hother & Hdocs).
    { rewrite Hidx1. exact Hnew. }
    { intros j Hj. rewrite Hidx1. apply Hl. set_solver. }
    exists w', (t1 ++ t). split.
    { cbn [forEach]. rewrite run_andThen, Hrun1, Hrun. reflexivity. }
    split; [congruence|]. split; [congruence|]. split; [congruence|].
    assert (Hw1 : forall j,
               documentsOf w1 j =
               if decide (j = newIndex)
               then documentsOf w newIndex ∪ documentsOf w i
               else documentsOf w j).
    { intros j. unfold documentsOf at 1. rewrite Hdoc1.
      destruct (decide (j = newIndex)) as [->|Hne].
      - rewrite lookup_insert_eq. reflexivity.
      - rewrite lookup_insert_ne by congruence. reflexivity. }
    split.
    + intros j Hj. rewrite (Hother j Hj), Hdoc1.
      apply lookup_insert_ne. congruence.
    + intros d. rewrite Hdocs, (Hw1 newIndex).
      destruct (decide (newIndex = newIndex)) as [_|]; [|contradiction].
      rewrite elem_of_union. split.
      * intros [[H | H] | (j & Hj & H)].
        -- auto.
        -- right. exists i. split; [set_solver|exact H].
        -- rewrite (Hw1 j) in H. destruct (decide (j = newIndex)) as [->|Hne].
           ++ apply elem_of_union in H as [H | H]; [auto|].
              right. exists i. split; [set_solver|exact H].
           ++ right. exists j. split; [set_solver|exact H].
      * intros [H | (j & Hj & H)]; [auto|].
        apply elem_of_cons in Hj as [-> | Hj]; [auto|].
        destruct (decide (j = newIndex)) as [->|Hne]; [auto|].
        right. exists j. split; [exact Hj|]. rewrite (Hw1 j).
        destruct (decide (j = newIndex)); [contradiction|exact H].
Qed.

Lemma run_restoreSettings (alias newIndex : string) (w : Cluster.State)
      (template : IndicesGetTemplateResponse) (index : gmap string JSON) :
  Cluster.templates w !! alias ≫= decode = Some template ->
  Settings template !! "index" = Some (JObject index) ->
  string_or_absent index "refresh_interval" ->
  string_or_absent index "number_of_replicas" ->
  newIndex ∈ Cluster.indices w ->
  exists w' t,
    run answer (elasticsearch.restoreSettings alias newIndex) w
    = (Returned None, w', t) /\
    Cluster.indices w' = Cluster.indices w /\
    Cluster.carries w' = Cluster.carries w /\
    Cluster.documents w' = Cluster.documents w /\
    head (default [] (Cluster.settings w' !! newIndex))
    = Some (elasticsearch.resetRefreshInterval
              (declared index "refresh_interval")
              (declared index "number_of_replicas")).
Proof.
  intros Ht Hs Hr Hn Hnew. unfold elasticsearch.restoreSettings.
  cbn -[elasticsearch.indexSetting]. rewrite Ht.
  cbn -[elasticsearch.indexSetting].
  unfold elasticsearch.indexSetting. rewrite lookup_singleton_eq, Hs.
  unfold declared.
  destruct (index !! "refresh_interval") as [v1|] eqn:E1;
    [destruct (Hr v1 E1) as [s1 ->]|];
    (destruct (index !! "number_of_replicas") as [v2|] eqn:E2;
     [destruct (Hn v2 E2) as [s2 ->]|]);
    cbn; unfold Cluster.has_index; rewrite bool_decide_true by exact Hnew; cbn;
    eexists _, _; (split; [reflexivity|]); cbn; rewrite lookup_insert_eq;
    repeat split; reflexivity.
Qed.

(** The steps of [ReindexOne] after its alias lookup, from a local
    source and with the swap, on the reference cluster. *)
Lemma run_reindexSteps
      (alias newIndex : string) (versionExternal bulkIndexing : bool)
      (w : Cluster.State)
      (template : IndicesGetTemplateResponse) (index : gmap string JSON)
      (required : bool) (aliasResult : option AliasesResult) :
  newIndex ∈ Cluster.indices w ->
  (forall i, (i, alias) ∈ Cluster.carries w -> i ∈ Cluster.indices w) ->
  Cluster.templates w !! alias ≫= decode = Some template ->
  Settings template !! "index" = Some (JObject index) ->
  string_or_absent index "refresh_interval" ->
  string_or_absent index "number_of_replicas" ->
  (required = true ->
   aliasResult = Some ((fun i => (i, [alias])) <$> Cluster.indicesOf w alias)) ->
  (required = false -> Cluster.indicesOf w alias = []) ->
  exists w' t,
    run answer (elasticsearch.reindexSteps alias newIndex "" versionExternal
                  false bulkIndexing required aliasResult) w
    = (Returned None, w', t) /\
    Cluster.indices w' = Cluster.indices w /\
    (forall i, (i, alias) ∈ Cluster.carries w' <-> i = newIndex) /\
    (forall d, d ∈ documentsOf w' newIndex <->
               d ∈ documentsOf w newIndex \/
               exists i, (i, alias) ∈ Cluster.carries w /\ d ∈ documentsOf w i) /\
    (forall i, i <> newIndex ->
               Cluster.documents w' !! i = Cluster.documents w !! i).
Proof.
  intros Hnew Hcar Ht Hs Hr Hn Hreq Hnot.
  assert (exists w1 t1,
    run answer (elasticsearch.copyDocuments alias newIndex "" versionExternal
                  required aliasResult) w = (Returned None, w1, t1) /\
    Cluster.indices w1 = Cluster.indices w /\
    Cluster.carries w1 = Cluster.carries w /\
    Cluster.templates w1 = Cluster.templates w /\
    (forall i, i <> newIndex ->
               Cluster.documents w1 !! i = Cluster.documents w !! i) /\
    (forall d, d ∈ documentsOf w1 newIndex <->
               d ∈ documentsOf w newIndex \/
               exists i, i ∈ Cluster.indicesOf w alias /\ d ∈ documentsOf w i))
    as (w1 & t1 & Hrun1 & Hidx1 & Hcar1 & Htem1 & Hother1 & Hdocs1).
  { unfold elasticsearch.copyDocuments. cbn [String.eqb negb orb].
    rewrite orb_false_r. destruct required.
    - rewrite (Hreq eq_refl). cbn -[forEach Cluster.indicesOf].
      rewrite IndicesByAlias_answer. apply run_copy_loop; [exact Hnew|].
      intros i Hi. apply Hcar, elem_of_indicesOf, Hi.
    - exists w, []. cbn. rewrite (Hnot eq_refl). repeat split; auto.
      intros [H | (i & Hi & _)]; [exact H|]. apply elem_of_nil in Hi. contradiction. }
  destruct (run_restoreSettings alias newIndex w1 template index)
    as (w2 & t2 & Hrun2 & Hidx2 & Hcar2 & Hdoc2 & _); try assumption.
  { rewrite Htem1. exact Ht. }
  { rewrite Hidx1. exact Hnew. }
  destruct (run_UpdateAlias_present decode alias newIndex w2)
    as (w3 & t3 & Hrun3 & Hidx3 & Hcar3 & _).
  { rewrite Hidx2, Hidx1. exact Hnew. }
  pose proof (run_frame Cluster.documents is_reindex
                (elasticsearch.UpdateAlias alias newIndex)
                answer_documents (UpdateAlias_never_reindex alias newIndex) w2)
    as Hdoc3.
  rewrite Hrun3 in Hdoc3. cbn in Hdoc3.
  exists w3, (t1 ++ t2 ++ t3). split.
  { unfold elasticsearch.reindexSteps, elasticsearch.restoreAndSwap.
    cbn [negb orb]. rewrite run_andThen, Hrun1, run_andThen, Hrun2, Hrun3.
    reflexivity. }
  split; [congruence|]. split.
  { intros i. rewrite Hcar3.
    rewrite elem_of_union, elem_of_difference, elem_of_list_to_set,
      list_elem_of_fmap, elem_of_singleton.
    split.
    - intros [[H1 H2] | [= ->]]; [|reflexivity].
      exfalso. apply H2. exists i. split; [reflexivity|].
      apply elem_of_indicesOf. exact H1.
    - intros ->. right. reflexivity. }
  split.
  { intros d. unfold documentsOf in *. rewrite Hdoc3, Hdoc2, Hdocs1.
    split; (intros [H | (i & Hi & H)]; [auto|]); right; exists i;
      (split; [apply elem_of_indicesOf, Hi|exact H]). }
  { intros i Hi. rewrite Hdoc3, Hdoc2. apply Hother1, Hi. }
Qed.

(** The alias lookup of [ReindexOne] on the reference cluster: the
    copy is required when some index carries the alias. *)
Lemma run_ReindexOne_lookup
      (alias newIndex remoteSrc : string)
      (versionExternal noUpdateAlias bulkIndexing : bool) (w : Cluster.State) :
  exists (lookup : result AliasesResult) (required : bool)
         (aliasResult : option AliasesResult),
    (required = true ->
     aliasResult = Some ((fun i => (i, [alias])) <$> Cluster.indicesOf w alias)) /\
    (required = false -> Cluster.indicesOf w alias = []) /\
    run answer (elasticsearch.ReindexOne alias newIndex remoteSrc versionExternal
                                         noUpdateAlias bulkIndexing) w
    = (let '(o, w', t) :=
         run answer (elasticsearch.reindexSteps
                       alias newIndex remoteSrc versionExternal
                       noUpdateAlias bulkIndexing required aliasResult) w in
       (o, w', Ev (Aliases alias) lookup :: t)).
Proof.
  unfold elasticsearch.ReindexOne.
  cbn -[elasticsearch.reindexSteps Cluster.indicesOf].
  destruct (Cluster.indicesOf w alias) as [|i0 l0] eqn:Hl.
  - exists (Err (Cluster.notFound "alias missing")), false, None.
    split; [discriminate|]. split; [reflexivity|]. reflexivity.
  - exists (Ok ((fun i => (i, [alias])) <$> (i0 :: l0))), true,
           (Some ((fun i => (i, [alias])) <$> (i0 :: l0))).
    split; [reflexivity|]. split; [discriminate|]. reflexivity.
Qed.

(** X15.  [ReindexOne] from a local source, with the swap, on the
    reference cluster.  When the new index is there, the indices that
    carry the alias exist and the template of the alias has an index
    settings object, the run returns nil; afterwards the new index
    holds its documents and those of every index that carried the
    alias, and no others, it alone carries the alias, and the other
    indices keep their documents. *)
Theorem ReindexOne_moves_documents_and_alias
        (alias newIndex : string) (versionExternal bulkIndexing : bool)
        (w : Cluster.State)
        (template : IndicesGetTemplateResponse) (index : gmap string JSON) :
  newIndex ∈ Cluster.indices w ->
  (forall i, (i, alias) ∈ Cluster.carries w -> i ∈ Cluster.indices w) ->
  Cluster.templates w !! alias ≫= decode = Some template ->
  Settings template !! "index" = Some (JObject index) ->
  string_or_absent index "refresh_interval" ->
  string_or_absent index "number_of_replicas" ->
  exists w' t,
    run answer (elasticsearch.ReindexOne alias newIndex "" versionExternal
                                         false bulkIndexing) w
    = (Returned None, w', t) /\
    Cluster.indices w' = Cluster.indices w /\
    (forall i, (i, alias) ∈ Cluster.carries w' <-> i = newIndex) /\
    (forall d, d ∈ documentsOf w' newIndex <->
               d ∈ documentsOf w newIndex \/
               exists i, (i, alias) ∈ Cluster.carries w /\ d ∈ documentsOf w i) /\
    (forall i, i <> newIndex ->
               Cluster.documents w' !! i = Cluster.documents w !! i).
Proof.
  intros Hnew Hcar Ht Hs Hr Hn.
  destruct (run_ReindexOne_lookup alias newIndex "" versionExternal false
                                  bulkIndexing w)
    as (lookup & required & aliasResult & Hreq & Hnot & Hrun).
  destruct (run_reindexSteps alias newIndex versionExternal bulkIndexing w
              template index required aliasResult Hnew Hcar Ht Hs Hr Hn Hreq Hnot)
    as (w' & t & Hsteps & Hrest).
  exists w', (Ev (Aliases alias) lookup :: t).
  split; [|exact Hrest]. rewrite Hrun, Hsteps. reflexivity.
Qed.

End Whole.

Lemma ReindexOne_moves_documents_and_alias_witness :
  let w := with_documents in
  "twitter-2" ∈ Cluster.indices w /\
  (forall i, (i, "twitter") ∈ Cluster.carries w -> i ∈ Cluster.indices w) /\
  Cluster.templates w !! "twitter" ≫= Examples.decode_plain
  = Some Examples.plain_template /\
  exists w' t,
    run (Cluster.answer Examples.decode_plain)
        (elasticsearch.ReindexOne "twitter" "twitter-2" "" false false false) w
    = (Returned None, w', t) /\
    Cluster.indices w' = Cluster.indices w /\
    (forall i, (i, "twitter") ∈ Cluster.carries w' <-> i = "twitter-2") /\
    (forall d, d ∈ documentsOf w' "twitter-2" <->
               d ∈ documentsOf w "twitter-2" \/
               exists i, (i, "twitter") ∈ Cluster.carries w /\ d ∈ documentsOf w i) /\
    (forall i, i <> "twitter-2" ->
               Cluster.documents w' !! i = Cluster.documents w !! i).
Proof.
  intros w.
  assert (H1 : "twitter-2" ∈ Cluster.indices w)
    by (apply (bool_decide_unpack _); vm_compute; exact I).
  assert (H2 : forall i, (i, "twitter") ∈ Cluster.carries w -> i ∈ Cluster.indices w).
  { intros i Hi. unfold w, with_documents in Hi. cbn [Cluster.carries] in Hi.
    apply elem_of_singleton in Hi. injection Hi as ->.
    apply list_elem_of_here. }
  assert (H3 : Cluster.templates w !! "twitter" ≫= Examples.decode_plain
               = Some Examples.plain_template).
  { unfold w, with_documents. cbn [Cluster.templates].
    rewrite lookup_singleton_eq. reflexivity. }
  assert (H4 : Settings Examples.plain_template !! "index" = Some (JObject ∅))
    by apply lookup_singleton_eq.
  assert (H5 : forall key, string_or_absent (∅ : gmap string JSON) key).
  { intros key v Hv. rewrite lookup_empty in Hv. discriminate. }
  split; [exact H1|]. split; [exact H2|]. split; [exact H3|].
  exact (ReindexOne_moves_documents_and_alias
           Examples.decode_plain "twitter" "twitter-2" false false w
           Examples.plain_template ∅ H1 H2 H3 H4
           (H5 "refresh_interval") (H5 "number_of_replicas")).
Defined.

(** ** The [reindex] command on the reference cluster *)

Section Command.

Variable decode : string -> option IndicesGetTemplateResponse.
#[local] Abbreviation answer := (Cluster.answer decode).

Lemma answer_templates (c : Call) (w : Cluster.State) :
  is_put_template c = false -> Cluster.templates (answer c w).2 = Cluster.templates w.
Proof. revert c w. answer_cases. Qed.

Lemma answer_indices (c : Call) (w : Cluster.State) :
  is_index_change c = false -> Cluster.indices (answer c w).2 = Cluster.indices w.
Proof. revert c w. answer_cases. Qed.

Lemma answer_carries (c : Call) (w : Cluster.State) :
  is_alias_mutation c || is_index_change c = false ->
  Cluster.carries (answer c w).2 = Cluster.carries w.
Proof. revert c w. answer_cases. Qed.

(** Provisioning one template file on the reference cluster. *)
Lemma run_provision (filePath newIndexName : string)
      (bulkIndexing includeTypeName : bool) (extraSuffix : string)
      (w : Cluster.State) (body : string) (template : IndicesGetTemplateResponse) :
  Cluster.files w !! filePath = Some body ->
  decode body = Some template ->
  let index := TrimSuffix (Split filePath).2 ".json" in
  let name :=
    elasticsearch.destinationIndex index (Cluster.clock w) newIndexName extraSuffix in
  exists w' t,
    run answer (elasticsearch.UpdateTemplateAndCreateNewIndex
                  filePath newIndexName bulkIndexing includeTypeName extraSuffix) w
    = (Returned (name, None), w', t) /\
    name ∈ Cluster.indices w' /\
    (forall i, i ∈ Cluster.indices w' <-> i ∈ Cluster.indices w \/ i = name) /\
    Cluster.carries w' = Cluster.carries w /\
    Cluster.documents w' = Cluster.documents w /\
    Cluster.templates w' = <[index := body]> (Cluster.templates w).
Proof.
  intros Hfile Hdecode index name.
  unfold elasticsearch.UpdateTemplateAndCreateNewIndex.
  destruct (Split filePath) as [dir fileName] eqn:Hsplit.
  cbn [snd] in index. fold index.
  cbn -[elasticsearch.destinationIndex elasticsearch.line3
        elasticsearch.indexingSettings].
  rewrite Hfile.
  cbn -[elasticsearch.destinationIndex elasticsearch.line3
        elasticsearch.indexingSettings].
  rewrite Hdecode.
  cbn -[elasticsearch.destinationIndex elasticsearch.line3
        elasticsearch.indexingSettings].
  fold index. fold name. unfold Cluster.has_index.
  cbn -[elasticsearch.destinationIndex elasticsearch.line3
        elasticsearch.indexingSettings].
  destruct (decide (name ∈ Cluster.indices w)) as [Hin|Hout].
  - rewrite (bool_decide_true _ Hin).
    cbn -[elasticsearch.destinationIndex elasticsearch.line3
          elasticsearch.indexingSettings].
    destruct bulkIndexing;
      cbn -[elasticsearch.destinationIndex elasticsearch.line3
            elasticsearch.indexingSettings];
      unfold Cluster.has_index;
      cbn -[elasticsearch.destinationIndex elasticsearch.line3
            elasticsearch.indexingSettings];
      rewrite ?(bool_decide_true _ Hin);
      cbn -[elasticsearch.destinationIndex elasticsearch.line3
            elasticsearch.indexingSettings];
      eexists _, _; (split; [reflexivity|]); cbn;
      (split; [exact Hin|]); (split; [|auto]);
      intros i; (split; [auto|intros [H | ->]; assumption]).
  - rewrite (bool_decide_false _ Hout).
    cbn -[elasticsearch.destinationIndex elasticsearch.line3
          elasticsearch.indexingSettings].
    unfold Cluster.has_index.
    cbn -[elasticsearch.destinationIndex elasticsearch.line3
          elasticsearch.indexingSettings].
    rewrite (bool_decide_false _ Hout).
    cbn -[elasticsearch.destinationIndex elasticsearch.line3
          elasticsearch.indexingSettings].
    assert (Hnow : name ∈ Cluster.indices w ++ [name]) by set_solver.
    destruct bulkIndexing;
      cbn -[elasticsearch.destinationIndex elasticsearch.line3
            elasticsearch.indexingSettings];
      unfold Cluster.has_index;
      cbn -[elasticsearch.destinationIndex elasticsearch.line3
            elasticsearch.indexingSettings];
      rewrite ?(bool_decide_true _ Hnow);
      cbn -[elasticsearch.destinationIndex elasticsearch.line3
            elasticsearch.indexingSettings];
      eexists _, _; (split; [reflexivity|]); cbn;
      (split; [exact Hnow|]); (split; [|auto]);
      intros i; rewrite elem_of_app, list_elem_of_singleton; reflexivity.
Qed.

Lemma run_allocateIfSet (c : cli.Context) (flag newIndex : string)
      (w : Cluster.State) :
  newIndex ∈ Cluster.indices w ->
  exists w' t,
    run answer (cli.allocateIfSet c flag newIndex) w = (Returned None, w', t) /\
    Cluster.indices w' = Cluster.indices w /\
    Cluster.carries w' = Cluster.carries w /\
    Cluster.documents w' = Cluster.documents w /\
    Cluster.templates w' = Cluster.templates w.
Proof.
  intros Hin. unfold cli.allocateIfSet. destruct (cli.IsSet c flag).
  - unfold elasticsearch.UpdateHostAllocation. cbn.
    unfold Cluster.has_index. rewrite bool_decide_true by exact Hin. cbn.
    eexists _, _. split; [reflexivity|]. cbn. auto.
  - exists w, []. cbn. auto.
Qed.

Lemma never_ReindexOne_put_template (alias newIndex remoteSrc : string)
      (versionExternal noUpdateAlias bulkIndexing : bool) :
  never is_put_template
        (elasticsearch.ReindexOne alias newIndex remoteSrc versionExternal
                                  noUpdateAlias bulkIndexing).
Proof.
  unfold elasticsearch.ReindexOne, elasticsearch.reindexSteps,
    elasticsearch.restoreAndSwap.
  cbn -[elasticsearch.copyDocuments elasticsearch.restoreSettings
        elasticsearch.UpdateAlias].
  split; [reflexivity|]. intros lookup.
  assert (Hsteps : forall required aliasResult,
    never is_put_template
      (andThen
         (elasticsearch.copyDocuments alias newIndex remoteSrc versionExternal
                                      required aliasResult)
         (andThen
            (if negb noUpdateAlias || negb bulkIndexing
             then elasticsearch.restoreSettings alias newIndex
             else Ret None)
            (if negb noUpdateAlias
             then elasticsearch.UpdateAlias alias newIndex
             else Ret None)))).
  { intros required aliasResult. apply never_andThen.
    - apply never_copyDocuments; reflexivity.
    - apply never_andThen.
      + destruct (negb noUpdateAlias || negb bulkIndexing); [|exact I].
        unfold elasticsearch.restoreSettings, elasticsearch.indexSetting,
          elasticsearch.assertString. never_tac.
      + destruct (negb noUpdateAlias); [|exact I].
        unfold elasticsearch.UpdateAlias, elasticsearch.removeFromAll,
          elasticsearch.removeFromAlias, elasticsearch.addToAlias. never_tac. }
  destruct lookup as [res|e]; [apply Hsteps|].
  destruct (negb (IsNotFound e)); [exact I|apply Hsteps].
Qed.

(** X16.  The [reindex] command on one template file, on the reference
    cluster.  Given one argument ending in [.json], a readable file
    whose body the cluster accepts as a template with an index
    settings object, and no [--no-update-alias], the run returns nil.
    Afterwards the template named after the file holds the file's
    bytes, the index of the derived name exists beside the indices
    there were, it alone carries the alias named after the file, and
    it holds the documents of the indices that carried the alias
    besides its own. *)
Theorem Reindex_one_file_on_cluster
        (c : cli.Context) (w : Cluster.State) (filePath body : string)
        (template : IndicesGetTemplateResponse) (index : gmap string JSON) :
  cli.Args c = [filePath] ->
  HasSuffix filePath ".json" = true ->
  cli.ctxBool c "no-update-alias" = false ->
  Cluster.files w !! filePath = Some body ->
  decode body = Some template ->
  Settings template !! "index" = Some (JObject index) ->
  string_or_absent index "refresh_interval" ->
  string_or_absent index "number_of_replicas" ->
  (forall i a, (i, a) ∈ Cluster.carries w -> i ∈ Cluster.indices w) ->
  let alias := TrimSuffix (Split filePath).2 ".json" in
  let name :=
    elasticsearch.destinationIndex alias (Cluster.clock w)
      (cli.ctxString c "dest-index") (cli.ctxString c "extra-suffix") in
  exists w' t,
    run answer (cli.Reindex "" c) w = (Returned None, w', t) /\
    Cluster.templates w' !! alias = Some body /\
    (forall i, i ∈ Cluster.indices w' <-> i ∈ Cluster.indices w \/ i = name) /\
    (forall i, (i, alias) ∈ Cluster.carries w' <-> i = name) /\
    (forall d, d ∈ documentsOf w' name <->
               d ∈ documentsOf w name \/
               exists i, (i, alias) ∈ Cluster.carries w /\ d ∈ documentsOf w i).
Proof.
  intros Hargs Hjson Hswap Hfile Hdecode Hs Hr Hn Hcar alias name.
  (* the file is provisioned *)
  destruct (run_provision filePath (cli.ctxString c "dest-index")
              (cli.ctxBool c "bulk-indexing") (cli.ctxBool c "include-type-name")
              (cli.ctxString c "extra-suffix") w body template Hfile Hdecode)
    as (w1 & t1 & Hrun1 & Hin1 & Hidx1 & Hcar1 & Hdoc1 & Htem1).
  fold alias in Hrun1, Htem1. fold name in Hrun1, Hin1, Hidx1.
  (* the allocation for the copy *)
  destruct (run_allocateIfSet c "reindex-host-allocation" name w1 Hin1)
    as (w2 & t2 & Hrun2 & Hidx2 & Hcar2 & Hdoc2 & Htem2).
  (* the copy, the restore and the swap *)
  destruct (run_ReindexOne_lookup decode alias name "" (cli.ctxBool c "version-external")
              false (cli.ctxBool c "bulk-indexing") w2)
    as (lookup & required & aliasResult & Hreq & Hnot & Hlookup).
  destruct (run_reindexSteps decode alias name (cli.ctxBool c "version-external")
              (cli.ctxBool c "bulk-indexing") w2 template index
              required aliasResult)
    as (w3 & t3' & Hsteps3 & Hidx3 & Hcar3 & Hdocs3 & Hother3); try assumption.
  { rewrite Hidx2. exact Hin1. }
  { intros i Hi. rewrite Hidx2. apply Hidx1. left.
    rewrite Hcar2, Hcar1 in Hi. eapply Hcar, Hi. }
  { rewrite Htem2, Htem1, lookup_insert_eq. exact Hdecode. }
  rewrite Hsteps3 in Hlookup.
  set (t3 := Ev (Aliases alias) lookup :: t3') in Hlookup.
  assert (Hrun3 : run answer
                      (elasticsearch.ReindexOne
                         alias name "" (cli.ctxBool c "version-external") false
                         (cli.ctxBool c "bulk-indexing")) w2
                  = (Returned None, w3, t3)) by exact Hlookup.
  pose proof (run_frame decode Cluster.templates is_put_template
                (elasticsearch.ReindexOne alias name "" (cli.ctxBool c "version-external")
                                          false (cli.ctxBool c "bulk-indexing"))
                answer_templates
                (never_ReindexOne_put_template _ _ _ _ _ _) w2) as Htem3.
  rewrite Hrun3 in Htem3. cbn in Htem3.
  (* the allocation for the new index *)
  destruct (run_allocateIfSet c "dest-host-allocation" name w3)
    as (w4 & t4 & Hrun4 & Hidx4 & Hcar4 & Hdoc4 & Htem4).
  { rewrite Hidx3, Hidx2. exact Hin1. }
  destruct (getClient_call c) as [opts Hclient].
  exists w4, (Ev (NewClient opts) (Ok tt) :: t1 ++ t2 ++ t3 ++ t4). split.
  { unfold cli.Reindex, cli.NArg, cli.First. rewrite Hargs, Hclient.
    cbn [length Nat.eqb Nat.ltb Nat.leb orb hd].
    rewrite Hjson, Hswap.
    cbn [mbind mret Prog_bind Prog_ret bind call run Cluster.answer].
    change (Do (NewClient opts) ?k) with (Do (NewClient opts) k).
    rewrite run_bind, Hrun1. cbn [snd fst].
    destruct (Split filePath) as [dir fileName] eqn:Hsplit.
    cbn [snd] in alias. fold alias.
    rewrite run_andThen, Hrun2, run_andThen, Hrun3, Hrun4.
    reflexivity. }
  split; [rewrite Htem4, Htem3, Htem2, Htem1; apply lookup_insert_eq|].
  split; [intros i; rewrite Hidx4, Hidx3, Hidx2; apply Hidx1|].
  split; [intros i; rewrite Hcar4; apply Hcar3|].
  intros d. unfold documentsOf in *. rewrite Hdoc4, Hdocs3, Hdoc2, Hdoc1, Hcar2, Hcar1.
  reflexivity.
Qed.

End Command.

Lemma Reindex_one_file_on_cluster_witness :
  let c := reindex_one_file in
  let w := before_reindex in
  let filePath := "templates/twitter.json" in
  let alias := TrimSuffix (Split filePath).2 ".json" in
  let name :=
    elasticsearch.destinationIndex alias (Cluster.clock w)
      (cli.ctxString c "dest-index") (cli.ctxString c "extra-suffix") in
  cli.Args c = [filePath] /\
  HasSuffix filePath ".json" = true /\
  cli.ctxBool c "no-update-alias" = false /\
  Cluster.files w !! filePath = Some "{}" /\
  (forall i a, (i, a) ∈ Cluster.carries w -> i ∈ Cluster.indices w) /\
  name = "twitter-2019-07-07-10-54-33" /\
  exists w' t,
    run (Cluster.answer Examples.decode_plain) (cli.Reindex "" c) w
    = (Returned None, w', t) /\
    Cluster.templates w' !! alias = Some "{}" /\
    (forall i, i ∈ Cluster.indices w' <-> i ∈ Cluster.indices w \/ i = name) /\
    (forall i, (i, alias) ∈ Cluster.carries w' <-> i = name) /\
    (forall d, d ∈ documentsOf w' name <->
               d ∈ documentsOf w name \/
               exists i, (i, alias) ∈ Cluster.carries w /\ d ∈ documentsOf w i).
Proof.
  intros c w filePath alias name.
  assert (H1 : cli.Args c = [filePath]) by reflexivity.
  assert (H2 : HasSuffix filePath ".json" = true) by (vm_compute; reflexivity).
  assert (H3 : cli.ctxBool c "no-update-alias" = false) by (vm_compute; reflexivity).
  assert (H4 : Cluster.files w !! filePath = Some "{}") by apply lookup_singleton_eq.
  assert (H5 : Examples.decode_plain "{}" = Some Examples.plain_template)
    by reflexivity.
  assert (H6 : Settings Examples.plain_template !! "index" = Some (JObject ∅))
    by apply lookup_singleton_eq.
  assert (H7 : forall key, string_or_absent (∅ : gmap string JSON) key).
  { intros key v Hv. rewrite lookup_empty in Hv. discriminate. }
  assert (H8 : forall i a, (i, a) ∈ Cluster.carries w -> i ∈ Cluster.indices w).
  { intros i a Hi. unfold w, before_reindex in Hi. cbn [Cluster.carries] in Hi.
    apply elem_of_singleton in Hi. injection Hi as -> ->.
    apply list_elem_of_here. }
  split; [exact H1|]. split; [exact H2|]. split; [exact H3|]. split; [exact H4|].
  split; [exact H8|]. split; [vm_compute; reflexivity|].
  exact (Reindex_one_file_on_cluster
           Examples.decode_plain c w filePath "{}" Examples.plain_template ∅
           H1 H2 H3 H4 H5 H6 (H7 "refresh_interval") (H7 "number_of_replicas") H8).
Defined.

(** ** Cleanup after provisioning *)

Section Newest.

Variable decode : string -> option IndicesGetTemplateResponse.
#[local] Abbreviation answer := (Cluster.answer decode).

(** In a sorted list without duplicates, an upper bound of the list
    that is in it is not among the first [k] entries, when more than
    [k] there are. *)
Lemma greatest_not_taken (l : list string) (k : nat) (x : string) :
  Sorted string_le l -> NoDup l -> k < length l ->
  x ∈ l -> (forall y, y ∈ l -> string_le y x) ->
  x ∉ take k l.
Proof.
  intros Hs Hnd Hk Hx Hmax Htake.
  apply (Sorted_StronglySorted string_le) in Hs.
  rewrite <- (take_drop k l) in Hs, Hnd.
  destruct (drop k l) as [|y rest] eqn:Hdrop.
  { apply (f_equal length) in Hdrop. rewrite length_drop in Hdrop. cbn in Hdrop. lia. }
  assert (Hy : y ∈ l).
  { rewrite <- (take_drop k l), Hdrop. set_solver. }
  assert (Hxy : string_le x y).
  { eapply StronglySorted_app_1_elem_of; [exact Hs|exact Htake|set_solver]. }
  assert (x = y) by (apply (anti_symm string_le); [exact Hxy|apply Hmax, Hy]).
  subst y. apply NoDup_app in Hnd as (_ & Hdisj & _).
  apply (Hdisj x Htake). set_solver.
Qed.

(** X17.  The cleanup keeps the newest generation.  On the reference
    cluster, when every index whose name starts with the template's
    name is a name the provisioner generated for it, at a clock
    reading with a four-digit year, [CleanupOne] with a count of at
    least one does not delete the one generated last. *)
Theorem CleanupOne_keeps_newest_generation
        (w : Cluster.State) (index extraSuffix : string) (now : Time) (N : Z) :
  (1 <= N <= MaxInt)%Z ->
  NoDup (Cluster.indices w) ->
  (Z.of_nat (length (Cluster.indices w)) <= MaxInt)%Z ->
  calendar now ->
  let newest := elasticsearch.destinationIndex index now "" extraSuffix in
  newest ∈ Cluster.indices w ->
  (forall i, i ∈ Cluster.indices w -> HasPrefix i index = true ->
     exists now', calendar now' /\ (now' = now \/ earlier now' now) /\
                  i = elasticsearch.destinationIndex index now' "" extraSuffix) ->
  exists w' t,
    run answer (elasticsearch.CleanupOne index N) w = (Returned None, w', t) /\
    (newest ∉ deletions t) /\
    newest ∈ Cluster.indices w'.
Proof.
  intros HN Hnd Hlen Hcal newest Hin Hgen.
  assert (HN0 : (0 <= N <= MaxInt)%Z) by lia.
  destruct (run_CleanupOne decode w index N HN0 Hnd Hlen)
    as (w' & t & Hrun & Hdel & Hidx & _).
  set (matches := sort_Strings
                    (List.filter (fun i => HasPrefix i index) (Cluster.indices w))) in *.
  pose proof (sort_Strings_Permutation
                (List.filter (fun i => HasPrefix i index) (Cluster.indices w)))
    as Hperm. fold matches in Hperm.
  assert (Hmem : forall x, x ∈ matches <->
                           x ∈ Cluster.indices w /\ HasPrefix x index = true).
  { intros x. rewrite Hperm, elem_of_List_filter. reflexivity. }
  assert (Hnewest : newest ∈ matches).
  { apply Hmem. split; [exact Hin|].
    unfold newest, elasticsearch.destinationIndex. cbn [String.eqb].
    apply HasPrefix_append. }
  assert (Hlen1 : 0 < length matches).
  { destruct matches; [apply elem_of_nil in Hnewest; contradiction|cbn; lia]. }
  assert (Hnot : newest ∉ take (Z.to_nat (Z.max 0 (Z.of_nat (length matches) - N)))
                              matches).
  { apply greatest_not_taken.
    - apply sort_Strings_Sorted.
    - rewrite Hperm. apply NoDup_List_filter, Hnd.
    - lia.
    - exact Hnewest.
    - intros y Hy. apply Hmem in Hy as [Hy Hpre].
      destruct (Hgen y Hy Hpre) as (now' & Hcal' & [-> | Hearlier] & ->).
      + unfold string_le, newest.
        destruct (String.leb_total
                    (elasticsearch.destinationIndex index now "" extraSuffix)
                    (elasticsearch.destinationIndex index now "" extraSuffix));
          assumption.
      + unfold string_le, String.leb, newest.
        rewrite generated_compare by assumption. reflexivity. }
  exists w', t. split; [exact Hrun|]. split; [rewrite Hdel; exact Hnot|].
  rewrite Hidx. unfold without. rewrite elem_of_List_filter.
  split; [exact Hin|]. apply bool_decide_eq_true. exact Hnot.
Qed.

End Newest.

Lemma CleanupOne_keeps_newest_generation_witness :
  let w := two_generations in
  let newest :=
    elasticsearch.destinationIndex "twitter" Examples.july7_later "" "" in
  (1 <= 1 <= MaxInt)%Z /\
  NoDup (Cluster.indices w) /\
  calendar Examples.july7_later /\
  newest ∈ Cluster.indices w /\
  exists w' t,
    run (Cluster.answer Examples.no_decode)
        (elasticsearch.CleanupOne "twitter" 1) w = (Returned None, w', t) /\
    (newest ∉ deletions t) /\
    newest ∈ Cluster.indices w'.
Proof.
  intros w newest.
  assert (H1 : (1 <= 1 <= MaxInt)%Z) by (unfold MaxInt; lia).
  assert (H2 : NoDup (Cluster.indices w))
    by (apply (bool_decide_unpack _); vm_compute; exact I).
  assert (H3 : (Z.of_nat (length (Cluster.indices w)) <= MaxInt)%Z)
    by (vm_compute; discriminate).
  assert (Hcal : forall now, now = Examples.july7 \/ now = Examples.july7_later ->
                             calendar now).
  { intros now [-> | ->]; unfold calendar;
      cbn [Examples.july7 Examples.july7_later Year Month Day Hour Minute Second];
      repeat split; apply Nat.ltb_lt; reflexivity. }
  assert (H4 : calendar Examples.july7_later) by (apply Hcal; auto).
  assert (H5 : newest ∈ Cluster.indices w) by apply list_elem_of_here.
  assert (H6 : forall i, i ∈ Cluster.indices w -> HasPrefix i "twitter" = true ->
             exists now', calendar now' /\
                          (now' = Examples.july7_later \/
                           earlier now' Examples.july7_later) /\
                          i = elasticsearch.destinationIndex "twitter" now' "" "").
  { intros i Hi Hpre. unfold w, two_generations in Hi. cbn [Cluster.indices] in Hi.
    apply elem_of_cons in Hi as [-> | Hi].
    { exists Examples.july7_later. split; [exact H4|]. split; [auto|reflexivity]. }
    apply elem_of_cons in Hi as [-> | Hi]; [discriminate Hpre|].
    apply list_elem_of_singleton in Hi as ->.
    exists Examples.july7. split; [apply Hcal; auto|]. split; [|reflexivity].
    right. unfold earlier. cbn. lia. }
  split; [exact H1|]. split; [exact H2|]. split; [exact H4|]. split; [exact H5|].
  exact (CleanupOne_keeps_newest_generation
           Examples.no_decode w "twitter" "" Examples.july7_later 1
           H1 H2 H3 H4 H5 H6).
Defined.

(** * The restore and the swap, call by call *)

(** An observation is empty on a run none of whose calls it looks at. *)
Lemma omap_quiet {X : Type} (f : Event -> option X) (P : Call -> bool)
      (t : list Event) :
  (forall c r, P c = false -> f (Ev c r) = None) ->
  Forall (fun c => P c = false) (calls t) -> omap f t = [].
Proof.
  intros Hf. induction t as [|[c r] t IH]; [reflexivity|].
  cbn. intros H. apply Forall_cons in H as [Hc Ht].
  rewrite (Hf c r Hc). apply IH, Ht.
Qed.

Lemma omap_quiet_calls {X : Type} (f : Call -> option X) (P : Call -> bool)
      (t : list Event) :
  (forall c, P c = false -> f c = None) ->
  Forall (fun c => P c = false) (calls t) -> omap f (calls t) = [].
Proof.
  intros Hf. induction t as [|[c r] t IH]; [reflexivity|].
  cbn. intros H. apply Forall_cons in H as [Hc Ht].
  rewrite (Hf c Hc). apply IH, Ht.
Qed.


Lemma quiet_removal (t : list Event) :
  Forall (fun c => beside_removal c = false) (calls t) ->
  no_settings_calls t /\ omap exists_answer t = [] /\
  omap add_answer t = [] /\ omap alias_answer t = [].
Proof.
  intros H. unfold no_settings_calls.
  repeat split; eapply omap_quiet; try exact H;
    intros []; intros; (reflexivity || discriminate).
Qed.


Lemma restored_app_r (alias newIndex : string) (t1 t2 : list Event) :
  restored alias newIndex t1 -> no_settings_calls t2 ->
  restored alias newIndex (t1 ++ t2).
Proof.
  intros (templates & template & index & ack & Ht & Hl & Hs & Hp) [H1 H2].
  exists templates, template, index, ack.
  rewrite !omap_app, H1, H2, !app_nil_r. auto.
Qed.

Lemma swapped_app_l (alias newIndex : string) (t1 t2 : list Event) :
  no_alias_changes t1 -> swapped alias newIndex t2 ->
  swapped alias newIndex (t1 ++ t2).
Proof.
  intros (H1 & H2 & H3 & H4) (lookup & ack & He & Hl & Hr & Ha).
  exists lookup, ack.
  rewrite !omap_app, removals_app, last_app, H1, H2, H4, Hl. auto.
Qed.

Lemma left_alone_app_l (newIndex : string) (t1 t2 : list Event) :
  no_alias_changes t1 -> left_alone newIndex t2 -> left_alone newIndex (t1 ++ t2).
Proof.
  intros (H1 & H2 & H3 & H4) (He & Hr & Ha). unfold left_alone.
  rewrite !omap_app, removals_app, additions_app, H1, H2, H3. auto.
Qed.

Lemma no_alias_changes_app (t1 t2 : list Event) :
  no_alias_changes t1 -> no_alias_changes t2 -> no_alias_changes (t1 ++ t2).
Proof.
  intros (H1 & H2 & H3 & H4) (K1 & K2 & K3 & K4). unfold no_alias_changes.
  rewrite !omap_app, removals_app, additions_app, H1, H2, H3, H4. auto.
Qed.

(** A run of the restore step that returns nil has restored the
    settings, and has not touched the alias. *)
Lemma exec_restoreSettings_nil (alias newIndex : string) (t : list Event) :
  exec (elasticsearch.restoreSettings alias newIndex) t (Returned None) ->
  restored alias newIndex t /\ no_alias_changes t.
Proof.
  intros H. unfold elasticsearch.restoreSettings in H. cbn in H.
  destruct H as ([templates|e] & t' & -> & H); [|destruct H as [_ [=]]].
  unfold elasticsearch.indexSetting in H.
  destruct (templates !! alias) as [template|] eqn:Ht;
    [|destruct H as [_ [=]]].
  destruct (Settings template !! "index") as [[| | | | |index]|] eqn:Hs;
    try (destruct H as [_ [=]]).
  assert (Hd : exists ack rest,
             t' = Ev (IndexPutSettings newIndex
                        (elasticsearch.resetRefreshInterval
                           (declared index "refresh_interval")
                           (declared index "number_of_replicas"))) (Ok ack)
                  :: rest /\
             Forall (fun c => is_print c = true) (calls rest)).
  { unfold declared.
    destruct (index !! "refresh_interval") as [[]|];
      try (destruct H as [_ [=]]);
      (destruct (index !! "number_of_replicas") as [[]|];
       try (destruct H as [_ [=]]));
      cbn in H; destruct H as ([ack|e] & rest & -> & H);
      try (destruct H as [_ [=]]);
      exists ack, rest; (split; [reflexivity|]);
      destruct ack; cbn in H;
      repeat match type of H with
             | exists _, _ => destruct H as (? & ? & -> & H)
             | _ /\ _ => destruct H as [-> _]
             end;
      repeat constructor. }
  destruct Hd as (ack & rest & -> & Hrest).
  assert (Hq : no_settings_calls rest /\ no_alias_changes rest).
  { unfold no_settings_calls, no_alias_changes, removals, additions.
    repeat split;
      (eapply (omap_quiet _ (fun c => negb (is_print c)))
       + eapply (omap_quiet_calls _ (fun c => negb (is_print c))));
      try (eapply Forall_impl; [exact Hrest|]; cbn; intros c ->; reflexivity);
      intros []; intros; (reflexivity || discriminate). }
  destruct Hq as [[Q1 Q2] (Q3 & Q4 & Q5 & Q6)]. split.
  - exists templates, template, index, ack. cbn. rewrite Q1, Q2. auto.
  - unfold no_alias_changes, removals, additions in *. cbn.
    change (map call_of rest) with (calls rest).
    rewrite Q3, Q4, Q5, Q6. auto.
Qed.

Lemma exec_removeFromAll_nil (alias : string) (lookup : result AliasesResult)
      (t : list Event) :
  exec (elasticsearch.removeFromAll alias lookup) t (Returned None) ->
  removals t = (fun index => (index, alias)) <$> lookedUp lookup alias /\
  additions t = [] /\
  no_settings_calls t /\ omap exists_answer t = [] /\
  omap add_answer t = [] /\ omap alias_answer t = [].
Proof.
  intros H. destruct lookup as [aliasResult|err]; cbn in H.
  - destruct (exec_removal_loop _ _ _ _ H) as (_ & Ha & Hr).
    split; [apply Hr; reflexivity|]. split; [exact Ha|].
    apply quiet_removal. eapply never_exec; [|exact H].
    apply never_forEach. intros index.
    unfold elasticsearch.removeFromAlias. never_tac.
  - destruct (negb (IsNotFound err)); cbn in H.
    + destruct H as [_ [=]].
    + destruct H as (r & t' & -> & [-> _]). repeat split.
Qed.

(** A run of [UpdateAlias] that returns nil has swapped the alias, or
    it was told that the new index is not there and has left the alias
    alone. *)
Lemma exec_UpdateAlias_nil (alias newIndex : string) (t : list Event) :
  exec (elasticsearch.UpdateAlias alias newIndex) t (Returned None) ->
  (swapped alias newIndex t \/ left_alone newIndex t) /\ no_settings_calls t.
Proof.
  intros H. unfold elasticsearch.UpdateAlias in H. cbn in H.
  destruct H as ([[|]|e] & t' & -> & H); cbn in H.
  - destruct H as (lookup & t1 & -> & H).
    apply exec_andThen in H
      as [(t2 & t3 & -> & H2 & H3) | [(e & _ & [=]) | (o1 & _ & Hs)]];
      [|destruct o1; discriminate].
    apply exec_removeFromAll_nil in H2
      as (Hr & Ha & [Q1 Q2] & Q3 & Q4 & Q5).
    unfold elasticsearch.addToAlias in H3. cbn in H3.
    destruct H3 as ([ack|e] & t4 & -> & H3); [|destruct H3 as [_ [=]]].
    assert (Hrest : Forall (fun c => is_print c = true) (calls t4)).
    { destruct ack; cbn in H3;
        repeat match type of H3 with
               | exists _, _ => destruct H3 as (? & ? & -> & H3)
               | _ /\ _ => destruct H3 as [-> _]
               end;
        repeat constructor. }
    assert (Hq : no_settings_calls t4 /\ no_alias_changes t4 /\
                 omap alias_answer t4 = []).
    { unfold no_settings_calls, no_alias_changes, removals, additions.
      repeat split;
        (eapply (omap_quiet _ (fun c => negb (is_print c)))
         + eapply (omap_quiet_calls _ (fun c => negb (is_print c))));
        try (eapply Forall_impl; [exact Hrest|]; cbn; intros c ->; reflexivity);
        intros []; intros; (reflexivity || discriminate). }
    destruct Hq as ([P1 P2] & (P3 & P4 & P5 & P6) & P7).
    change (Ev (IndexExists newIndex) (Ok true) :: Ev (Aliases alias) lookup
              :: t2 ++ Ev (AliasAdd newIndex alias) (Ok ack) :: t4)
      with ([Ev (IndexExists newIndex) (Ok true); Ev (Aliases alias) lookup]
              ++ t2 ++ [Ev (AliasAdd newIndex alias) (Ok ack)] ++ t4).
    split.
    + left. exists lookup, ack.
      rewrite !removals_app, !omap_app, Q3, Q4, Q5, P3, P4, P6, P7, Hr.
      cbn. rewrite !app_nil_r. auto.
    + unfold no_settings_calls. rewrite !omap_app, Q1, Q2, P1, P2. auto.
  - destruct H as (r & t1 & -> & [-> _]). split; [right|]; repeat split.
  - destruct H as (r & t1 & -> & [_ [=]]).
Qed.

(** A run of the last two steps that returns nil has done each of
    them, unless suppressed. *)
Lemma exec_restoreAndSwap_nil (alias newIndex : string)
      (noUpdateAlias bulkIndexing : bool) (t : list Event) :
  exec (elasticsearch.restoreAndSwap alias newIndex noUpdateAlias bulkIndexing)
       t (Returned None) ->
  (noUpdateAlias = false \/ bulkIndexing = false -> restored alias newIndex t) /\
  (noUpdateAlias = false ->
   swapped alias newIndex t \/ left_alone newIndex t) /\
  (noUpdateAlias = true -> no_alias_changes t) /\
  (noUpdateAlias = true -> bulkIndexing = true -> no_settings_calls t).
Proof.
  intros H. unfold elasticsearch.restoreAndSwap in H.
  apply exec_andThen in H
    as [(t1 & t2 & -> & H1 & H2) | [(e & _ & [=]) | (o1 & _ & Hs)]];
    [|destruct o1; discriminate].
  destruct noUpdateAlias; cbn [negb orb] in H1, H2.
  - destruct H2 as [-> _]. rewrite app_nil_r.
    destruct bulkIndexing; cbn [negb] in H1.
    + destruct H1 as [-> _].
      split; [intros [|]; discriminate|].
      split; [discriminate|]. split; intros; repeat split.
    + apply exec_restoreSettings_nil in H1 as [Hr Hq].
      split; [intros _; exact Hr|].
      split; [discriminate|]. split; [intros _; exact Hq|discriminate].
  - apply exec_restoreSettings_nil in H1 as [Hr Hq].
    apply exec_UpdateAlias_nil in H2 as [Hs Hn].
    split; [intros _; apply restored_app_r; assumption|].
    split; [|split; intros; discriminate].
    intros _. destruct Hs as [Hs|Hs];
      [left; apply swapped_app_l|right; apply left_alone_app_l]; assumption.
Qed.


Lemma faithful_restoreAndSwap (alias newIndex : string)
      (noUpdateAlias bulkIndexing : bool) :
  faithful non_nil
    (elasticsearch.restoreAndSwap alias newIndex noUpdateAlias bulkIndexing).
Proof.
  unfold elasticsearch.restoreAndSwap. apply faithful_andThen.
  - destruct (negb noUpdateAlias || negb bulkIndexing);
      [apply faithful_restoreSettings|reflexivity].
  - destruct (negb noUpdateAlias); [apply faithful_UpdateAlias|reflexivity].
Qed.

(** A faithful program returns an error only after a failed call. *)
Lemma error_after_failure (p : Prog goerror) (t : list Event) (e : error) :
  faithful non_nil p -> exec p t (Returned (Some e)) ->
  Exists (fun ev => failure ev = true) t.
Proof.
  intros Hp H. destruct (some_failure t) as [Hno|Hex]; [|exact Hex].
  pose proof (faithful_exec non_nil p t _ Hp H Hno (Some e) eq_refl) as Hnil.
  discriminate Hnil.
Qed.


(** C3.  With no remote source, when the alias lookup of [ReindexOne]
    fails with a not-found, the run does not end there.  It makes no
    reindex call and goes on as the settings-restore and alias-swap
    steps do.  Unless both are suppressed its next call is the template
    lookup.  An error it returns follows a failed call among the later
    calls.  When it returns nil, it has put the template's refresh
    interval and replica count on the new index (unless the restore is
    suppressed) and it has asked whether the new index is there and,
    told so, has taken the alias off the indices then looked up and
    has joined it to the new index (unless the swap is suppressed,
    when it has changed no alias).  Any other failure of the lookup
    ends the run at once with the wrapped error. *)
Theorem ReindexOne_alias_not_found
        (alias newIndex : string) (versionExternal noUpdateAlias bulkIndexing : bool)
        (err : error) (t : list Event) (o : Outcome goerror) :
  exec (elasticsearch.ReindexOne alias newIndex "" versionExternal
                                 noUpdateAlias bulkIndexing) t o ->
  head t = Some (Ev (Aliases alias) (Err err)) ->
  (IsNotFound err = true ->
   exists t', t = Ev (Aliases alias) (Err err) :: t' /\
     Forall (fun c => is_reindex c = false) (calls t) /\
     exec (elasticsearch.restoreAndSwap alias newIndex noUpdateAlias bulkIndexing) t' o /\
     (noUpdateAlias = true -> bulkIndexing = true -> t' = [] /\ o = Returned None) /\
     (noUpdateAlias = false \/ bulkIndexing = false ->
      exists r t'', t' = Ev (IndexGetTemplate alias) r :: t'') /\
     (forall e, o = Returned (Some e) ->
                Exists (fun ev => failure ev = true) t') /\
     (o = Returned None ->
      (noUpdateAlias = false \/ bulkIndexing = false ->
       restored alias newIndex t') /\
      (noUpdateAlias = false ->
       swapped alias newIndex t' \/ left_alone newIndex t') /\
      (noUpdateAlias = true -> no_alias_changes t'))) /\
  (IsNotFound err = false ->
   t = [Ev (Aliases alias) (Err err)] /\
   o = Returned (Some (withMessage err ("failed trying to lookup alias " +:+ alias)))).
Proof.
  intros H Hhd. unfold elasticsearch.ReindexOne in H. cbn in H.
  destruct H as (r & t' & -> & H). apply head_Ev in Hhd. subst r.
  split; intros Hnf; rewrite Hnf in H; cbn [negb] in H.
  - exists t'. split; [reflexivity|].
    change (exec (elasticsearch.restoreAndSwap alias newIndex noUpdateAlias bulkIndexing) t' o) in H.
    split; [|split; [exact H|split; [|split; [|split]]]].
    + cbn. constructor; [reflexivity|].
      eapply never_exec; [|exact H]. unfold elasticsearch.restoreAndSwap.
      apply never_andThen.
      * destruct (negb noUpdateAlias || negb bulkIndexing);
          [apply restoreSettings_never_reindex|exact I].
      * destruct (negb noUpdateAlias); [apply UpdateAlias_never_reindex|exact I].
    + intros -> ->. cbn in H. exact H.
    + intros Hflags. eapply restoreAndSwap_restores; [|exact H].
      destruct Hflags as [-> | ->]; [reflexivity|apply andb_false_r].
    + intros e ->. eapply error_after_failure; [|exact H].
      apply faithful_restoreAndSwap.
    + intros ->. apply exec_restoreAndSwap_nil in H as (Hr & Hs & Hq & _).
      auto.
  - destruct H as [-> ->]. auto.
Qed.

Lemma ReindexOne_alias_not_found_witness :
  let r := run (Cluster.answer Examples.decode_plain)
               (elasticsearch.ReindexOne "twitter" "twitter-1" "" false false false)
               Examples.ready_to_swap in
  let err := ElasticError 404 "alias missing" in
  exec (elasticsearch.ReindexOne "twitter" "twitter-1" "" false false false)
       r.2 (Returned None) /\
  head r.2 = Some (Ev (Aliases "twitter") (Err err)) /\
  Forall (fun c => is_reindex c = false) (calls r.2) /\
  restored "twitter" "twitter-1" (tail r.2) /\
  swapped "twitter" "twitter-1" (tail r.2).
Proof.
  intros r err.
  assert (E : exec (elasticsearch.ReindexOne "twitter" "twitter-1" "" false false false)
                   r.2 (Returned None)).
  { replace (Returned None) with r.1.1 by (vm_compute; reflexivity).
    exact (run_exec_proj (Cluster.answer Examples.decode_plain)
             (elasticsearch.ReindexOne "twitter" "twitter-1" "" false false false)
             Examples.ready_to_swap). }
  assert (Hhd : head r.2 = Some (Ev (Aliases "twitter") (Err err)))
    by (vm_compute; reflexivity).
  split; [exact E|]. split; [exact Hhd|].
  destruct (proj1 (ReindexOne_alias_not_found
                     "twitter" "twitter-1" false false false err r.2
                     (Returned None) E Hhd)
                  eq_refl) as (t' & Ht & Hno & _ & _ & _ & _ & Hnil).
  split; [exact Hno|].
  destruct (Hnil eq_refl) as (Hr & Hs & _).
  assert (Ht' : t' = tail r.2) by (rewrite Ht; reflexivity).
  rewrite <- Ht'. split; [apply Hr; left; reflexivity|].
  destruct (Hs eq_refl) as [Hs'|[He _]]; [exact Hs'|].
  rewrite Ht' in He. vm_compute in He. discriminate He.
Defined.


